(** * Mouse-trajectory experiment: a shallow embedding of [mouse_experiment.py]

    The development follows the Python module function by function.
    - Times, delays and interpolated coordinates are Python floats; they are
      modelled as exact rationals ([Q]), so every statement about them is a
      statement about the arithmetic the code asks for, not about IEEE
      rounding.
    - Pandas frames are lists of rows, Python dicts are [gmap string cell].
    - Whatever the module obtains from the outside (the clock, the random
      module, the item under the pointer, the operating-system probe, the
      contents of the two csv files) is an explicit input.
    - Python exceptions are the [Raise] results of [result]. *)

From Stdlib Require Import ZArith QArith Qround Lia Lqa Ascii.
From stdpp Require Import base list gmap strings sorting pretty.

Local Open Scope Z_scope.

(** ** Exceptions *)

Inductive exn :=
  IndexError | ValueError | KeyError | TypeError | OverflowError.

Inductive result (A : Type) :=
| Ok (a : A)
| Raise (e : exn).
Arguments Ok {A} a.
Arguments Raise {A} e.

Definition bind {A B} (m : result A) (k : A → result B) : result B :=
  match m with
  | Ok a => k a
  | Raise e => Raise e
  end.

Notation "'do' x <- m ; k" := (bind m (λ x, k))
  (at level 10, x name, m at level 100, k at level 200).

(** ** Samplers (lines 327-349)

    The four samplers are generator functions whose body is
    [while True: yield random....].  Calling a generator function runs none
    of its body: the call only packages the arguments in a suspended
    generator object, so the constructors below are the calls.  [next]
    runs the body up to its [yield]; the number the random module draws is
    the argument [r]. *)

Module Sampler.

Inductive generator :=
| regular_orientation_sampler (N : Z)
| choice_sampler (choices : list Z)
| uniform_sampler (minimum maximum : Q)
| range_sampler (start stop : Z).

(** What a sampler yields.  [Turn k N] stands for the float
    [2 * math.pi * k / N]. *)
Inductive value :=
| Turn (k N : Z)
| Int (z : Z)
| Float (q : Q).

(** The call of a sampler function: always a generator object. *)
Definition new (g : generator) : result generator := Ok g.

(** [random.randrange(start, stop)]: [ValueError] on an empty range. *)
Definition randrange (start stop : Z) (r : nat) : result Z :=
  if decide (start < stop)
  then Ok (start + Z.of_nat r `mod` (stop - start))
  else Raise ValueError.

(** [random.choice(seq)]: [IndexError] on an empty sequence. *)
Definition choice (seq : list Z) (r : nat) : result Z :=
  match seq !! (r `mod` length seq)%nat with
  | Some z => Ok z
  | None => Raise IndexError
  end.

(** [random.random()], a float of [[0, 1)] with 53 random bits. *)
Definition random (r : nat) : Q :=
  Qmake (Z.of_nat r `mod` 2 ^ 53) (2 ^ 53).

(** [random.uniform(a, b)] is [a + (b - a) * random()]. *)
Definition uniform (a b : Q) (r : nat) : Q :=
  (a + (b - a) * random r)%Q.

Definition next (g : generator) (r : nat) : result value :=
  match g with
  | regular_orientation_sampler N =>
      do k <- randrange 0 N r; Ok (Turn k N)
  | choice_sampler choices =>
      do z <- choice choices r; Ok (Int z)
  | uniform_sampler minimum maximum =>
      Ok (Float (uniform minimum maximum r))
  | range_sampler start stop =>
      do z <- randrange start stop r; Ok (Int z)
  end.

End Sampler.

(** ** Frames *)

(** A cell of a csv table or a value of a settings dict.  [CNaN] is the
    value pandas gives for an empty field, the float NaN. *)
Inductive cell :=
| CInt (z : Z)
| CFloat (q : Q)
| CStr (s : string)
| CNaN.

(** A row of the paths frame, columns [trial, t, x, y] (line 666). *)
Record Sample := {
  s_trial : Z;
  s_t : Q;
  s_x : Z;
  s_y : Z
}.

(** A row of an interpolated path, columns [trial, t, x, y] (line 793). *)
Record Row := {
  r_trial : Z;
  r_t : Q;
  r_x : Q;
  r_y : Q
}.

(** ** Path interpolation (lines 772-794) *)

Definition Qlt_bool (a b : Q) : bool := negb (Qle_bool b a).

(** [np.min], [np.max]: [ValueError] on an empty array. *)
Definition np_min (l : list Q) : result Q :=
  match l with
  | [] => Raise ValueError
  | a :: l' => Ok (foldl (λ m v, if Qlt_bool v m then v else m) a l')
  end.

Definition np_max (l : list Q) : result Q :=
  match l with
  | [] => Raise ValueError
  | a :: l' => Ok (foldl (λ m v, if Qlt_bool m v then v else m) a l')
  end.

(** [math.ceil] *)
Definition ceil (q : Q) : Z := Qceiling q.

(** [range(a, b)] *)
Definition range (a b : Z) : list Z := seqZ a (b - a).

(** *** [scipy.interpolate.interp1d(x, y, kind='linear')]

    With the defaults [assume_sorted=False] and [bounds_error=True] the
    constructor sorts the points by [x] with a stable sort and refuses
    arrays with no entry; a call evaluates the broken line through the
    points and raises [ValueError] when an abscissa lies outside
    [[x[0], x[-1]]].  For these column types the evaluation is
    [numpy.interp]. *)

Fixpoint insert_knot (k : Q * Q) (l : list (Q * Q)) : list (Q * Q) :=
  match l with
  | [] => [k]
  | h :: l' =>
      if Qle_bool (fst k) (fst h) then k :: l else h :: insert_knot k l'
  end.

(** The stable sort of the points [(x_i, y_i)] on [x]. *)
Definition argsort (x y : list Q) : list (Q * Q) :=
  foldr insert_knot [] (zip x y).

Definition interp1d (x y : list Q) : result (list (Q * Q)) :=
  if negb (length x =? length y)%nat then Raise ValueError
  else if (length x <? 1)%nat then Raise ValueError
  else Ok (argsort x y).

(** [numpy.interp] at one abscissa [v] of the range: with [j] the last
    index such that [x[j] <= v], the value is [y[j]] when [j] is the last
    point or [x[j] == v], and the point of the segment from [j] to [j+1]
    otherwise. *)
Fixpoint np_interp (f : list (Q * Q)) (v : Q) : Q :=
  match f with
  | [] => 0
  | (x0, y0) :: rest =>
      match rest with
      | [] => y0
      | (x1, y1) :: _ =>
          if Qle_bool x1 v then np_interp rest v
          else if Qeq_bool x0 v then y0
          else ((y1 - y0) / (x1 - x0) * (v - x0) + y0)%Q
      end
  end.

Definition x_first (f : list (Q * Q)) : Q := default 0%Q (fst <$> head f).
Definition x_last (f : list (Q * Q)) : Q := default 0%Q (fst <$> last f).

(** The call [f(x_new)] of an interpolation object. *)
Definition interp1d_call (f : list (Q * Q)) (x_new : list Q)
  : result (list Q) :=
  let y_new := np_interp f <$> x_new in
  if existsb (λ v, Qlt_bool v (x_first f)) x_new then Raise ValueError
  else if existsb (λ v, Qlt_bool (x_last f) v) x_new then Raise ValueError
  else Ok y_new.

(** [pd.DataFrame({'trial': ..., 't': ..., 'x': ..., 'y': ...})] *)
Fixpoint DataFrame (trial : list Z) (t x y : list Q) : list Row :=
  match trial, t, x, y with
  | tr :: trial', t0 :: t', x0 :: x', y0 :: y' =>
      {| r_trial := tr; r_t := t0; r_x := x0; r_y := y0 |}
        :: DataFrame trial' t' x' y'
  | _, _, _, _ => []
  end.

(** [Experiment.interpolate]; [self_trial] is [self.trial]. *)
Definition interpolate (self_trial : Z) (df : list Sample)
  : result (list Row) :=
  let t := s_t <$> df in
  let x := (λ s, inject_Z (s_x s)) <$> df in
  let y := (λ s, inject_Z (s_y s)) <$> df in
  do f_x <- interp1d t x;
  do f_y <- interp1d t y;
  do min_t <- np_min t;
  do max_t <- np_max t;
  let new_t := range (ceil (min_t * 1000)) (ceil (max_t * 1000)) in
  let new_t_old := (λ s, (1 # 1000) * inject_Z s)%Q <$> new_t in
  do new_x <- interp1d_call f_x new_t_old;
  do new_y <- interp1d_call f_y new_t_old;
  let se_trial := replicate (length new_t) self_trial in
  Ok (DataFrame se_trial new_t_old new_x new_y).

(** ** Settings and trial properties *)

(** [UserSettings.accepted_keys] (lines 359-368) *)
Definition UserSettings_accepted_keys : list string :=
  ["use_tue_laptop"; "input_method"; "mouse_speed"; "mouse_accuracy";
   "trackpad_speed_set"; "right_handed"; "right_mouse_handed";
   "right_trackpad_handed"; "major"; "gender"].

(** [SystemSettings.accepted_keys] (lines 372-381) *)
Definition SystemSettings_accepted_keys : list string :=
  ["touchpad_speed"; "touchpad_honor"; "mouse_speed_rec";
   "mouse_threshold_1"; "mouse_threshold_2"; "mouse_acceleration";
   "platform"; "platform_version"; "screen_width"; "screen_height"].

(** [d[k]] on a dict: [KeyError] when the key is absent. *)
Definition getitem (d : gmap string cell) (k : string) : result cell :=
  match d !! k with
  | Some v => Ok v
  | None => Raise KeyError
  end.

(** [[d[_] for _ in keys]] *)
Fixpoint getitems (d : gmap string cell) (keys : list string)
  : result (list cell) :=
  match keys with
  | [] => Ok []
  | k :: keys' =>
      do v <- getitem d k;
      do vs <- getitems d keys';
      Ok (v :: vs)
  end.

(** Python's [c == z] for an integer [z]. *)
Definition cell_eq_int (c : cell) (z : Z) : bool :=
  match c with
  | CInt z' => bool_decide (z' = z)
  | CFloat q => Qeq_bool q (inject_Z z)
  | CStr _ => false
  | CNaN => false
  end.

(** A row of the properties frame: the columns [trial] and
    [trial_for_input_method], and the cells of the remaining columns
    (user settings, system settings, [target_x], [target_y],
    [target_radius], [delay]) by column name.  A frame has the columns for
    which one of its rows has a cell; where a row has no cell for a column
    of its frame, the field is empty (NaN), as in the rows [pd.concat]
    takes from a frame that lacks the column. *)
Record TrialProps := {
  p_trial : Z;
  p_trial_for_input_method : Z;
  p_cells : gmap string cell
}.

(** [row['input_method'] == m] *)
Definition has_input_method (m : Z) (row : TrialProps) : bool :=
  match p_cells row !! "input_method" with
  | Some c => cell_eq_int c m
  | None => false
  end.

Module ExperimentSettings.
Record t := mk { max_nr_paths : Z; max_training_nr : Z }.
End ExperimentSettings.

Module CollectionStatus.
Record t := mk {
  nr_mouse_trials_collected : Z;
  nr_trackpad_trials_collected : Z;
  last_trackpad_trial_nr : Z;
  last_mouse_trial_nr : Z;
  last_trial_nr : Z
}.
End CollectionStatus.

(** ** The Tk side of the experiment

    Only what the callbacks can observe or change: the single-shot timers
    of [root.after] that have neither fired nor been cancelled, the target
    ovals on the canvas, the two text items and the message boxes shown.
    Item 1 is the red square, 2 the instruction text, 3 the counter text;
    timers and items get fresh numbers. *)
Record Tk := {
  after_pending : list nat;
  after_count : nat;
  canvas_ovals : list nat;
  canvas_count : nat;
  text_of_text_id : string;
  text_of_counter_id : string;
  showinfo_log : list string
}.

Definition middle_id : nat := 1.
Definition text_id : nat := 2.
Definition counter_id : nat := 3.

(** [root.after(delay, callback)]: the new timer and its id. *)
Definition after (k : Tk) : nat * Tk :=
  (after_count k,
   {| after_pending := after_pending k ++ [after_count k];
      after_count := S (after_count k);
      canvas_ovals := canvas_ovals k;
      canvas_count := canvas_count k;
      text_of_text_id := text_of_text_id k;
      text_of_counter_id := text_of_counter_id k;
      showinfo_log := showinfo_log k |}).

(** [root.after_cancel(id)]: no effect on a timer that is not pending. *)
Definition after_cancel (id : nat) (k : Tk) : Tk :=
  {| after_pending := filter (λ j, j ≠ id) (after_pending k);
     after_count := after_count k;
     canvas_ovals := canvas_ovals k;
     canvas_count := canvas_count k;
     text_of_text_id := text_of_text_id k;
     text_of_counter_id := text_of_counter_id k;
     showinfo_log := showinfo_log k |}.

(** [w.create_oval(...)] *)
Definition create_oval (k : Tk) : nat * Tk :=
  (canvas_count k,
   {| after_pending := after_pending k;
      after_count := after_count k;
      canvas_ovals := canvas_ovals k ++ [canvas_count k];
      canvas_count := S (canvas_count k);
      text_of_text_id := text_of_text_id k;
      text_of_counter_id := text_of_counter_id k;
      showinfo_log := showinfo_log k |}).

(** [w.delete(id)]; [w.delete(None)] deletes nothing. *)
Definition delete (id : option nat) (k : Tk) : Tk :=
  {| after_pending := after_pending k;
     after_count := after_count k;
     canvas_ovals := filter (λ j, Some j ≠ id) (canvas_ovals k);
     canvas_count := canvas_count k;
     text_of_text_id := text_of_text_id k;
     text_of_counter_id := text_of_counter_id k;
     showinfo_log := showinfo_log k |}.

(** [w.itemconfigure(self.text_id, text=s)] *)
Definition set_text (s : string) (k : Tk) : Tk :=
  {| after_pending := after_pending k;
     after_count := after_count k;
     canvas_ovals := canvas_ovals k;
     canvas_count := canvas_count k;
     text_of_text_id := s;
     text_of_counter_id := text_of_counter_id k;
     showinfo_log := showinfo_log k |}.

(** [w.itemconfigure(self.counter_id, text=s)] *)
Definition set_counter (s : string) (k : Tk) : Tk :=
  {| after_pending := after_pending k;
     after_count := after_count k;
     canvas_ovals := canvas_ovals k;
     canvas_count := canvas_count k;
     text_of_text_id := text_of_text_id k;
     text_of_counter_id := s;
     showinfo_log := showinfo_log k |}.

(** [messagebox.showinfo(title, ...)] *)
Definition showinfo (title : string) (k : Tk) : Tk :=
  {| after_pending := after_pending k;
     after_count := after_count k;
     canvas_ovals := canvas_ovals k;
     canvas_count := canvas_count k;
     text_of_text_id := text_of_text_id k;
     text_of_counter_id := text_of_counter_id k;
     showinfo_log := showinfo_log k ++ [title] |}.

(** ** The experiment (class [Experiment], lines 396-794) *)

Record Experiment := {
  _user_settings : gmap string cell;
  input_method : cell;
  max_nr_paths : Z;
  trial : Z;
  max_training_nr : Z;
  job : option nat;
  nr_mouse_trials_collected : Z;
  nr_trackpad_trials_collected : Z;
  trackpad_trial_nr : Z;
  mouse_trial_nr : Z;
  start_time : Q;
  list_with_dataframes : list (list Sample);
  interpolated_paths : list (list Row);
  prop_list : list TrialProps;
  mouse_list : list Sample;
  collect_data : bool;
  experiment_scheduled : bool;
  target_radius : Z;
  delay : Q;
  target_x : Z;
  target_y : Z;
  schedule_time : Q;
  target_id : option nat
}.

Definition window_size : Z := 700.
Definition x_origin : Z := window_size `div` 2.
Definition y_origin : Z := window_size `div` 2.

(** The samplers chosen in [__init__] (lines 449-452); no callback
    replaces them. *)
Definition orientation_sampler := Sampler.regular_orientation_sampler 8.
Definition radius_sampler := Sampler.choice_sampler [3; 6; 9].
Definition distance_sampler :=
  Sampler.uniform_sampler 100 (inject_Z window_size / 2 - 60).
Definition delay_sampler := Sampler.range_sampler 2000 4000.

(** [Experiment.counter_text] *)
Definition counter_text (e : Experiment) : string :=
  "Paths collected:      Trackpad: "
  +:+ pretty (nr_trackpad_trials_collected e `min` max_nr_paths e)
  +:+ "/" +:+ pretty (max_nr_paths e)
  +:+ "      Mouse: "
  +:+ pretty (nr_mouse_trials_collected e `min` max_nr_paths e)
  +:+ "/" +:+ pretty (max_nr_paths e).

(** [Experiment.__init__]; [clock] is the reading of
    [time.perf_counter()].  The numbers of the collection status are
    integers here; those that [start] reads from the history with
    [Series.max()] are [numpy.int64] values in the code, which agree with
    the integers as long as sums stay below [2^63].  The trial counter of
    the input method that is not in use is an attribute the class never
    creates and never reads; it is 0 here. *)
Definition Experiment_init (user_settings : gmap string cell)
    (experiment_settings : ExperimentSettings.t)
    (collection_status : CollectionStatus.t) (clock : Q)
  : result (Experiment * Tk) :=
  do im <- getitem user_settings "input_method";
  let e :=
    {| _user_settings := user_settings;
       input_method := im;
       max_nr_paths := ExperimentSettings.max_nr_paths experiment_settings;
       trial := CollectionStatus.last_trial_nr collection_status + 1;
       max_training_nr :=
         ExperimentSettings.max_training_nr experiment_settings;
       job := None;
       nr_mouse_trials_collected :=
         CollectionStatus.nr_mouse_trials_collected collection_status;
       nr_trackpad_trials_collected :=
         CollectionStatus.nr_trackpad_trials_collected collection_status;
       trackpad_trial_nr :=
         if cell_eq_int im 0
         then CollectionStatus.last_trackpad_trial_nr collection_status + 1
         else 0;
       mouse_trial_nr :=
         if cell_eq_int im 0 then 0
         else CollectionStatus.last_mouse_trial_nr collection_status + 1;
       start_time := clock;
       list_with_dataframes := [];
       interpolated_paths := [];
       prop_list := [];
       mouse_list := [];
       collect_data := false;
       experiment_scheduled := false;
       target_radius := 3;
       delay := 2000;
       target_x := 0;
       target_y := 0;
       schedule_time := clock;
       target_id := None |} in
  Ok (e,
      {| after_pending := [];
         after_count := 0;
         canvas_ovals := [];
         canvas_count := 4;
         text_of_text_id := "Move your mouse to the red square";
         text_of_counter_id :=
           if bool_decide (trial e ≤ max_training_nr e)
           then "Let's have some training rounds first"
           else counter_text e;
         showinfo_log := [] |}).

(** *** Events

    Each event carries what its callback reads from outside: the item under
    the pointer ([w.find_withtag(tk.CURRENT)], at most one item), the
    pointer coordinates, the readings of [time.perf_counter()] in the order
    the callback takes them, the draws of the random module, and for the
    timer callback the values of [math.cos] and [math.sin] at the drawn
    angle and the window geometry. *)

Record MotionEvent := {
  m_current : option nat;
  m_x : Z;
  m_y : Z;
  m_clock_schedule : Q;
  m_clock_sample : Q;
  m_random : nat
}.

Record ClickEvent := {
  c_current : option nat;
  c_x : Z;
  c_y : Z;
  c_clock : Q;
  c_mouse_props : gmap string cell
}.

Record TimerEvent := {
  t_current : option nat;
  t_clock_delay : Q;
  t_clock_start : Q;
  t_random_r : nat;
  t_random_phi : nat;
  t_random_radius : nat;
  t_cos : Q;
  t_sin : Q;
  t_rootx : Z;
  t_rooty : Z;
  t_pointerx : Z;
  t_pointery : Z;
  t_winfo_x : Z;
  t_winfo_y : Z
}.

(** Python's [round]: to the nearest integer, ties to the even one. *)
Definition py_round (q : Q) : Z :=
  let f := Qfloor q in
  let r := (q - inject_Z f)%Q in
  if Qlt_bool r (1 # 2) then f
  else if Qlt_bool (1 # 2) r then f + 1
  else if Z.even f then f else f + 1.

Definition keep_on_square : string :=
  "Keep your mouse on the red square to start the experiment".

(** *** [Experiment.start_experiment] (lines 504-573)

    An exception of a sampler leaves the callback where it is raised, with
    the assignments made so far. *)
Definition start_experiment (ev : TimerEvent) (w : Experiment * Tk)
  : Experiment * Tk :=
  let '(e, k) := w in
  if negb (bool_decide (t_current ev = Some middle_id)) then
    (e, set_text keep_on_square k)
  else
    let e1 :=
      {| _user_settings := _user_settings e; input_method := input_method e;
         max_nr_paths := max_nr_paths e; trial := trial e;
         max_training_nr := max_training_nr e;
         job := None;
         nr_mouse_trials_collected := nr_mouse_trials_collected e;
         nr_trackpad_trials_collected := nr_trackpad_trials_collected e;
         trackpad_trial_nr := trackpad_trial_nr e;
         mouse_trial_nr := mouse_trial_nr e;
         start_time := start_time e;
         list_with_dataframes := list_with_dataframes e;
         interpolated_paths := interpolated_paths e;
         prop_list := prop_list e;
         mouse_list := [];
         collect_data := true;
         experiment_scheduled := experiment_scheduled e;
         target_radius := target_radius e;
         delay := (t_clock_delay ev - schedule_time e)%Q;
         target_x := target_x e; target_y := target_y e;
         schedule_time := schedule_time e; target_id := target_id e |} in
    let k1 :=
      if bool_decide (trial e ≤ max_training_nr e)
      then set_text "Click the blue dot!" k
      else set_text "" k in
    match Sampler.next distance_sampler (t_random_r ev),
          Sampler.next orientation_sampler (t_random_phi ev) with
    | Ok (Sampler.Float random_r), Ok (Sampler.Turn _ _) =>
        let tx := py_round (random_r * t_cos ev) in
        let ty := py_round (random_r * t_sin ev) in
        match Sampler.next radius_sampler (t_random_radius ev) with
        | Ok (Sampler.Int radius) =>
            let '(oval, k2) := create_oval k1 in
            let x_win := t_pointerx ev - t_rootx ev in
            let y_win := t_pointery ev - t_rooty ev in
            let x := x_win - x_origin - t_winfo_x ev in
            let y := - y_win + y_origin + t_winfo_y ev in
            ({| _user_settings := _user_settings e;
                input_method := input_method e;
                max_nr_paths := max_nr_paths e; trial := trial e;
                max_training_nr := max_training_nr e;
                job := None;
                nr_mouse_trials_collected := nr_mouse_trials_collected e;
                nr_trackpad_trials_collected :=
                  nr_trackpad_trials_collected e;
                trackpad_trial_nr := trackpad_trial_nr e;
                mouse_trial_nr := mouse_trial_nr e;
                start_time := t_clock_start ev;
                list_with_dataframes := list_with_dataframes e;
                interpolated_paths := interpolated_paths e;
                prop_list := prop_list e;
                mouse_list :=
                  [{| s_trial := trial e; s_t := 0; s_x := x; s_y := y |}];
                collect_data := true;
                experiment_scheduled := experiment_scheduled e;
                target_radius := radius;
                delay := (t_clock_delay ev - schedule_time e)%Q;
                target_x := tx; target_y := ty;
                schedule_time := schedule_time e;
                target_id := Some oval |}, k2)
        | _ =>
            ({| _user_settings := _user_settings e;
                input_method := input_method e;
                max_nr_paths := max_nr_paths e; trial := trial e;
                max_training_nr := max_training_nr e;
                job := None;
                nr_mouse_trials_collected := nr_mouse_trials_collected e;
                nr_trackpad_trials_collected :=
                  nr_trackpad_trials_collected e;
                trackpad_trial_nr := trackpad_trial_nr e;
                mouse_trial_nr := mouse_trial_nr e;
                start_time := start_time e;
                list_with_dataframes := list_with_dataframes e;
                interpolated_paths := interpolated_paths e;
                prop_list := prop_list e;
                mouse_list := [];
                collect_data := true;
                experiment_scheduled := experiment_scheduled e;
                target_radius := target_radius e;
                delay := (t_clock_delay ev - schedule_time e)%Q;
                target_x := tx; target_y := ty;
                schedule_time := schedule_time e;
                target_id := target_id e |}, k1)
        end
    | _, _ => (e1, k1)
    end.

(** *** [Experiment.motion] (lines 575-642), in its three parts *)

(** Lines 593-623: schedule a trial when the pointer comes on the red
    square and none is scheduled. *)
Definition motion_schedule (ev : MotionEvent) (w : Experiment * Tk)
  : result (Experiment * Tk) :=
  let '(e, k) := w in
  if bool_decide (is_Some (m_current ev)) && negb (experiment_scheduled e)
  then
    if bool_decide (m_current ev = Some middle_id) then
      match Sampler.next delay_sampler (m_random ev) with
      | Ok (Sampler.Int d) =>
          let '(id, k1) := after k in
          let k2 :=
            if bool_decide (trial e < max_training_nr e) then
              set_text "Wait for blue dot to appear..."
                (set_counter ("Training: " +:+ pretty (trial e + 1) +:+ "/"
                              +:+ pretty (max_training_nr e)) k1)
            else if bool_decide (trial e = max_training_nr e) then
              set_counter (counter_text e) k1
            else set_text "" k1 in
          Ok ({| _user_settings := _user_settings e;
                 input_method := input_method e;
                 max_nr_paths := max_nr_paths e; trial := trial e;
                 max_training_nr := max_training_nr e;
                 job := Some id;
                 nr_mouse_trials_collected := nr_mouse_trials_collected e;
                 nr_trackpad_trials_collected :=
                   nr_trackpad_trials_collected e;
                 trackpad_trial_nr := trackpad_trial_nr e;
                 mouse_trial_nr := mouse_trial_nr e;
                 start_time := start_time e;
                 list_with_dataframes := list_with_dataframes e;
                 interpolated_paths := interpolated_paths e;
                 prop_list := prop_list e;
                 mouse_list := mouse_list e;
                 collect_data := collect_data e;
                 experiment_scheduled := true;
                 target_radius := target_radius e;
                 delay := inject_Z d;
                 target_x := target_x e; target_y := target_y e;
                 schedule_time := m_clock_schedule ev;
                 target_id := target_id e |}, k2)
      | Ok _ => Raise TypeError
      | Raise x => Raise x
      end
    else Ok w
  else Ok w.

(** Lines 625-632: cancel the scheduled trial when the pointer is off the
    red square. *)
Definition motion_cancel (ev : MotionEvent) (w : Experiment * Tk)
  : Experiment * Tk :=
  let '(e, k) := w in
  match job e with
  | Some id =>
      if bool_decide (m_current ev = Some middle_id) then w
      else
        ({| _user_settings := _user_settings e;
            input_method := input_method e;
            max_nr_paths := max_nr_paths e; trial := trial e;
            max_training_nr := max_training_nr e;
            job := None;
            nr_mouse_trials_collected := nr_mouse_trials_collected e;
            nr_trackpad_trials_collected := nr_trackpad_trials_collected e;
            trackpad_trial_nr := trackpad_trial_nr e;
            mouse_trial_nr := mouse_trial_nr e;
            start_time := start_time e;
            list_with_dataframes := list_with_dataframes e;
            interpolated_paths := interpolated_paths e;
            prop_list := prop_list e;
            mouse_list := mouse_list e;
            collect_data := collect_data e;
            experiment_scheduled := false;
            target_radius := target_radius e;
            delay := delay e;
            target_x := target_x e; target_y := target_y e;
            schedule_time := schedule_time e;
            target_id := target_id e |},
         after_cancel id (set_text keep_on_square k))
  | None => w
  end.

(** Lines 634-642: record the pointer while data is collected. *)
Definition motion_record (ev : MotionEvent) (w : Experiment * Tk)
  : Experiment * Tk :=
  let '(e, k) := w in
  if collect_data e then
    let x := m_x ev - x_origin in
    let y := - m_y ev + y_origin in
    ({| _user_settings := _user_settings e;
        input_method := input_method e;
        max_nr_paths := max_nr_paths e; trial := trial e;
        max_training_nr := max_training_nr e;
        job := job e;
        nr_mouse_trials_collected := nr_mouse_trials_collected e;
        nr_trackpad_trials_collected := nr_trackpad_trials_collected e;
        trackpad_trial_nr := trackpad_trial_nr e;
        mouse_trial_nr := mouse_trial_nr e;
        start_time := start_time e;
        list_with_dataframes := list_with_dataframes e;
        interpolated_paths := interpolated_paths e;
        prop_list := prop_list e;
        mouse_list :=
          mouse_list e
          ++ [{| s_trial := trial e;
                 s_t := (m_clock_sample ev - start_time e)%Q;
                 s_x := x; s_y := y |}];
        collect_data := collect_data e;
        experiment_scheduled := experiment_scheduled e;
        target_radius := target_radius e;
        delay := delay e;
        target_x := target_x e; target_y := target_y e;
        schedule_time := schedule_time e;
        target_id := target_id e |}, k)
  else w.

(** The callback: an exception of the delay sampler is raised before any
    assignment, and ends the callback. *)
Definition motion (ev : MotionEvent) (w : Experiment * Tk)
  : Experiment * Tk :=
  match motion_schedule ev w with
  | Ok w1 => motion_record ev (motion_cancel ev w1)
  | Raise _ => w
  end.

(** *** [Experiment.click] (lines 644-770) *)

(** Lines 757-770: the messages of a click that is not on the target. *)
Definition click_elsewhere (w : Experiment * Tk) : Experiment * Tk :=
  let '(e, k) := w in
  if negb (experiment_scheduled e) then
    (e, set_text ("First move your mouse to the red square "
                  +:+ "to start an experiment") k)
  else if negb (bool_decide (is_Some (job e))) then (e, set_text "Miss!" k)
  else w.

(** Lines 680-690: the properties of the trial. *)
Definition trial_props (e : Experiment) (mouse_props : gmap string cell)
  : result TrialProps :=
  let trial_for_input_method :=
    if cell_eq_int (input_method e) 0
    then trackpad_trial_nr e else mouse_trial_nr e in
  do user <- getitems (_user_settings e) UserSettings_accepted_keys;
  do system <- getitems mouse_props SystemSettings_accepted_keys;
  Ok {| p_trial := trial e;
        p_trial_for_input_method := trial_for_input_method;
        p_cells :=
          list_to_map
            (zip (UserSettings_accepted_keys ++ SystemSettings_accepted_keys
                  ++ ["target_x"; "target_y"; "target_radius"; "delay"])
                 (user ++ system
                  ++ [CInt (target_x e); CInt (target_y e);
                      CInt (target_radius e); CFloat (delay e)])) |}.

(** Lines 714-755: the counters and notices after the trial number has
    been advanced; [e] already carries the new trial number. *)
Definition click_notify (e : Experiment) (k : Tk) : Experiment * Tk :=
  if bool_decide (trial e > max_training_nr e) then
    let tp := if cell_eq_int (input_method e) 0
              then nr_trackpad_trials_collected e + 1
              else nr_trackpad_trials_collected e in
    let mo := if cell_eq_int (input_method e) 0
              then nr_mouse_trials_collected e
              else nr_mouse_trials_collected e + 1 in
    let e1 :=
      {| _user_settings := _user_settings e;
         input_method := input_method e;
         max_nr_paths := max_nr_paths e; trial := trial e;
         max_training_nr := max_training_nr e;
         job := job e;
         nr_mouse_trials_collected := mo;
         nr_trackpad_trials_collected := tp;
         trackpad_trial_nr := trackpad_trial_nr e;
         mouse_trial_nr := mouse_trial_nr e;
         start_time := start_time e;
         list_with_dataframes := list_with_dataframes e;
         interpolated_paths := interpolated_paths e;
         prop_list := prop_list e;
         mouse_list := mouse_list e;
         collect_data := collect_data e;
         experiment_scheduled := experiment_scheduled e;
         target_radius := target_radius e;
         delay := delay e;
         target_x := target_x e; target_y := target_y e;
         schedule_time := schedule_time e;
         target_id := target_id e |} in
    let k1 := set_counter (counter_text e1) k in
    let k2 :=
      if cell_eq_int (input_method e) 0 && bool_decide (tp = max_nr_paths e)
      then if bool_decide (mo < max_nr_paths e)
           then showinfo "Trackpad paths finished" k1
           else showinfo "All done!" k1
      else k1 in
    let k3 :=
      if cell_eq_int (input_method e) 1 && bool_decide (mo = max_nr_paths e)
      then if bool_decide (tp < max_nr_paths e)
           then showinfo "Mouse paths finished" k2
           else showinfo "All done!" k2
      else k2 in
    (e1, k3)
  else if bool_decide (trial e = max_training_nr e) then
    (e, showinfo "Training completed!"
          (set_counter "Training completed! Now let's collect data" k))
  else (e, k).

(** The callback.  An exception of [interpolate] or of a dict lookup
    leaves it where it is raised, with the assignments made so far. *)
Definition click (ev : ClickEvent) (w : Experiment * Tk)
  : Experiment * Tk :=
  let '(e, k) := w in
  let on_target :=
    match c_current ev with
    | Some i => bool_decide (target_id e = Some i)
    | None => false
    end in
  if negb on_target then click_elsewhere w
  else
    let x := c_x ev - x_origin in
    let y := - c_y ev + y_origin in
    let df :=
      mouse_list e
      ++ [{| s_trial := trial e; s_t := (c_clock ev - start_time e)%Q;
             s_x := x; s_y := y |}] in
    let k1 := set_text "You did it!" k in
    let stopped (ip : list (list Row)) :=
      {| _user_settings := _user_settings e;
         input_method := input_method e;
         max_nr_paths := max_nr_paths e; trial := trial e;
         max_training_nr := max_training_nr e;
         job := job e;
         nr_mouse_trials_collected := nr_mouse_trials_collected e;
         nr_trackpad_trials_collected := nr_trackpad_trials_collected e;
         trackpad_trial_nr := trackpad_trial_nr e;
         mouse_trial_nr := mouse_trial_nr e;
         start_time := start_time e;
         list_with_dataframes := list_with_dataframes e ++ [df];
         interpolated_paths := ip;
         prop_list := prop_list e;
         mouse_list := df;
         collect_data := collect_data e;
         experiment_scheduled := experiment_scheduled e;
         target_radius := target_radius e;
         delay := delay e;
         target_x := target_x e; target_y := target_y e;
         schedule_time := schedule_time e;
         target_id := target_id e |} in
    match interpolate (trial e) df with
    | Raise _ => (stopped (interpolated_paths e), k1)
    | Ok path =>
        match trial_props e (c_mouse_props ev) with
        | Raise _ => (stopped (interpolated_paths e ++ [path]), k1)
        | Ok props =>
            let k2 :=
              set_text "Move your mouse back to the red square"
                (delete (target_id e) k1) in
            click_notify
              {| _user_settings := _user_settings e;
                 input_method := input_method e;
                 max_nr_paths := max_nr_paths e;
                 trial := trial e + 1;
                 max_training_nr := max_training_nr e;
                 job := job e;
                 nr_mouse_trials_collected := nr_mouse_trials_collected e;
                 nr_trackpad_trials_collected :=
                   nr_trackpad_trials_collected e;
                 trackpad_trial_nr :=
                   if cell_eq_int (input_method e) 0
                   then trackpad_trial_nr e + 1 else trackpad_trial_nr e;
                 mouse_trial_nr :=
                   if cell_eq_int (input_method e) 0
                   then mouse_trial_nr e else mouse_trial_nr e + 1;
                 start_time := start_time e;
                 list_with_dataframes := list_with_dataframes e ++ [df];
                 interpolated_paths := interpolated_paths e ++ [path];
                 prop_list := prop_list e ++ [props];
                 mouse_list := [];
                 collect_data := false;
                 experiment_scheduled := false;
                 target_radius := target_radius e;
                 delay := delay e;
                 target_x := target_x e; target_y := target_y e;
                 schedule_time := schedule_time e;
                 target_id := target_id e |} k2
        end
    end.

(** *** The event loop

    Tk runs one callback at a time.  A motion or click event reports an
    item that is on the canvas; a timer fires when it is pending, and is
    then no longer pending. *)

Inductive event :=
| Motion (ev : MotionEvent)
| Click (ev : ClickEvent)
| Timer (id : nat) (ev : TimerEvent).

Definition items (k : Tk) : list nat :=
  [middle_id; text_id; counter_id] ++ canvas_ovals k.

Definition current_ok (k : Tk) (current : option nat) : bool :=
  match current with
  | Some i => bool_decide (i ∈ items k)
  | None => true
  end.

Definition step (ev : event) (w : Experiment * Tk)
  : option (Experiment * Tk) :=
  match ev with
  | Motion m =>
      if current_ok w.2 (m_current m) then Some (motion m w) else None
  | Click c =>
      if current_ok w.2 (c_current c) then Some (click c w) else None
  | Timer id t =>
      if bool_decide (id ∈ after_pending w.2) && current_ok w.2 (t_current t)
      then Some (start_experiment t (w.1, after_cancel id w.2))
      else None
  end.

Fixpoint run (evs : list event) (w : Experiment * Tk)
  : option (Experiment * Tk) :=
  match evs with
  | [] => Some w
  | ev :: evs' =>
      match step ev w with
      | Some w' => run evs' w'
      | None => None
      end
  end.

(** ** The session (class [MouseExperiment], lines 27-224) *)

(** What is found where a csv file is expected: no file, a file
    [pd.read_csv] raises on, or a table. *)
Inductive file (A : Type) :=
| Absent
| Unreadable
| Table (rows : list A).
Arguments Absent {A}.
Arguments Unreadable {A}.
Arguments Table {A} rows.

Record Files := {
  paths_csv : file Sample;
  paths_props_csv : file TrialProps
}.

(** [read_old_properties] (lines 193-205); the third component is what the
    function prints. *)
Definition read_old_properties (fs : Files)
  : bool * option (list TrialProps) * list string :=
  match paths_props_csv fs with
  | Table df_props_old => (true, Some df_props_old, [])
  | Unreadable =>
      (false, None, ["exception occured while reading old properties file"])
  | Absent => (false, None, [])
  end.

(** Python's [int] on a string: the decimal digits of an integer, with
    single underscores between digits, after an optional sign, with
    whitespace before and after; every other string is refused, and so is
    one of more than 4300 digits ([sys.int_max_str_digits]).  The
    characters are those below 128. *)
Definition is_space (a : Ascii.ascii) : bool :=
  let n := Ascii.N_of_ascii a in
  ((9 <=? n) && (n <=? 13) || (28 <=? n) && (n <=? 32))%N.

Definition digit_value (a : Ascii.ascii) : option Z :=
  let n := Z.of_N (Ascii.N_of_ascii a) in
  if (48 <=? n) && (n <=? 57) then Some (n - 48) else None.

Fixpoint drop_spaces (l : list Ascii.ascii) : list Ascii.ascii :=
  match l with
  | a :: l' => if is_space a then drop_spaces l' else l
  | [] => []
  end.

(** [acc] is the number read so far, [n] the count of its digits, and
    [after_digit] tells that the last character was a digit. *)
Fixpoint int_digits (acc n : Z) (after_digit : bool)
    (l : list Ascii.ascii)
  : option Z :=
  match l with
  | [] => if after_digit && (n <=? 4300) then Some acc else None
  | a :: l' =>
      match digit_value a with
      | Some d => int_digits (10 * acc + d) (n + 1) true l'
      | None =>
          if after_digit && Ascii.eqb a "_"%char
          then int_digits acc n false l'
          else None
      end
  end.

Definition int_of_str (s : string) : option Z :=
  let l :=
    reverse (drop_spaces (reverse (drop_spaces (String.list_ascii_of_string s)))) in
  match l with
  | [] => None
  | a :: l' =>
      if Ascii.eqb a "+"%char then int_digits 0 0 false l'
      else if Ascii.eqb a "-"%char then Z.opp <$> int_digits 0 0 false l'
      else int_digits 0 0 false l
  end.

(** Python's [int] on a cell: a float is truncated, NaN and a string that
    is not an integer are refused. *)
Definition py_int (c : cell) : result Z :=
  match c with
  | CInt z => Ok z
  | CFloat q => Ok (if Qle_bool 0 q then Qfloor q else Qceiling q)
  | CStr s =>
      match int_of_str s with
      | Some z => Ok z
      | None => Raise ValueError
      end
  | CNaN => Raise ValueError
  end.

(** [k in df.columns] *)
Definition has_column (df : list TrialProps) (k : string) : bool :=
  existsb (λ row, match p_cells row !! k with
                  | Some _ => true
                  | None => false
                  end) df.

(** [df.iloc[-1][k]]: [IndexError] on a frame without rows, [KeyError]
    on a frame without the column, NaN for an empty field. *)
Definition iloc_last (df : list TrialProps) (k : string) : result cell :=
  match last df with
  | None => Raise IndexError
  | Some row =>
      match p_cells row !! k with
      | Some c => Ok c
      | None => if has_column df k then Ok CNaN else Raise KeyError
      end
  end.

(** [int(df.iloc[-1][k])] *)
Definition int_of_column (df : list TrialProps) (k : string) : result cell :=
  do c <- iloc_last df k;
  do z <- py_int c;
  Ok (CInt z).

(** [extract_user_settings] (lines 207-224) *)
Definition extract_user_settings (df_props_old : list TrialProps)
  : result (gmap string cell) :=
  do use_tue_laptop <- int_of_column df_props_old "use_tue_laptop";
  do mouse_speed <- int_of_column df_props_old "mouse_speed";
  do mouse_accuracy <- int_of_column df_props_old "mouse_accuracy";
  do right_handed <- int_of_column df_props_old "right_handed";
  do input_method <- int_of_column df_props_old "input_method";
  do major <- iloc_last df_props_old "major";
  do gender <- iloc_last df_props_old "gender";
  let settings : gmap string cell :=
    <["gender" := gender]>
    (<["major" := major]>
    (<["input_method" := input_method]>
    (<["right_handed" := right_handed]>
    (<["mouse_accuracy" := mouse_accuracy]>
    (<["mouse_speed" := mouse_speed]>
    (<["use_tue_laptop" := use_tue_laptop]> ∅)))))) in
  do settings1 <-
    (if has_column df_props_old "right_trackpad_handed"
     then do v <- int_of_column df_props_old "right_trackpad_handed";
          Ok (<["right_trackpad_handed" := v]> settings)
     else Ok settings);
  do settings2 <-
    (if has_column df_props_old "right_mouse_handed"
     then do v <- int_of_column df_props_old "right_mouse_handed";
          Ok (<["right_mouse_handed" := v]> settings1)
     else Ok settings1);
  (if has_column df_props_old "trackpad_speed_set"
   then do v <- int_of_column df_props_old "trackpad_speed_set";
        Ok (<["trackpad_speed_set" := v]> settings2)
   else Ok settings2).

(** [Series.max()] of an integer column, and [int] of it: the maximum of
    an empty column is NaN, which [int] refuses. *)
Definition int_max (l : list Z) : result Z :=
  match l with
  | [] => Raise ValueError
  | a :: l' => Ok (foldl Z.max a l')
  end.

(** [Series.nlargest(n)]: the [n] largest values, largest first. *)
Definition nlargest (n : Z) (l : list Z) : list Z :=
  take (Z.to_nat n) (merge_sort Z.ge l).

(** [df[df['input_method'] == m]['trial']] *)
Definition trials_of (m : Z) (df : list TrialProps) : list Z :=
  p_trial <$> filter (λ row, has_input_method m row) df.

(** Lines 57-118 of [MouseExperiment.start]: the collection status and
    the user settings handed to the settings form.  The last component
    tells whether the old frames are merged in at the end. *)
Definition start_history (es : ExperimentSettings.t) (fs : Files)
  : result (CollectionStatus.t * option (gmap string cell) * bool) :=
  let '(has_earlier_props, df_props_old, _) := read_old_properties fs in
  do read <-
    (match df_props_old with
     | Some df =>
         do last_trial_nr <- int_max (p_trial <$> df);
         do user_settings <- extract_user_settings df;
         Ok (last_trial_nr, Some user_settings)
     | None => Ok (-1, None)
     end);
  let '(last_trial_nr, user_settings) := read in
  let has_earlier_paths :=
    match paths_csv fs with Table _ => true | _ => false end in
  let max_nr_paths := ExperimentSettings.max_nr_paths es in
  let max_training_nr := ExperimentSettings.max_training_nr es in
  match df_props_old with
  | Some df =>
      if has_earlier_paths then
        let last_mouse_trials := nlargest max_nr_paths (trials_of 1 df) in
        let last_trackpad_trials := nlargest max_nr_paths (trials_of 0 df) in
        let mouse := filter (λ row, has_input_method 1 row) df in
        let trackpad := filter (λ row, has_input_method 0 row) df in
        Ok (CollectionStatus.mk
              (Z.of_nat (length
                 (filter (λ t : Z, max_training_nr ≤ t) last_mouse_trials)))
              (Z.of_nat (length
                 (filter (λ t : Z, max_training_nr ≤ t) last_trackpad_trials)))
              (match p_trial_for_input_method <$> trackpad with
               | [] => -1
               | a :: l => foldl Z.max a l
               end)
              (match p_trial_for_input_method <$> mouse with
               | [] => -1
               | a :: l => foldl Z.max a l
               end)
              last_trial_nr,
            user_settings, true)
      else
        Ok (CollectionStatus.mk 0 0 (-1) (-1) last_trial_nr,
            user_settings, false)
  | None =>
      Ok (CollectionStatus.mk 0 0 (-1) (-1) last_trial_nr,
          user_settings, false)
  end.

(** Lines 149-165: keep the rows of the last [max_nr_paths] mouse trials
    and of the last [max_nr_paths] trackpad trials. *)
Definition retain (max_nr_paths : Z) (df : list Sample)
    (df_trial_props : list TrialProps) : list Sample * list TrialProps :=
  let mouse_trials := nlargest max_nr_paths (trials_of 1 df_trial_props) in
  let trackpad_trials := nlargest max_nr_paths (trials_of 0 df_trial_props) in
  (filter (λ s, s_trial s ∈ mouse_trials ∨ s_trial s ∈ trackpad_trials) df,
   filter (λ row, p_trial row ∈ mouse_trials ∨ p_trial row ∈ trackpad_trials)
     df_trial_props).

(** [pd.concat(frames)]: [ValueError] without frames. *)
Definition pd_concat {A} (frames : list (list A)) : result (list A) :=
  match frames with
  | [] => Raise ValueError
  | _ => Ok (concat frames)
  end.

(** The old frames are concatenated with those of the session (lines
    144-147) when both files were read. *)
Definition merged (fs : Files) (merge : bool) : bool :=
  match merge, paths_csv fs, paths_props_csv fs with
  | true, Table _, Table _ => true
  | _, _, _ => false
  end.

(** Lines 127-180: what [start] returns and the two files after it;
    [experiment] is [self.experiment] when the main loop has ended.
    [pd.DataFrame(prop_list, columns=columns)] of an empty [prop_list] has
    columns of dtype [object]: unless the old frame gives the columns their
    dtype, [nlargest] (line 153) refuses them with [TypeError]. *)
Definition start_export (es : ExperimentSettings.t) (fs : Files)
    (merge : bool) (experiment : option Experiment)
  : result (option (list Sample * list Row * list TrialProps) * Files) :=
  match experiment with
  | None => Ok (None, fs)
  | Some e =>
      match list_with_dataframes e with
      | [] => Ok (None, fs)
      | _ =>
          do df <- pd_concat (list_with_dataframes e);
          let df_trial_props := prop_list e in
          let '(df, df_trial_props) :=
            match merge, paths_csv fs, paths_props_csv fs with
            | true, Table df_paths_old, Table df_props_old =>
                (df_paths_old ++ df, df_props_old ++ df_trial_props)
            | _, _, _ => (df, df_trial_props)
            end in
          match merged fs merge, prop_list e with
          | false, [] => Raise TypeError
          | _, _ =>
              let '(df, df_trial_props) :=
                retain (ExperimentSettings.max_nr_paths es) df
                  df_trial_props in
              do df_int <- pd_concat (interpolated_paths e);
              Ok (Some (df, df_int, df_trial_props),
                  {| paths_csv := Table df;
                     paths_props_csv := Table df_trial_props |})
          end
      end
  end.

(** [MouseExperiment.start].  [mainloop] stands for the settings form and
    the Tk main loop: from the collection status and the user settings
    offered to the form it yields [self.experiment]. *)
Definition start (es : ExperimentSettings.t) (fs : Files)
    (mainloop : CollectionStatus.t → option (gmap string cell)
                → option Experiment)
  : result (option (list Sample * list Row * list TrialProps) * Files) :=
  do h <- start_history es fs;
  let '(collection_status, user_settings, merge) := h in
  start_export es fs merge (mainloop collection_status user_settings).

(** [MouseExperiment.__init__] (lines 36-39) *)
Definition experiment_settings : ExperimentSettings.t :=
  ExperimentSettings.mk 15 5.

(** ** Specification predicates *)



(** The order of the points of an interpolation object. *)
Definition knot_le (a b : Q * Q) : Prop := (fst a <= fst b)%Q.

(** The whole milliseconds of the interval [[ceil(lo*1000),
    ceil(hi*1000))], in seconds. *)
Definition millisecond_grid (lo hi : Q) : list Q :=
  (λ s, (1 # 1000) * inject_Z s)%Q <$> range (ceil (lo * 1000)) (ceil (hi * 1000)).

(** *** Phases of the trial scheduler

    [idle]: no trial is scheduled.  [armed]: the pointer came on the red
    square and the timer of the delayed start is pending.  [stalled]: the
    timer has fired with the pointer off the red square.  [collecting]:
    the target is on the canvas and the pointer is recorded. *)

Definition idle (w : Experiment * Tk) : Prop :=
  experiment_scheduled w.1 = false ∧ job w.1 = None
  ∧ collect_data w.1 = false
  ∧ after_pending w.2 = [] ∧ canvas_ovals w.2 = [].

Definition armed_with (id : nat) (w : Experiment * Tk) : Prop :=
  experiment_scheduled w.1 = true ∧ job w.1 = Some id
  ∧ collect_data w.1 = false
  ∧ after_pending w.2 = [id] ∧ canvas_ovals w.2 = [].

Definition stalled (w : Experiment * Tk) : Prop :=
  experiment_scheduled w.1 = true ∧ is_Some (job w.1)
  ∧ collect_data w.1 = false
  ∧ after_pending w.2 = [] ∧ canvas_ovals w.2 = [].

Definition collecting (w : Experiment * Tk) : Prop :=
  experiment_scheduled w.1 = true ∧ job w.1 = None
  ∧ collect_data w.1 = true
  ∧ after_pending w.2 = []
  ∧ ∃ oval first rest,
      canvas_ovals w.2 = [oval] ∧ target_id w.1 = Some oval
      ∧ mouse_list w.1 = first :: rest ∧ s_t first = 0%Q.

(** The first sample of a path is taken at elapsed time 0. *)
Definition starts_at_zero (path : list Sample) : Prop :=
  ∃ first, head path = Some first ∧ s_t first = 0%Q.

(** What holds of the experiment between two callbacks. *)
Definition well_formed (w : Experiment * Tk) : Prop :=
  (idle w ∨ (∃ id, armed_with id w) ∨ stalled w ∨ collecting w)
  ∧ (∀ i, target_id w.1 = Some i → (4 ≤ i)%nat)
  ∧ (4 ≤ canvas_count w.2)%nat
  ∧ Forall starts_at_zero (list_with_dataframes w.1).

(** The sample a click on the target adds to the path. *)
Definition click_sample (c : ClickEvent) (e : Experiment) : Sample :=
  {| s_trial := trial e; s_t := (c_clock c - start_time e)%Q;
     s_x := c_x c - x_origin; s_y := - c_y c + y_origin |}.

(** The timer [id] has been handed out and is not pending: it has fired
    or it has been cancelled. *)
Definition spent (id : nat) (w : Experiment * Tk) : Prop :=
  (id < after_count w.2)%nat ∧ id ∉ after_pending w.2.

(** The pointer is on the red square at the event. *)
Definition on_square (ev : event) : Prop :=
  match ev with
  | Motion m => m_current m = Some middle_id
  | Click c => c_current c = Some middle_id
  | Timer _ _ => False
  end.

(** The number of distinct trial numbers from [threshold] on that the
    frame has for the input method [m]. *)
Definition distinct_trials (m threshold : Z) (df : list TrialProps) : nat :=
  length (remove_dups (filter (λ t, threshold ≤ t) (trials_of m df))).

(** ** Example data *)

(** A path of three samples over 0.8 seconds. *)
Definition example_path : list Sample :=
  [{| s_trial := 7; s_t := 0; s_x := 0; s_y := 0 |};
   {| s_trial := 7; s_t := 2 # 5; s_x := 30; s_y := -10 |};
   {| s_trial := 7; s_t := 4 # 5; s_x := 100; s_y := 50 |}].

(** A path whose two samples have the same time. *)
Definition example_still_path : list Sample :=
  [{| s_trial := 7; s_t := 0; s_x := 0; s_y := 0 |};
   {| s_trial := 7; s_t := 0; s_x := 12; s_y := 5 |}].

(** The settings form filled in for a mouse session. *)
Definition example_user_settings : gmap string cell :=
  list_to_map
    [("use_tue_laptop", CInt 1); ("input_method", CInt 1);
     ("mouse_speed", CInt 10); ("mouse_accuracy", CInt 1);
     ("trackpad_speed_set", CInt 5); ("right_handed", CInt 1);
     ("right_mouse_handed", CInt 1); ("right_trackpad_handed", CInt 1);
     ("major", CStr "Computer Science"); ("gender", CInt 0)].

(** The system settings where the probe of the operating system finds
    nothing. *)
Definition example_mouse_props : gmap string cell :=
  list_to_map
    [("touchpad_speed", CInt (-1)); ("touchpad_honor", CInt (-1));
     ("mouse_speed_rec", CInt (-1)); ("mouse_threshold_1", CInt (-1));
     ("mouse_threshold_2", CInt (-1)); ("mouse_acceleration", CInt (-1));
     ("platform", CStr "Linux"); ("platform_version", CStr "6.1");
     ("screen_width", CInt 1920); ("screen_height", CInt 1080)].

(** A fresh session. *)
Definition example_status : CollectionStatus.t :=
  CollectionStatus.mk 0 0 (-1) (-1) (-1).

(** The pointer comes on the red square at the centre of the window. *)
Definition example_enter : MotionEvent :=
  {| m_current := Some middle_id; m_x := 350; m_y := 350;
     m_clock_schedule := 10; m_clock_sample := 10; m_random := 500 |}.

(** The pointer moves to a place of the canvas without an item. *)
Definition example_leave : MotionEvent :=
  {| m_current := None; m_x := 420; m_y := 300;
     m_clock_schedule := 11; m_clock_sample := 11; m_random := 0 |}.

(** The timer fires with the pointer on the red square, or off it. *)
Definition example_fire (current : option nat) : TimerEvent :=
  {| t_current := current; t_clock_delay := 25 # 2; t_clock_start := 25 # 2;
     t_random_r := 1; t_random_phi := 2; t_random_radius := 1;
     t_cos := 0; t_sin := 1;
     t_rootx := 100; t_rooty := 100; t_pointerx := 450; t_pointery := 450;
     t_winfo_x := 0; t_winfo_y := 0 |}.

(** A click on the first target, 8 milliseconds after it has appeared. *)
Definition example_hit : ClickEvent :=
  {| c_current := Some 4%nat; c_x := 350; c_y := 250;
     c_clock := 12508 # 1000;
     c_mouse_props := example_mouse_props |}.

(** One complete trial. *)
Definition example_trial : list event :=
  [Motion example_enter; Timer 0 (example_fire (Some middle_id));
   Motion {| m_current := None; m_x := 350; m_y := 300;
             m_clock_schedule := 12504 # 1000;
             m_clock_sample := 12504 # 1000;
             m_random := 0 |};
   Click example_hit].


(** The properties of a mouse trial with the number [t]. *)
Definition example_row (t : Z) : TrialProps :=
  {| p_trial := t; p_trial_for_input_method := t;
     p_cells := example_user_settings ∪ example_mouse_props |}.

(** 20 earlier mouse trials, numbered 6 to 25, and a new one. *)
Definition example_history : list TrialProps := example_row <$> seqZ 6 20.
Definition example_new_trial : list TrialProps := [example_row 26].

(** The two csv files after those 20 trials; the paths are left out. *)
Definition example_files : Files :=
  {| paths_csv := Table []; paths_props_csv := Table example_history |}.

(** The properties of a trackpad trial with the number [t]. *)
Definition example_trackpad_row (t : Z) : TrialProps :=
  {| p_trial := t; p_trial_for_input_method := t;
     p_cells :=
       <["input_method" := CInt 0]>
         (example_user_settings ∪ example_mouse_props) |}.

(** Two csv files in which the mouse trials 5 to 24 and the trackpad
    trials 5 to 9 share trial numbers. *)
Definition example_shared_files : Files :=
  {| paths_csv := Table [];
     paths_props_csv :=
       Table ((example_trackpad_row <$> seqZ 5 5)
              ++ (example_row <$> seqZ 5 20)) |}.

(** A session of one trial: the settings form is confirmed as
    [example_user_settings] and the events of [example_trial] follow. *)
Definition example_mainloop (collection_status : CollectionStatus.t)
    (user_settings : option (gmap string cell)) : option Experiment :=
  match Experiment_init example_user_settings experiment_settings
          collection_status 0 with
  | Ok w0 => fst <$> run example_trial w0
  | Raise _ => None
  end.

(** ** More specification predicates *)

(** The dict [d] has every key of [keys]. *)
Definition complete (keys : list string) (d : gmap string cell) : Prop :=
  Forall (λ k, is_Some (d !! k)) keys.

(** The number of the trial for the input method in use (lines 673-676). *)
Definition method_trial_nr (e : Experiment) : Z :=
  if cell_eq_int (input_method e) 0
  then trackpad_trial_nr e else mouse_trial_nr e.

(** The system settings handed to a click have every accepted key. *)
Definition reader_complete (ev : event) : Prop :=
  match ev with
  | Click c => complete SystemSettings_accepted_keys (c_mouse_props c)
  | _ => True
  end.

(** The number of rows of a properties list that are past the training
    rounds. *)
Definition counted (max_training_nr : Z) (props : list TrialProps) : Z :=
  Z.of_nat (length (filter (λ row, max_training_nr ≤ p_trial row) props)).

(** The two states of the experiment have the same settings, counters and
    records. *)
Definition same_records (e e' : Experiment) : Prop :=
  _user_settings e' = _user_settings e
  ∧ input_method e' = input_method e
  ∧ max_training_nr e' = max_training_nr e
  ∧ trial e' = trial e
  ∧ trackpad_trial_nr e' = trackpad_trial_nr e
  ∧ mouse_trial_nr e' = mouse_trial_nr e
  ∧ nr_trackpad_trials_collected e' = nr_trackpad_trials_collected e
  ∧ nr_mouse_trials_collected e' = nr_mouse_trials_collected e
  ∧ list_with_dataframes e' = list_with_dataframes e
  ∧ interpolated_paths e' = interpolated_paths e
  ∧ prop_list e' = prop_list e.

(** The samples of [path] and the rows of [rows] carry one trial number. *)
Definition same_trial (path : list Sample) (rows : list Row) : Prop :=
  ∃ t, Forall (λ s, s_trial s = t) path ∧ Forall (λ r, r_trial r = t) rows.

(** The samples of [path] carry the trial number of the record [props]. *)
Definition recorded_as (path : list Sample) (props : TrialProps) : Prop :=
  Forall (λ s, s_trial s = p_trial props) path.

(** The Tk side is the same but for the instruction text. *)
Definition same_but_text (k k' : Tk) : Prop :=
  after_pending k' = after_pending k ∧ after_count k' = after_count k
  ∧ canvas_ovals k' = canvas_ovals k ∧ canvas_count k' = canvas_count k
  ∧ text_of_counter_id k' = text_of_counter_id k
  ∧ showinfo_log k' = showinfo_log k.

(** The path of a trial of number [tr] whose target appears at the timer
    event [t], with the pointer moving through [moves] to the click [c]. *)
Definition trial_path (tr : Z) (t : TimerEvent) (moves : list MotionEvent)
    (c : ClickEvent) : list Sample :=
  {| s_trial := tr; s_t := 0;
     s_x := t_pointerx t - t_rootx t - x_origin - t_winfo_x t;
     s_y := - (t_pointery t - t_rooty t) + y_origin + t_winfo_y t |}
  :: ((λ m, {| s_trial := tr;
               s_t := (m_clock_sample m - t_clock_start t)%Q;
               s_x := m_x m - x_origin; s_y := - m_y m + y_origin |})
      <$> moves)
  ++ [{| s_trial := tr; s_t := (c_clock c - t_clock_start t)%Q;
         s_x := c_x c - x_origin; s_y := - c_y c + y_origin |}].

(** The parameters of the running trial are the same in both states. *)
Definition same_target (e e' : Experiment) : Prop :=
  delay e' = delay e ∧ target_x e' = target_x e ∧ target_y e' = target_y e
  ∧ target_radius e' = target_radius e ∧ start_time e' = start_time e
  ∧ target_id e' = target_id e.

(** ** The settings form (class [Settings], lines 797-1032) *)

(** The Tk variables of the form, each with the Python value it was last
    set to, and the text of the error label. *)
Record Settings := {
  v_major : cell;
  v_use_tue_laptop : cell;
  v_mouse_speed : cell;
  v_trackpad_speed : cell;
  v_mouse_accuracy : cell;
  v_handed : cell;
  v_trackpad_hand : cell;
  v_mouse_hand : cell;
  v_input_method : cell;
  v_gender : cell;
  error_label : string
}.

Definition please_choose : string := "Please choose your major".

(** [Settings.__init__] (lines 799-850): the defaults, and the values of an
    earlier session when [user_settings] is a dict that is not empty. *)
Definition Settings_init (user_settings : option (gmap string cell))
  : result Settings :=
  let defaults :=
    {| v_major := CStr please_choose;
       v_use_tue_laptop := CInt (-1); v_mouse_speed := CInt (-1);
       v_trackpad_speed := CInt (-1); v_mouse_accuracy := CInt (-1);
       v_handed := CInt (-1); v_trackpad_hand := CInt (-1);
       v_mouse_hand := CInt (-1); v_input_method := CInt (-1);
       v_gender := CInt (-1); error_label := "" |} in
  match user_settings with
  | None => Ok defaults
  | Some d =>
      if bool_decide (d = ∅) then Ok defaults
      else
        do use_tue_laptop <- getitem d "use_tue_laptop";
        do mouse_speed <- getitem d "mouse_speed";
        do mouse_accuracy <- getitem d "mouse_accuracy";
        do right_handed <- getitem d "right_handed";
        let trackpad_hand := default (CInt (-1)) (d !! "right_trackpad_handed") in
        let mouse_hand := default (CInt (-1)) (d !! "right_mouse_handed") in
        let trackpad_speed := default (CInt (-1)) (d !! "trackpad_speed_set") in
        do input_method <- getitem d "input_method";
        do major <- getitem d "major";
        do gender <- getitem d "gender";
        Ok {| v_major := major;
              v_use_tue_laptop := use_tue_laptop;
              v_mouse_speed := mouse_speed;
              v_trackpad_speed := trackpad_speed;
              v_mouse_accuracy := mouse_accuracy;
              v_handed := right_handed;
              v_trackpad_hand := trackpad_hand;
              v_mouse_hand := mouse_hand;
              v_input_method := input_method;
              v_gender := gender;
              error_label := "" |}
  end.

(** What the ten [get()] calls of [Settings.ok] return (lines 994-1003):
    an [IntVar] gives an [int], the [StringVar] a [str]. *)
Record FormValues := {
  f_handed : Z;
  f_right_trackpad_handed : Z;
  f_right_mouse_handed : Z;
  f_use_tue_laptop : Z;
  f_mouse_speed : Z;
  f_trackpad_speed : Z;
  f_mouse_accuracy : Z;
  f_input_method : Z;
  f_major : string;
  f_gender : Z
}.

(** What pressing OK does: a text for the error label, or the call of the
    callback with the user settings. *)
Inductive ok_result :=
| Rejected (error_label_text : string)
| Accepted (user_settings : gmap string cell).

(** [Settings.ok] (lines 992-1028) *)
Definition Settings_ok (v : FormValues) : ok_result :=
  if bool_decide (f_handed v = -1)
     || bool_decide (f_right_trackpad_handed v = -1)
     || bool_decide (f_right_mouse_handed v = -1)
     || bool_decide (f_use_tue_laptop v = -1)
     || bool_decide (f_gender v = -1)
     || bool_decide (f_major v = please_choose)
     || bool_decide (f_input_method v = -1)
  then Rejected "Please fill in all the fields."
  else if bool_decide (f_use_tue_laptop v = 1)
          && (bool_decide (f_mouse_speed v < 1)
              || bool_decide (f_mouse_accuracy v < 1)
              || bool_decide (f_trackpad_speed v < 1))
  then Rejected "Please verify your mouse settings."
  else
    Accepted
      (list_to_map
         [("right_handed", CInt (f_handed v));
          ("right_trackpad_handed", CInt (f_right_trackpad_handed v));
          ("right_mouse_handed", CInt (f_right_mouse_handed v));
          ("use_tue_laptop", CInt (f_use_tue_laptop v));
          ("mouse_speed", CInt (f_mouse_speed v));
          ("trackpad_speed_set", CInt (f_trackpad_speed v));
          ("mouse_accuracy", CInt (f_mouse_accuracy v));
          ("input_method", CInt (f_input_method v));
          ("major", CStr (f_major v));
          ("gender", CInt (f_gender v))]).

(** [MouseExperiment.closed_settings] (lines 182-191), the callback of the
    form: the experiment is built from the user settings of the form. *)
Definition closed_settings (user_settings : gmap string cell)
    (experiment_settings : ExperimentSettings.t)
    (collection_status : CollectionStatus.t) (clock : Q)
  : result (Experiment * Tk) :=
  Experiment_init user_settings experiment_settings collection_status clock.

(** The values an [IntVar] returns are those the form holds. *)
Definition form_shows (s : Settings) (v : FormValues) : Prop :=
  v_handed s = CInt (f_handed v)
  ∧ v_trackpad_hand s = CInt (f_right_trackpad_handed v)
  ∧ v_mouse_hand s = CInt (f_right_mouse_handed v)
  ∧ v_use_tue_laptop s = CInt (f_use_tue_laptop v)
  ∧ v_mouse_speed s = CInt (f_mouse_speed v)
  ∧ v_trackpad_speed s = CInt (f_trackpad_speed v)
  ∧ v_mouse_accuracy s = CInt (f_mouse_accuracy v)
  ∧ v_input_method s = CInt (f_input_method v)
  ∧ v_major s = CStr (f_major v)
  ∧ v_gender s = CInt (f_gender v).

(** The values of a form filled in for a mouse session. *)
Definition example_form : FormValues :=
  {| f_handed := 1; f_right_trackpad_handed := 1; f_right_mouse_handed := 1;
     f_use_tue_laptop := 1; f_mouse_speed := 1; f_trackpad_speed := 1;
     f_mouse_accuracy := 1; f_input_method := 1;
     f_major := "Computer Science"; f_gender := 0 |}.

(** A row of a properties table written before the columns
    [right_trackpad_handed], [right_mouse_handed] and [trackpad_speed_set]
    existed. *)
Definition example_legacy_row : TrialProps :=
  {| p_trial := 3; p_trial_for_input_method := 3;
     p_cells :=
       list_to_map
         [("use_tue_laptop", CInt 1); ("input_method", CInt 1);
          ("mouse_speed", CInt 10); ("mouse_accuracy", CInt 1);
          ("right_handed", CInt 1); ("major", CStr "Computer Science");
          ("gender", CInt 0)] |}.

(** ** The reader of system settings (class [SystemSettingsReader],
    lines 226-325)

    What the reader reads from the operating system is given to it: when
    it is built, the names of the system and the value names of the
    registry key of the touchpad; at each reading, the outcome of each call
    of the registry and of [SystemParametersInfoA]. *)

Record System := {
  os_name : string;
  platform_system : string;
  platform_release : string;
  (** [EnumValue] over the values of the key, lines 252-259; [None] when
      one of the calls raises. *)
  registry_values : option (list string)
}.

(** [root.winfo_screenwidth()] and [root.winfo_screenheight()] *)
Record Screen := {
  winfo_screenwidth : Z;
  winfo_screenheight : Z
}.

Record WindowsProbe := {
  (** [ConnectRegistry] and [OpenKey], lines 279-281: [false] for an
      [OSError]. *)
  open_key : bool;
  (** [int(QueryValueEx(a_key, 'CursorSpeed')[0])]: [None] for an [OSError]
      of the query, [Raise] when [int] raises. *)
  cursor_speed : option (result Z);
  (** [QueryValueEx(a_key, 'HonorMouseAccelSetting')[0]]: [None] for an
      [OSError]. *)
  honor_mouse_accel : option cell;
  (** [speed.value] after [SystemParametersInfoA(112, ...)]: [None] when
      the call raises. *)
  spi_mouse_speed : option Z;
  (** [result[0]], [result[1]], [result[2]] after
      [SystemParametersInfoA(3, ...)]: [None] when the call raises. *)
  spi_mouse : option (Z * Z * Z)
}.

(** The attributes of a reader; [keys_to_read] is [None] as long as the
    attribute has not been assigned. *)
Record SystemSettingsReader := {
  _system_settings : gmap string cell;
  in_windows_10 : bool;
  keys_to_read : option (list string)
}.

(** What leaves a reading other than a result: the [AttributeError] of an
    attribute that does not exist, or the exception of [int]. *)
Inductive reader_exn :=
| AttributeError
| IntError (e : exn).

Inductive reading (A : Type) :=
| Returned (a : A)
| Raised (e : reader_exn).
Arguments Returned {A} a.
Arguments Raised {A} e.

(** [SystemSettingsReader.__init__] (lines 228-273); both [except] clauses
    of the listing print and go on. *)
Definition SystemSettingsReader_init (sys : System) (screen : Screen)
  : SystemSettingsReader :=
  let in_windows_10 :=
    bool_decide (os_name sys = "nt")
    && bool_decide (platform_release sys = "10") in
  {| _system_settings :=
       list_to_map
         [("touchpad_speed", CInt (-1)); ("touchpad_honor", CInt (-1));
          ("mouse_speed_rec", CInt (-1)); ("mouse_threshold_1", CInt (-1));
          ("mouse_threshold_2", CInt (-1)); ("mouse_acceleration", CInt (-1));
          ("platform", CStr (platform_system sys));
          ("platform_version", CStr (platform_release sys));
          ("screen_width", CInt (winfo_screenwidth screen));
          ("screen_height", CInt (winfo_screenheight screen))];
     in_windows_10 := in_windows_10;
     keys_to_read :=
       if in_windows_10 then
         match registry_values sys with
         | Some value_list =>
             Some (filter (λ k, k ∈ value_list)
                     ["CursorSpeed"; "HonorMouseAccelSetting"])
         | None => None
         end
       else None |}.

(** Lines 277-291: the first [try] of [extract_mouse_props_windows].  An
    [OSError] ends it with the assignments made so far; another exception
    leaves the method. *)
Definition read_touchpad (keys_to_read : option (list string))
    (p : WindowsProbe) (d : gmap string cell)
  : reading (gmap string cell) :=
  if negb (open_key p) then Returned d
  else
    match keys_to_read with
    | None => Raised AttributeError
    | Some keys =>
        let honor (d : gmap string cell) :=
          if bool_decide ("HonorMouseAccelSetting" ∈ keys) then
            match honor_mouse_accel p with
            | Some c => <["touchpad_honor" := c]> d
            | None => d
            end
          else d in
        if bool_decide ("CursorSpeed" ∈ keys) then
          match cursor_speed p with
          | Some (Ok z) => Returned (honor (<["touchpad_speed" := CInt z]> d))
          | Some (Raise e) => Raised (IntError e)
          | None => Returned d
          end
        else Returned (honor d)
    end.

(** Lines 293-315: the second [try], which catches every exception. *)
Definition read_mouse (p : WindowsProbe) (d : gmap string cell)
  : gmap string cell :=
  match spi_mouse_speed p with
  | None => d
  | Some speed =>
      let d := <["mouse_speed_rec" := CInt speed]> d in
      match spi_mouse p with
      | None => d
      | Some (threshold_1, threshold_2, acceleration) =>
          <["mouse_acceleration" := CInt acceleration]>
            (<["mouse_threshold_2" := CInt threshold_2]>
               (<["mouse_threshold_1" := CInt threshold_1]> d))
      end
  end.

(** [SystemSettingsReader.extract_mouse_props_windows] (lines 275-316) *)
Definition extract_mouse_props_windows (r : SystemSettingsReader)
    (p : WindowsProbe) : reading SystemSettingsReader :=
  match read_touchpad (keys_to_read r) p (_system_settings r) with
  | Raised e => Raised e
  | Returned d =>
      Returned {| _system_settings := read_mouse p d;
                  in_windows_10 := in_windows_10 r;
                  keys_to_read := keys_to_read r |}
  end.

(** [SystemSettingsReader.extract_mouse_properties] (lines 318-325): the
    reader after the call and the dict it returns, which is its own. *)
Definition extract_mouse_properties (r : SystemSettingsReader)
    (p : WindowsProbe) (screen : Screen)
  : reading (SystemSettingsReader * gmap string cell) :=
  match (if in_windows_10 r then extract_mouse_props_windows r p
         else Returned r) with
  | Raised e => Raised e
  | Returned r1 =>
      let d :=
        <["screen_height" := CInt (winfo_screenheight screen)]>
          (<["screen_width" := CInt (winfo_screenwidth screen)]>
             (_system_settings r1)) in
      Returned ({| _system_settings := d;
                   in_windows_10 := in_windows_10 r1;
                   keys_to_read := keys_to_read r1 |}, d)
  end.

(** The six settings that only Windows 10 provides. *)
Definition windows_keys : list string :=
  ["touchpad_speed"; "touchpad_honor"; "mouse_speed_rec";
   "mouse_threshold_1"; "mouse_threshold_2"; "mouse_acceleration"].

(** What holds of a reader between two readings. *)
Definition reader_ok (r : SystemSettingsReader) : Prop :=
  complete SystemSettings_accepted_keys (_system_settings r)
  ∧ (in_windows_10 r = false →
     Forall (λ k, _system_settings r !! k = Some (CInt (-1))) windows_keys).

(** A Linux system, and a Windows 10 system on which the values of the
    registry key cannot be listed. *)
Definition example_linux : System :=
  {| os_name := "posix"; platform_system := "Linux";
     platform_release := "6.1"; registry_values := None |}.

Definition example_windows : System :=
  {| os_name := "nt"; platform_system := "Windows";
     platform_release := "10"; registry_values := None |}.

Definition example_screen : Screen :=
  {| winfo_screenwidth := 1920; winfo_screenheight := 1080 |}.

Definition example_probe : WindowsProbe :=
  {| open_key := true; cursor_speed := Some (Ok 10);
     honor_mouse_accel := Some (CInt 1); spi_mouse_speed := Some 10;
     spi_mouse := Some (6, 10, 1) |}.

(** * Properties *)

(** ** Samplers *)

Section sampler_facts.
Import Sampler.

Lemma randrange_raises (start stop : Z) (r : nat) :
  randrange start stop r = Raise ValueError ↔ stop ≤ start.
Proof.
  unfold randrange. destruct (decide (start < stop)); split; intros;
    try discriminate; try lia; reflexivity.
Qed.

Lemma choice_raises (seq : list Z) (r : nat) :
  choice seq r = Raise IndexError ↔ seq = [].
Proof.
  unfold choice. split.
  - destruct seq as [|z seq]; [reflexivity|].
    destruct (lookup_lt_is_Some_2 (z :: seq) (r `mod` length (z :: seq))%nat)
      as [v Hv].
    + apply Nat.mod_upper_bound. discriminate.
    + rewrite Hv. discriminate.
  - intros ->. reflexivity.
Qed.

(** C8, as the code has it: building a sampler never fails, whatever
    its arguments.  A choice sampler raises [IndexError] exactly when a
    value is requested from an empty set of choices; a range sampler and
    an orientation sampler raise [ValueError] exactly when a value is
    requested from an empty range; a uniform sampler never raises. *)
Theorem samplers_raise_on_draw_only :
  (∀ g, new g = Ok g)
  ∧ (∀ choices r,
       next (choice_sampler choices) r = Raise IndexError ↔ choices = [])
  ∧ (∀ start stop r,
       next (range_sampler start stop) r = Raise ValueError
       ↔ stop ≤ start)
  ∧ (∀ N r,
       next (regular_orientation_sampler N) r = Raise ValueError ↔ N ≤ 0)
  ∧ (∀ minimum maximum r,
       next (uniform_sampler minimum maximum) r
       = Ok (Float (uniform minimum maximum r))).
Proof.
  split; [reflexivity|].
  split; [intros choices r|].
  { simpl. rewrite <- (choice_raises choices r).
    destruct (choice choices r) as [z|e]; simpl; split; congruence. }
  split; [intros lo hi r|].
  { simpl. rewrite <- (randrange_raises lo hi r).
    destruct (randrange lo hi r) as [z|e]; simpl; split; congruence. }
  split; [intros N r|reflexivity].
  simpl. rewrite <- (randrange_raises 0 N r).
  destruct (randrange 0 N r) as [z|e]; simpl; split; congruence.
Qed.

(** C8, as the specification has it, fails: the call of [choice_sampler] on no
    choice returns a generator; the error comes with the first value
    requested. *)
Lemma choice_sampler_empty_is_built :
  new (choice_sampler []) = Ok (choice_sampler [])
  ∧ next (choice_sampler []) 0 = Raise IndexError.
Proof. split; reflexivity. Qed.

End sampler_facts.

(** ** Trial history *)

(** C9: when the properties file is absent, or is there and cannot be
    parsed, the history is the one of a fresh session, and no exception is
    raised: last trial number -1, last trial numbers per input method -1,
    collected counts 0, no user settings, nothing to merge. *)
Theorem no_history_without_properties
    (es : ExperimentSettings.t) (fs : Files) :
  paths_props_csv fs = Absent ∨ paths_props_csv fs = Unreadable →
  start_history es fs
  = Ok (CollectionStatus.mk 0 0 (-1) (-1) (-1), None, false).
Proof.
  intros [H|H]; unfold start_history, read_old_properties; rewrite H;
    reflexivity.
Qed.

Lemma no_history_without_properties_witness :
  let fs := {| paths_csv := Table []; paths_props_csv := Unreadable |} in
  (paths_props_csv fs = Absent ∨ paths_props_csv fs = Unreadable)
  ∧ start_history experiment_settings fs
    = Ok (CollectionStatus.mk 0 0 (-1) (-1) (-1), None, false).
Proof.
  split.
  - right. reflexivity.
  - apply (no_history_without_properties experiment_settings
             {| paths_csv := Table []; paths_props_csv := Unreadable |}).
    right. reflexivity.
Defined.

Lemma pd_concat_cons {A} (frame : list A) (frames : list (list A)) :
  pd_concat (frame :: frames) = Ok (concat (frame :: frames)).
Proof. reflexivity. Qed.

(** What [start] returns and writes when the main loop leaves an
    experiment with recorded paths: the retained rows of [df] and
    [df_trial_props]. *)
Lemma start_export_some (es : ExperimentSettings.t) (fs : Files)
    (merge : bool) (e : Experiment) (df : list Sample)
    (df_trial_props : list TrialProps) :
  list_with_dataframes e ≠ [] →
  interpolated_paths e ≠ [] →
  prop_list e ≠ [] ∨ merged fs merge = true →
  (match merge, paths_csv fs, paths_props_csv fs with
   | true, Table df_paths_old, Table df_props_old =>
       (df_paths_old ++ concat (list_with_dataframes e),
        df_props_old ++ prop_list e)
   | _, _, _ => (concat (list_with_dataframes e), prop_list e)
   end) = (df, df_trial_props) →
  let out := retain (ExperimentSettings.max_nr_paths es) df df_trial_props in
  start_export es fs merge (Some e)
  = Ok (Some (out.1, concat (interpolated_paths e), out.2),
        {| paths_csv := Table out.1; paths_props_csv := Table out.2 |}).
Proof.
  intros Hpaths Hint Hprops Hmerge. unfold start_export.
  destruct (list_with_dataframes e) as [|p ps] eqn:Hl; [done|].
  rewrite pd_concat_cons. cbn [bind].
  rewrite Hmerge.
  destruct (interpolated_paths e) as [|q qs] eqn:Hi; [done|].
  rewrite pd_concat_cons.
  destruct (retain _ df df_trial_props) as [a b].
  destruct (merged fs merge); [reflexivity|].
  destruct Hprops as [Hprops|]; [|done].
  by destruct (prop_list e).
Qed.

(** A session that has stored a path and no record, with no old frames
    to merge: the export stops at [nlargest], and nothing is written. *)
Lemma start_export_no_record (es : ExperimentSettings.t) (fs : Files)
    (merge : bool) (e : Experiment) :
  list_with_dataframes e ≠ [] → prop_list e = [] →
  merged fs merge = false →
  start_export es fs merge (Some e) = Raise TypeError.
Proof.
  intros Hpaths Hprops Hmerged. unfold start_export.
  destruct (list_with_dataframes e) as [|p ps] eqn:Hl; [done|].
  rewrite pd_concat_cons. cbn [bind]. rewrite Hmerged, Hprops.
  by destruct merge, (paths_csv fs), (paths_props_csv fs).
Qed.




(** ** Path interpolation *)

Section interpolation_facts.
Local Open Scope Q_scope.

Lemma Qlt_bool_true (a b : Q) : Qlt_bool a b = true ↔ a < b.
Proof.
  unfold Qlt_bool. rewrite negb_true_iff, <- not_true_iff_false.
  rewrite Qle_bool_iff. split; [apply Qnot_le_lt|apply Qlt_not_le].
Qed.

Lemma Qlt_bool_false (a b : Q) : Qlt_bool a b = false ↔ b <= a.
Proof. unfold Qlt_bool. rewrite negb_false_iff. apply Qle_bool_iff. Qed.

Lemma np_min_cons (a : Q) (l : list Q) :
  ∃ m, np_min (a :: l) = Ok m ∧ m ∈ a :: l ∧ Forall (Qle m) (a :: l).
Proof.
  simpl. eexists; split; [reflexivity|].
  revert a. induction l as [|b l IH]; intros a; simpl.
  - split; [left|]. repeat constructor. apply Qle_refl.
  - destruct (IH (if Qlt_bool b a then b else a)) as [Hin Hall].
    apply Forall_cons in Hall as [Hm Hall].
    destruct (Qlt_bool b a) eqn:E.
    + apply Qlt_bool_true in E. split.
      * apply elem_of_cons in Hin as [->|Hin]; [right; left|do 2 right; done].
      * repeat constructor; [lra|lra|done].
    + apply Qlt_bool_false in E. split.
      * apply elem_of_cons in Hin as [->|Hin]; [left|do 2 right; done].
      * repeat constructor; [lra|lra|done].
Qed.

Lemma np_max_cons (a : Q) (l : list Q) :
  ∃ m, np_max (a :: l) = Ok m ∧ m ∈ a :: l ∧ Forall (λ v, v <= m) (a :: l).
Proof.
  simpl. eexists; split; [reflexivity|].
  revert a. induction l as [|b l IH]; intros a; simpl.
  - split; [left|]. repeat constructor. apply Qle_refl.
  - destruct (IH (if Qlt_bool a b then b else a)) as [Hin Hall].
    apply Forall_cons in Hall as [Hm Hall].
    destruct (Qlt_bool a b) eqn:E.
    + apply Qlt_bool_true in E. split.
      * apply elem_of_cons in Hin as [->|Hin]; [right; left|do 2 right; done].
      * repeat constructor; [lra|lra|done].
    + apply Qlt_bool_false in E. split.
      * apply elem_of_cons in Hin as [->|Hin]; [left|do 2 right; done].
      * repeat constructor; [lra|lra|done].
Qed.

(** *** The stable sort of the points *)

Lemma insert_knot_Permutation (k : Q * Q) (l : list (Q * Q)) :
  insert_knot k l ≡ₚ k :: l.
Proof.
  induction l as [|h l IH]; simpl; [done|].
  destruct (Qle_bool (fst k) (fst h)); [done|].
  rewrite IH. apply Permutation_swap.
Qed.

Lemma insert_knot_sorted (k : Q * Q) (l : list (Q * Q)) :
  StronglySorted knot_le l → StronglySorted knot_le (insert_knot k l).
Proof.
  induction 1 as [|h l Hs IH Hh]; simpl.
  - repeat constructor.
  - destruct (Qle_bool (fst k) (fst h)) eqn:E.
    + apply Qle_bool_iff in E. constructor; [by constructor|].
      constructor; [exact E|].
      eapply Forall_impl; [exact Hh|]. unfold knot_le. intros; simpl in *. lra.
    + constructor; [exact IH|].
      rewrite insert_knot_Permutation. constructor; [|exact Hh].
      assert (¬ fst k <= fst h) as Hn.
      { rewrite <- Qle_bool_iff, E. discriminate. }
      unfold knot_le. apply Qnot_le_lt in Hn. lra.
Qed.

Lemma argsort_Permutation (x y : list Q) : argsort x y ≡ₚ zip x y.
Proof.
  unfold argsort. induction (zip x y) as [|k l IH]; simpl; [done|].
  by rewrite insert_knot_Permutation, IH.
Qed.

Lemma argsort_sorted (x y : list Q) : StronglySorted knot_le (argsort x y).
Proof.
  unfold argsort. induction (zip x y) as [|k l IH]; simpl.
  - constructor.
  - by apply insert_knot_sorted.
Qed.


Lemma sorted_first_le (f : list (Q * Q)) :
  StronglySorted knot_le f → Forall (λ p, x_first f <= fst p) f.
Proof.
  destruct 1 as [|h l Hs Hh]; [constructor|].
  unfold x_first. simpl. constructor; [apply Qle_refl|exact Hh].
Qed.

Lemma sorted_last_ge (f : list (Q * Q)) :
  StronglySorted knot_le f → Forall (λ p, fst p <= x_last f) f.
Proof.
  induction 1 as [|h l Hs IH Hh]; [constructor|].
  unfold x_last in *. destruct l as [|h' l].
  - simpl. repeat constructor. apply Qle_refl.
  - change (last (h :: h' :: l)) with (last (h' :: l)).
    constructor; [|exact IH].
    apply Forall_cons in Hh as [Hh _]. apply Forall_cons in IH as [IH _].
    unfold knot_le in Hh. lra.
Qed.

(** *** Calls of the interpolation object *)

Lemma interp1d_call_ok (f : list (Q * Q)) (x_new : list Q) :
  Forall (λ v, x_first f <= v ∧ v <= x_last f) x_new →
  interp1d_call f x_new = Ok (np_interp f <$> x_new).
Proof.
  intros H. unfold interp1d_call.
  assert (existsb (λ v, Qlt_bool v (x_first f)) x_new = false) as ->.
  { induction H as [|v l [Hv _] _ IH]; simpl; [done|].
    rewrite IH, orb_false_r. by apply Qlt_bool_false. }
  assert (existsb (λ v, Qlt_bool (x_last f) v) x_new = false) as ->.
  { induction H as [|v l [_ Hv] _ IH]; simpl; [done|].
    rewrite IH, orb_false_r. by apply Qlt_bool_false. }
  reflexivity.
Qed.

Lemma interp1d_ok (x y : list Q) :
  length x = length y → x ≠ [] → interp1d x y = Ok (argsort x y).
Proof.
  intros Hl Hx. unfold interp1d.
  rewrite (proj2 (Nat.eqb_eq _ _) Hl). simpl.
  destruct x; [done|]. reflexivity.
Qed.

Lemma millisecond_grid_bounds (lo hi v : Q) :
  v ∈ millisecond_grid lo hi → lo <= v ∧ v < hi.
Proof.
  unfold millisecond_grid, range, ceil.
  intros (s & -> & Hs)%list_elem_of_fmap.
  apply elem_of_seqZ in Hs as [H1 H2].
  pose proof (Qle_ceiling (lo * 1000)) as Hlo.
  pose proof (Qceiling_lt (hi * 1000)) as Hhi.
  assert (s ≤ Qceiling (hi * 1000) - 1)%Z as H3 by lia.
  rewrite Zle_Qle in H1, H3. split; lra.
Qed.

Lemma length_millisecond_grid (lo hi : Q) :
  length (millisecond_grid lo hi)
  = Z.to_nat (ceil (hi * 1000) - ceil (lo * 1000)).
Proof.
  unfold millisecond_grid, range. by rewrite length_fmap, length_seqZ.
Qed.

(** An abscissa between the least and the greatest [x] is in the range
    of the interpolation object. *)
Lemma argsort_range (x y : list Q) (lo hi v : Q) :
  length x = length y →
  lo ∈ x → hi ∈ x → lo <= v → v <= hi →
  x_first (argsort x y) <= v ∧ v <= x_last (argsort x y).
Proof.
  intros Hl Hlo Hhi H1 H2.
  assert (∀ u, u ∈ x → ∃ p, p ∈ argsort x y ∧ fst p = u) as Hin.
  { intros u Hu. rewrite <- (fst_zip x y) in Hu by lia.
    apply list_elem_of_fmap in Hu as (p & -> & Hp).
    exists p. by rewrite argsort_Permutation. }
  pose proof (sorted_first_le _ (argsort_sorted x y)) as Hf.
  pose proof (sorted_last_ge _ (argsort_sorted x y)) as Hg.
  rewrite Forall_forall in Hf, Hg.
  destruct (Hin lo Hlo) as (p & Hp & <-).
  destruct (Hin hi Hhi) as (q & Hq & <-).
  specialize (Hf p Hp). specialize (Hg q Hq). simpl in *. split; lra.
Qed.

Lemma DataFrame_columns (trial : list Z) (t x y : list Q) :
  length trial = length t → length x = length t → length y = length t →
  r_trial <$> DataFrame trial t x y = trial
  ∧ r_t <$> DataFrame trial t x y = t
  ∧ r_x <$> DataFrame trial t x y = x
  ∧ r_y <$> DataFrame trial t x y = y.
Proof.
  revert trial x y.
  induction t as [|t0 t IH]; intros [|tr trial] [|x0 x] [|y0 y];
    try done.
  intros [= H1] [= H2] [= H3].
  destruct (IH trial x y H1 H2 H3) as (E1 & E2 & E3 & E4).
  cbn [DataFrame]. rewrite !fmap_cons, E1, E2, E3, E4. done.
Qed.

(** [interpolate] on a path that has a sample: no exception, and a frame
    over the millisecond grid between the least and the greatest time. *)
Lemma interpolate_ok (self_trial : Z) (df : list Sample) :
  df ≠ [] →
  ∃ min_t max_t,
    np_min (s_t <$> df) = Ok min_t
    ∧ np_max (s_t <$> df) = Ok max_t
    ∧ min_t ∈ s_t <$> df ∧ max_t ∈ s_t <$> df
    ∧ interpolate self_trial df
      = Ok (DataFrame
              (replicate (length (millisecond_grid min_t max_t)) self_trial)
              (millisecond_grid min_t max_t)
              (np_interp
                 (argsort (s_t <$> df) ((λ s, inject_Z (s_x s)) <$> df))
               <$> millisecond_grid min_t max_t)
              (np_interp
                 (argsort (s_t <$> df) ((λ s, inject_Z (s_y s)) <$> df))
               <$> millisecond_grid min_t max_t)).
Proof.
  intros Hdf. destruct df as [|s df]; [done|]. clear Hdf.
  destruct (np_min_cons (s_t s) (s_t <$> df)) as (lo & Hlo & Hlo_in & Hlo_le).
  destruct (np_max_cons (s_t s) (s_t <$> df)) as (hi & Hhi & Hhi_in & Hhi_ge).
  exists lo, hi. change (s_t <$> s :: df) with (s_t s :: (s_t <$> df)).
  split; [exact Hlo|]. split; [exact Hhi|]. do 2 (split; [done|]).
  unfold interpolate.
  change (s_t <$> s :: df) with (s_t s :: (s_t <$> df)).
  rewrite !interp1d_ok; try done; try (simpl; by rewrite !length_fmap).
  cbn [bind]. rewrite Hlo, Hhi. cbn [bind].
  fold (millisecond_grid lo hi).
  rewrite !interp1d_call_ok.
  - cbn [bind].
    replace (length (millisecond_grid lo hi))
      with (length (range (ceil (lo * 1000)) (ceil (hi * 1000))));
      [done|].
    unfold millisecond_grid. by rewrite length_fmap.
  - apply Forall_forall. intros v [H1 H2]%millisecond_grid_bounds.
    apply (argsort_range _ _ lo hi v);
      [simpl; by rewrite !length_fmap|exact Hlo_in|exact Hhi_in|lra|lra].
  - apply Forall_forall. intros v [H1 H2]%millisecond_grid_bounds.
    apply (argsort_range _ _ lo hi v);
      [simpl; by rewrite !length_fmap|exact Hlo_in|exact Hhi_in|lra|lra].
Qed.

Lemma length_DataFrame (trial : list Z) (t x y : list Q) :
  length trial = length t → length x = length t → length y = length t →
  length (DataFrame trial t x y) = length t.
Proof.
  intros H1 H2 H3.
  destruct (DataFrame_columns trial t x y H1 H2 H3) as (_ & E & _).
  rewrite <- E at 2. by rewrite length_fmap.
Qed.

Lemma DataFrame_pointwise (tr : Z) (gx gy : Q → Q) (grid : list Q) :
  Forall (λ row, r_trial row = tr ∧ r_t row ∈ grid
                 ∧ r_x row = gx (r_t row) ∧ r_y row = gy (r_t row))
    (DataFrame (replicate (length grid) tr) grid (gx <$> grid)
       (gy <$> grid)).
Proof.
  induction grid as [|v grid IH]; [constructor|].
  cbn [length replicate fmap list_fmap DataFrame]. constructor.
  - simpl. repeat split; try done. left.
  - eapply Forall_impl; [exact IH|]. simpl.
    intros row (? & ? & ? & ?). repeat split; try done. by right.
Qed.

(** *** The broken line through a path with increasing times *)







(** The example path, evaluated: 800 rows, the first at [(0, 0)], the
    row of millisecond 600 halfway up the second segment. *)
Example interpolate_example_path :
  match interpolate 7 example_path with
  | Ok rows =>
      length rows = 800%nat
      ∧ (Qred ∘ r_t <$> take 2 rows) = [0; 1 # 1000]
      ∧ (λ row, (Qred (r_t row), Qred (r_x row), Qred (r_y row)))
          <$> rows !! 600%nat
        = Some (3 # 5, 65, 20)
  | Raise _ => False
  end.
Proof. vm_compute. repeat split. Qed.

(** C3, as the code has it: [interpolate] checks nothing itself.  It
    raises, with the [ValueError] of [interp1d], only on a path without
    samples.  On every path with a sample it returns a frame of
    [ceil(max_t*1000) - ceil(min_t*1000)] rows: no row for a single
    sample, and no row when all samples have the same time. *)
Theorem interpolate_raises_only_without_samples (self_trial : Z) :
  interpolate self_trial [] = Raise ValueError
  ∧ (∀ df, df ≠ [] →
       ∃ min_t max_t rows,
         np_min (s_t <$> df) = Ok min_t
         ∧ np_max (s_t <$> df) = Ok max_t
         ∧ interpolate self_trial df = Ok rows
         ∧ length rows
           = Z.to_nat (ceil (max_t * 1000) - ceil (min_t * 1000)))
  ∧ (∀ s, interpolate self_trial [s] = Ok [])
  ∧ (∀ df t0, df ≠ [] → Forall (λ s, s_t s == t0) df →
       interpolate self_trial df = Ok []).
Proof.
  assert (∀ df, df ≠ [] →
            ∃ min_t max_t rows,
              np_min (s_t <$> df) = Ok min_t
              ∧ np_max (s_t <$> df) = Ok max_t
              ∧ min_t ∈ s_t <$> df ∧ max_t ∈ s_t <$> df
              ∧ interpolate self_trial df = Ok rows
              ∧ length rows
                = Z.to_nat (ceil (max_t * 1000) - ceil (min_t * 1000)))
    as Hgen.
  { intros df Hdf.
    destruct (interpolate_ok self_trial df Hdf)
      as (lo & hi & Hlo & Hhi & Hlo_in & Hhi_in & Hi).
    eexists lo, hi, _. repeat (split; [done|]).
    rewrite length_DataFrame
      by (by rewrite ?length_replicate, ?length_fmap).
    apply length_millisecond_grid. }
  assert (∀ df t0, df ≠ [] → Forall (λ s, s_t s == t0) df →
            interpolate self_trial df = Ok []) as Hflat.
  { intros df t0 Hdf Hall.
    destruct (Hgen df Hdf)
      as (lo & hi & rows & _ & _ & Hlo_in & Hhi_in & Hi & Hl).
    rewrite Forall_forall in Hall.
    apply list_elem_of_fmap in Hlo_in as (s1 & -> & H1).
    apply list_elem_of_fmap in Hhi_in as (s2 & -> & H2).
    unfold ceil in Hl.
    rewrite (Qceiling_comp (s_t s2 * 1000) (s_t s1 * 1000)) in Hl
      by (rewrite (Hall s1 H1), (Hall s2 H2); reflexivity).
    rewrite Z.sub_diag in Hl. destruct rows; [exact Hi|discriminate]. }
  split; [reflexivity|]. split.
  - intros df Hdf.
    destruct (Hgen df Hdf) as (lo & hi & rows & ? & ? & _ & _ & ? & ?).
    by exists lo, hi, rows.
  - split; [|exact Hflat].
    intros s. apply (Hflat [s] (s_t s)); [done|].
    constructor; [reflexivity|constructor].
Qed.

(** C3, as the specification has it, fails: a path of one sample and a path
    whose samples have the same time are interpolated without error,
    into an empty frame. *)
Lemma interpolate_degenerate_is_silent :
  interpolate 7 [{| s_trial := 7; s_t := 0; s_x := 0; s_y := 0 |}] = Ok []
  ∧ interpolate 7 example_still_path = Ok [].
Proof. split; reflexivity. Qed.

End interpolation_facts.

(** ** The trial scheduler *)

Section scheduler_facts.
Local Arguments Sampler.next : simpl never.
Local Arguments interpolate : simpl never.
Local Arguments trial_props : simpl never.
Local Arguments click_notify : simpl never.

Lemma next_delay (r : nat) :
  ∃ d, Sampler.next delay_sampler r = Ok (Sampler.Int d).
Proof.
  unfold delay_sampler, Sampler.next, Sampler.randrange.
  destruct (decide (2000 < 4000)) as [_|H]; [|lia].
  eexists. reflexivity.
Qed.

Lemma next_distance (r : nat) :
  ∃ q, Sampler.next distance_sampler r = Ok (Sampler.Float q).
Proof. eexists. reflexivity. Qed.

Lemma next_orientation (r : nat) :
  ∃ k N, Sampler.next orientation_sampler r = Ok (Sampler.Turn k N).
Proof.
  unfold orientation_sampler, Sampler.next, Sampler.randrange.
  destruct (decide (0 < 8)) as [_|H]; [|lia].
  do 2 eexists. reflexivity.
Qed.

Lemma next_radius (r : nat) :
  ∃ z, Sampler.next radius_sampler r = Ok (Sampler.Int z).
Proof.
  unfold radius_sampler, Sampler.next, Sampler.choice.
  generalize (eq_refl : length ([3; 6; 9] : list Z) = 3%nat).
  generalize ([3; 6; 9] : list Z). intros l Hl.
  destruct (lookup_lt_is_Some_2 l (r `mod` length l)%nat) as [z Hz].
  - apply Nat.mod_upper_bound. rewrite Hl. discriminate.
  - rewrite Hz. eexists. reflexivity.
Qed.

Lemma filter_ne_singleton (id : nat) : filter (λ j, j ≠ id) [id] = [].
Proof. rewrite filter_cons_False; [done|]. intros H. by apply H. Qed.

Lemma filter_oval_singleton (oval : nat) :
  filter (λ j, Some j ≠ Some oval) [oval] = [].
Proof. rewrite filter_cons_False; [done|]. intros H. by apply H. Qed.

Lemma motion_idle_enter (m : MotionEvent) (w : Experiment * Tk) :
  idle w → m_current m = Some middle_id →
  armed_with (after_count w.2) (motion m w)
  ∧ list_with_dataframes (motion m w).1 = list_with_dataframes w.1
  ∧ interpolated_paths (motion m w).1 = interpolated_paths w.1
  ∧ prop_list (motion m w).1 = prop_list w.1
  ∧ target_id (motion m w).1 = target_id w.1
  ∧ canvas_count (motion m w).2 = canvas_count w.2
  ∧ after_count (motion m w).2 = S (after_count w.2).
Proof.
  destruct w as [e k]. intros (Hs & Hj & Hc & Hp & Ho) Hm. cbn [fst snd] in *.
  unfold motion, motion_schedule. rewrite Hm, Hs.
  destruct (next_delay (m_random m)) as [d ->].
  unfold motion_cancel, motion_record. simpl. rewrite Hc.
  unfold armed_with. simpl. rewrite Hp, Ho.
  repeat split; try done;
   repeat case_bool_decide; simpl; try done.
Qed.

Lemma motion_idle_away (m : MotionEvent) (w : Experiment * Tk) :
  idle w → m_current m ≠ Some middle_id → motion m w = w.
Proof.
  destruct w as [e k]. intros (Hs & Hj & Hc & Hp & Ho) Hm. cbn [fst snd] in *.
  unfold motion, motion_schedule. rewrite Hs. 
  rewrite (bool_decide_eq_false_2 _ Hm).
  destruct (bool_decide (is_Some (m_current m)) && negb false);
    unfold motion_cancel, motion_record; rewrite Hj, Hc; done.
Qed.

Lemma motion_armed_leave (m : MotionEvent) (w : Experiment * Tk) (id : nat) :
  (armed_with id w ∨ stalled w) → m_current m ≠ Some middle_id →
  idle (motion m w)
  ∧ text_of_text_id (motion m w).2 = keep_on_square
  ∧ list_with_dataframes (motion m w).1 = list_with_dataframes w.1
  ∧ interpolated_paths (motion m w).1 = interpolated_paths w.1
  ∧ prop_list (motion m w).1 = prop_list w.1
  ∧ target_id (motion m w).1 = target_id w.1
  ∧ canvas_count (motion m w).2 = canvas_count w.2
  ∧ after_count (motion m w).2 = after_count w.2.
Proof.
  destruct w as [e k]. intros H Hm.
  assert (experiment_scheduled e = true ∧ (∃ j, job e = Some j ∧ filter (λ i, i ≠ j) (after_pending k) = []) ∧ collect_data e = false ∧ canvas_ovals k = []) as (Hs & (j & Hj & Hp) & Hc & Ho).
  { destruct H as [(Hs & Hj & Hc & Hp & Ho)|(Hs & [j Hj] & Hc & Hp & Ho)]; simpl in *.
    - repeat split; try done. exists id. rewrite Hp. split; [done|apply filter_ne_singleton].
    - repeat split; try done. exists j. rewrite Hp. done. }
  unfold motion, motion_schedule. rewrite Hs, andb_false_r.
  unfold motion_cancel, motion_record; simpl; rewrite Hj.
  rewrite (bool_decide_eq_false_2 _ Hm). simpl. rewrite Hc.
  unfold idle. simpl. done.
Qed.

Lemma motion_frame (m : MotionEvent) (w : Experiment * Tk) :
  list_with_dataframes (motion m w).1 = list_with_dataframes w.1
  ∧ interpolated_paths (motion m w).1 = interpolated_paths w.1
  ∧ prop_list (motion m w).1 = prop_list w.1
  ∧ target_id (motion m w).1 = target_id w.1
  ∧ canvas_count (motion m w).2 = canvas_count w.2
  ∧ canvas_ovals (motion m w).2 = canvas_ovals w.2.
Proof.
  destruct w as [e k].
  unfold motion, motion_schedule, motion_cancel, motion_record, after.
  repeat case_match; simplify_eq; simpl; repeat case_match; simplify_eq; simpl; done.
Qed.

Lemma motion_scheduled_on_square (m : MotionEvent) (w : Experiment * Tk) :
  experiment_scheduled w.1 = true → collect_data w.1 = false →
  m_current m = Some middle_id → motion m w = w.
Proof.
  destruct w as [e k]. intros Hs Hc Hm. cbn [fst snd] in *.
  unfold motion, motion_schedule. rewrite Hs, andb_false_r.
  unfold motion_cancel, motion_record. rewrite Hm.
  rewrite bool_decide_eq_true_2 by done.
  destruct (job e); by rewrite Hc.
Qed.

Lemma motion_collecting (m : MotionEvent) (w : Experiment * Tk) :
  collecting w → collecting (motion m w).
Proof.
  destruct w as [e k].
  intros (Hs & Hj & Hc & Hp & oval & first & rest & Ho & Ht & Hl & H0).
  cbn [fst snd] in *.
  unfold motion, motion_schedule. rewrite Hs, andb_false_r.
  unfold motion_cancel, motion_record. rewrite Hj, Hc.
  unfold collecting. simpl. rewrite Hl. repeat split; try done.
  exists oval, first. eexists. repeat split; try done.
Qed.

Lemma click_notify_frame (e : Experiment) (k : Tk) :
  let w' := click_notify e k in
  experiment_scheduled w'.1 = experiment_scheduled e
  ∧ job w'.1 = job e ∧ collect_data w'.1 = collect_data e
  ∧ mouse_list w'.1 = mouse_list e
  ∧ list_with_dataframes w'.1 = list_with_dataframes e
  ∧ interpolated_paths w'.1 = interpolated_paths e
  ∧ prop_list w'.1 = prop_list e
  ∧ target_id w'.1 = target_id e
  ∧ after_pending w'.2 = after_pending k
  ∧ after_count w'.2 = after_count k
  ∧ canvas_ovals w'.2 = canvas_ovals k
  ∧ canvas_count w'.2 = canvas_count k.
Proof.
  unfold click_notify. repeat case_match; simpl; done.
Qed.

Lemma click_elsewhere_frame (w : Experiment * Tk) :
  (click_elsewhere w).1 = w.1
  ∧ after_pending (click_elsewhere w).2 = after_pending w.2
  ∧ after_count (click_elsewhere w).2 = after_count w.2
  ∧ canvas_ovals (click_elsewhere w).2 = canvas_ovals w.2
  ∧ canvas_count (click_elsewhere w).2 = canvas_count w.2.
Proof.
  destruct w as [e k]. unfold click_elsewhere.
  repeat case_match; simpl; done.
Qed.

Lemma click_off_target (c : ClickEvent) (w : Experiment * Tk) :
  (∀ i, c_current c = Some i → target_id w.1 ≠ Some i) →
  click c w = click_elsewhere w.
Proof.
  destruct w as [e k]. intros H. unfold click.
  destruct (c_current c) as [i|]; [|done].
  rewrite bool_decide_eq_false_2; [done|]. by apply H.
Qed.

Lemma click_on_target (c : ClickEvent) (w : Experiment * Tk) (i : nat) :
  c_current c = Some i → target_id w.1 = Some i →
  let w' := click c w in
  list_with_dataframes w'.1
  = list_with_dataframes w.1 ++ [mouse_list w.1 ++ [click_sample c w.1]]
  ∧ target_id w'.1 = target_id w.1
  ∧ canvas_count w'.2 = canvas_count w.2
  ∧ after_pending w'.2 = after_pending w.2
  ∧ after_count w'.2 = after_count w.2
  ∧ ((experiment_scheduled w'.1 = experiment_scheduled w.1
      ∧ job w'.1 = job w.1 ∧ collect_data w'.1 = collect_data w.1
      ∧ mouse_list w'.1 = mouse_list w.1 ++ [click_sample c w.1]
      ∧ canvas_ovals w'.2 = canvas_ovals w.2)
     ∨ (experiment_scheduled w'.1 = false
        ∧ job w'.1 = job w.1 ∧ collect_data w'.1 = false
        ∧ canvas_ovals w'.2
          = filter (λ j, Some j ≠ Some i) (canvas_ovals w.2))).
Proof.
  destruct w as [e k]. cbn [fst snd]. intros Hc Ht.
  unfold click. rewrite Hc, Ht. rewrite bool_decide_eq_true_2 by done.
  cbn [negb]. fold (click_sample c e).
  destruct (interpolate _ _) as [path|]; [|simpl; repeat split; try done; by left].
  destruct (trial_props _ _) as [props|]; [|simpl; repeat split; try done; by left].
  match goal with |- context [click_notify ?e' ?k'] =>
    pose proof (click_notify_frame e' k') as H; simpl in H;
    destruct H as (H1&H2&H3&H4&H5&H6&H7&H8&H9&H10&H11&H12) end.
  rewrite H5, H8, H12, H9, H10. repeat split; try done.
  right. rewrite H1, H2, H3, H11. simpl. done.
Qed.

Lemma start_experiment_off_square (t : TimerEvent) (w : Experiment * Tk) :
  t_current t ≠ Some middle_id →
  start_experiment t w = (w.1, set_text keep_on_square w.2).
Proof.
  destruct w as [e k]. intros H. unfold start_experiment.
  by rewrite bool_decide_eq_false_2.
Qed.

Lemma start_experiment_on_square (t : TimerEvent) (w : Experiment * Tk) :
  t_current t = Some middle_id →
  let w' := start_experiment t w in
  job w'.1 = None ∧ collect_data w'.1 = true
  ∧ experiment_scheduled w'.1 = experiment_scheduled w.1
  ∧ mouse_list w'.1
    = [{| s_trial := trial w.1; s_t := 0;
          s_x := t_pointerx t - t_rootx t - x_origin - t_winfo_x t;
          s_y := - (t_pointery t - t_rooty t) + y_origin + t_winfo_y t |}]
  ∧ target_id w'.1 = Some (canvas_count w.2)
  ∧ canvas_ovals w'.2 = canvas_ovals w.2 ++ [canvas_count w.2]
  ∧ canvas_count w'.2 = S (canvas_count w.2)
  ∧ after_pending w'.2 = after_pending w.2
  ∧ after_count w'.2 = after_count w.2
  ∧ list_with_dataframes w'.1 = list_with_dataframes w.1
  ∧ interpolated_paths w'.1 = interpolated_paths w.1
  ∧ prop_list w'.1 = prop_list w.1.
Proof.
  destruct w as [e k]. cbn [fst snd]. intros H. unfold start_experiment.
  rewrite bool_decide_eq_true_2 by done. cbn [negb].
  destruct (next_distance (t_random_r t)) as [q ->].
  destruct (next_orientation (t_random_phi t)) as (a & N & ->).
  destruct (next_radius (t_random_radius t)) as [z ->].
  unfold create_oval. case_bool_decide; simpl; done.
Qed.

Lemma well_formed_init (user_settings : gmap string cell)
    (es : ExperimentSettings.t) (cs : CollectionStatus.t) (clock : Q)
    (w : Experiment * Tk) :
  Experiment_init user_settings es cs clock = Ok w →
  idle w ∧ well_formed w
  ∧ list_with_dataframes w.1 = [] ∧ prop_list w.1 = []
  ∧ trial w.1 = CollectionStatus.last_trial_nr cs + 1.
Proof.
  unfold Experiment_init.
  destruct (getitem user_settings "input_method") as [im|]; [|done].
  cbn [bind]. intros [= <-].
  split; [by unfold idle|]. split; [|done].
  split; [left; by unfold idle|]. simpl. repeat split; [done|lia|constructor].
Qed.

Lemma step_motion (m : MotionEvent) (w w' : Experiment * Tk) :
  step (Motion m) w = Some w' →
  current_ok w.2 (m_current m) = true ∧ w' = motion m w.
Proof.
  unfold step. destruct (current_ok _ _); [|done]. by intros [= <-].
Qed.

Lemma step_click (c : ClickEvent) (w w' : Experiment * Tk) :
  step (Click c) w = Some w' →
  current_ok w.2 (c_current c) = true ∧ w' = click c w.
Proof.
  unfold step. destruct (current_ok _ _); [|done]. by intros [= <-].
Qed.

Lemma step_timer (id : nat) (t : TimerEvent) (w w' : Experiment * Tk) :
  step (Timer id t) w = Some w' →
  id ∈ after_pending w.2
  ∧ w' = start_experiment t (w.1, after_cancel id w.2).
Proof.
  unfold step. case_bool_decide; [|done].
  destruct (current_ok _ _); [|done]. by intros [= <-].
Qed.

Lemma well_formed_step (ev : event) (w w' : Experiment * Tk) :
  well_formed w → step ev w = Some w' → well_formed w'.
Proof.
  intros (Hph & Htid & Hcc & Hpaths) Hstep.
  destruct ev as [m|c|id t].
  - apply step_motion in Hstep as [_ ->].
    destruct (motion_frame m w) as (F1 & _ & _ & F4 & F5 & _).
    unfold well_formed. rewrite F1, F4, F5. split; [|done].
    destruct (decide (m_current m = Some middle_id)) as [Hon|Hoff].
    + destruct Hph as [Hi|[[id Ha]|[Hs|Hc]]].
      * right; left. eexists. by apply motion_idle_enter.
      * rewrite motion_scheduled_on_square; try done; try apply Ha.
        right; left. by exists id.
      * rewrite motion_scheduled_on_square; try done; try apply Hs.
        by do 2 right; left.
      * do 3 right. by apply motion_collecting.
    + destruct Hph as [Hi|[[id Ha]|[Hs|Hc]]].
      * rewrite motion_idle_away by done. by left.
      * left. by apply (motion_armed_leave m w id); [left|].
      * left. by apply (motion_armed_leave m w 0%nat); [right|].
      * do 3 right. by apply motion_collecting.
  - apply step_click in Hstep as [Hok ->].
    destruct (c_current c) as [i|] eqn:Hcur.
    2:{ rewrite click_off_target by (rewrite Hcur; done).
        destruct (click_elsewhere_frame w) as (F1 & F2 & F3 & F4 & F5).
        unfold well_formed, idle, armed_with, stalled, collecting in *.
        rewrite F1, F2, F4, F5. done. }
    destruct (decide (target_id w.1 = Some i)) as [Ht|Ht].
    2:{ rewrite click_off_target by (rewrite Hcur; congruence).
        destruct (click_elsewhere_frame w) as (F1 & F2 & F3 & F4 & F5).
        unfold well_formed, idle, armed_with, stalled, collecting in *.
        rewrite F1, F2, F4, F5. done. }
    assert (collecting w) as Hc.
    { simpl in Hok. apply bool_decide_eq_true_1 in Hok.
      unfold items in Hok. apply elem_of_app in Hok as [Hok|Hok].
      - apply Htid in Ht. unfold middle_id, text_id, counter_id in Hok.
        repeat (apply elem_of_cons in Hok as [->|Hok]); try lia.
        by apply elem_of_nil in Hok.
      - destruct Hph as [Hi|[[id Ha]|[Hs|Hc]]]; [| | |done].
        + destruct Hi as (_ & _ & _ & _ & Ho). rewrite Ho in Hok. set_solver.
        + destruct Ha as (_ & _ & _ & _ & Ho). rewrite Ho in Hok. set_solver.
        + destruct Hs as (_ & _ & _ & _ & Ho). rewrite Ho in Hok. set_solver. }
    destruct Hc as (Hs & Hj & Hcd & Hp & oval & first & rest
                    & Ho & Ht' & Hl & H0).
    destruct (click_on_target c w i Hcur Ht)
      as (G1 & G2 & G3 & G4 & G5 & G6).
    unfold well_formed. rewrite G1, G2, G3. split; [|split; [done|split; [done|]]].
    + destruct G6 as [(E1 & E2 & E3 & E4 & E5)|(E1 & E2 & E3 & E5)].
      * do 3 right. unfold collecting.
        rewrite E1, E2, E3, E4, E5, G4, Hl. repeat split; try done.
        exists oval, first. eexists. repeat split; try done.
        by rewrite G2.
      * left. unfold idle. rewrite E1, E2, E3, E5, G4, Ho.
        repeat split; try done. rewrite Ht in Ht'. injection Ht' as ->.
        apply filter_oval_singleton.
    + apply Forall_app. split; [done|]. constructor; [|constructor].
      exists first. rewrite Hl. done.
  - apply step_timer in Hstep as [Hid ->].
    assert (armed_with id w) as (Hs & Hj & Hc & Hp & Ho).
    { destruct Hph as [Hi|[[id' Ha]|[Hs|Hc]]].
      - destruct Hi as (_ & _ & _ & Hp & _). rewrite Hp in Hid. set_solver.
      - destruct Ha as (?&?&?&Hp&?). rewrite Hp in Hid.
        apply list_elem_of_singleton in Hid as ->. done.
      - destruct Hs as (_ & _ & _ & Hp & _). rewrite Hp in Hid. set_solver.
      - destruct Hc as (_ & _ & _ & Hp & _). rewrite Hp in Hid. set_solver. }
    destruct (decide (t_current t = Some middle_id)) as [Hon|Hoff].
    + destruct (start_experiment_on_square t (w.1, after_cancel id w.2) Hon)
        as (E1 & E2 & E3 & E4 & E5 & E6 & E7 & E8 & E9 & E10 & _).
      cbn [fst snd] in *. unfold well_formed.
      rewrite E5, E7, E10. split; [|split; [|split; [simpl; lia|done]]].
      * do 3 right. unfold collecting.
        rewrite E1, E2, E3, E4, E5, E6, E8. simpl. rewrite Hp, Ho, Hs.
        repeat split; try done; [apply filter_ne_singleton|].
        eexists _, _, _. repeat split; done.
      * intros i [= <-]. simpl. lia.
    + rewrite start_experiment_off_square by done. cbn [fst snd].
      unfold well_formed. simpl. split; [|done].
      do 2 right; left. unfold stalled. simpl.
      rewrite Hp, filter_ne_singleton, Hj. done.
Qed.

Lemma well_formed_run (evs : list event) (w w' : Experiment * Tk) :
  well_formed w → run evs w = Some w' → well_formed w'.
Proof.
  revert w. induction evs as [|ev evs IH]; intros w Hw; simpl.
  - by intros [= <-].
  - destruct (step ev w) as [w1|] eqn:E; [|done].
    apply IH. by apply (well_formed_step ev w).
Qed.

(** C5: in every state the experiment reaches, the paths of the completed
    trials start with a sample at elapsed time 0; and a click on the target
    completes the trial with a path whose first sample is at elapsed time
    0 and whose last sample is at the position of the click, taken from
    the red square. *)
Theorem completed_path_endpoints (user_settings : gmap string cell)
    (es : ExperimentSettings.t) (cs : CollectionStatus.t) (clock : Q)
    (w0 : Experiment * Tk) (evs : list event) (w : Experiment * Tk) :
  Experiment_init user_settings es cs clock = Ok w0 →
  run evs w0 = Some w →
  Forall starts_at_zero (list_with_dataframes w.1)
  ∧ ∀ c i w',
      c_current c = Some i → target_id w.1 = Some i →
      step (Click c) w = Some w' →
      ∃ path first final,
        list_with_dataframes w'.1 = list_with_dataframes w.1 ++ [path]
        ∧ head path = Some first ∧ s_t first = 0%Q
        ∧ last path = Some final
        ∧ s_x final = c_x c - x_origin ∧ s_y final = - c_y c + y_origin.
Proof.
  intros Hinit Hrun.
  apply well_formed_init in Hinit as (_ & Hw0 & _).
  pose proof (well_formed_run evs w0 w Hw0 Hrun) as Hw.
  split; [apply Hw|].
  intros c i w' Hcur Ht Hstep.
  pose proof (well_formed_step _ _ _ Hw Hstep) as (_ & _ & _ & Hpaths).
  apply step_click in Hstep as [_ ->].
  destruct (click_on_target c w i Hcur Ht) as (Hl & _).
  rewrite Hl in Hpaths. apply Forall_app in Hpaths as [_ Hp].
  apply Forall_cons in Hp as [(first & Hf & H0) _].
  exists (mouse_list w.1 ++ [click_sample c w.1]), first, (click_sample c w.1).
  rewrite last_snoc. done.
Qed.

(** The example trial, run from a fresh session, completes one trial. *)
Lemma example_trial_runs :
  match Experiment_init example_user_settings experiment_settings
          example_status 0 with
  | Ok w0 =>
      match run example_trial w0 with
      | Some w =>
          length (list_with_dataframes w.1) = 1%nat
          ∧ p_trial <$> prop_list w.1 = [0]
          ∧ length <$> interpolated_paths w.1 = [8%nat]
      | None => False
      end
  | Raise _ => False
  end.
Proof. vm_compute. done. Qed.

Lemma completed_path_endpoints_witness :
  ∃ w0 w,
    Experiment_init example_user_settings experiment_settings example_status 0
    = Ok w0
    ∧ run example_trial w0 = Some w
    ∧ length (list_with_dataframes w.1) = 1%nat
    ∧ Forall starts_at_zero (list_with_dataframes w.1)
    ∧ ∀ c i w',
        c_current c = Some i → target_id w.1 = Some i →
        step (Click c) w = Some w' →
        ∃ path first final,
          list_with_dataframes w'.1 = list_with_dataframes w.1 ++ [path]
          ∧ head path = Some first ∧ s_t first = 0%Q
          ∧ last path = Some final
          ∧ s_x final = c_x c - x_origin ∧ s_y final = - c_y c + y_origin.
Proof.
  pose proof example_trial_runs as H.
  destruct (Experiment_init example_user_settings experiment_settings
              example_status 0) as [w0|] eqn:E0; [|destruct H].
  destruct (run example_trial w0) as [w|] eqn:E1; [|destruct H].
  exists w0, w. split; [reflexivity|]. split; [exact E1|].
  split; [apply H|].
  exact (completed_path_endpoints _ _ _ _ w0 example_trial w E0 E1).
Defined.

Lemma motion_timers (m : MotionEvent) (w : Experiment * Tk) :
  (after_count w.2 ≤ after_count (motion m w).2)%nat
  ∧ ∀ j, j ∈ after_pending (motion m w).2 →
         j ∈ after_pending w.2 ∨ (after_count w.2 ≤ j)%nat.
Proof.
  destruct w as [e k].
  unfold motion, motion_schedule, motion_cancel, motion_record, after.
  repeat case_match; simplify_eq; simpl; repeat case_match; simplify_eq;
    simpl; (split; [lia|]); intros j;
    rewrite ?list_elem_of_filter, ?elem_of_app, ?list_elem_of_singleton;
    intuition lia.
Qed.

Lemma click_timers (c : ClickEvent) (w : Experiment * Tk) :
  after_count (click c w).2 = after_count w.2
  ∧ after_pending (click c w).2 = after_pending w.2.
Proof.
  destruct (c_current c) as [i|] eqn:Hcur.
  - destruct (decide (target_id w.1 = Some i)) as [Ht|Ht].
    + destruct (click_on_target c w i Hcur Ht) as (_ & _ & _ & H1 & H2 & _).
      done.
    + rewrite click_off_target by (rewrite Hcur; congruence).
      destruct (click_elsewhere_frame w) as (_ & H1 & H2 & _). done.
  - rewrite click_off_target by (rewrite Hcur; done).
    destruct (click_elsewhere_frame w) as (_ & H1 & H2 & _). done.
Qed.

Lemma start_experiment_timers (t : TimerEvent) (w : Experiment * Tk) :
  after_count (start_experiment t w).2 = after_count w.2
  ∧ after_pending (start_experiment t w).2 = after_pending w.2.
Proof.
  destruct (decide (t_current t = Some middle_id)) as [Hon|Hoff].
  - destruct (start_experiment_on_square t w Hon)
      as (_ & _ & _ & _ & _ & _ & _ & H1 & H2 & _). done.
  - by rewrite start_experiment_off_square.
Qed.

Lemma spent_step (id : nat) (ev : event) (w w' : Experiment * Tk) :
  spent id w → step ev w = Some w' →
  spent id w' ∧ ∀ t, ev ≠ Timer id t.
Proof.
  intros [Hlt Hnot] Hstep. destruct ev as [m|c|id' t].
  - apply step_motion in Hstep as [_ ->].
    destruct (motion_timers m w) as [H1 H2]. split; [|done].
    split; [lia|]. intros [?|?]%H2; [done|lia].
  - apply step_click in Hstep as [_ ->].
    destruct (click_timers c w) as [H1 H2]. split; [|done].
    unfold spent. by rewrite H1, H2.
  - apply step_timer in Hstep as [Hin ->].
    destruct (start_experiment_timers t (w.1, after_cancel id' w.2))
      as [H1 H2].
    split.
    + unfold spent. rewrite H1, H2. simpl. split; [done|].
      rewrite list_elem_of_filter. tauto.
    + intros t' [= -> _]. done.
Qed.

Lemma spent_never_fires (id : nat) (evs : list event)
    (w w' : Experiment * Tk) :
  spent id w → run evs w = Some w' → ∀ t, Timer id t ∉ evs.
Proof.
  revert w. induction evs as [|ev evs IH]; intros w Hs Hrun t.
  - apply not_elem_of_nil.
  - simpl in Hrun. destruct (step ev w) as [w1|] eqn:E; [|done].
    destruct (spent_step id ev w w1 Hs E) as [Hs1 Hne].
    apply not_elem_of_cons. split; [apply not_eq_sym, Hne|].
    by apply (IH w1).
Qed.

Lemma run_app (evs1 evs2 : list event) (w : Experiment * Tk) :
  run (evs1 ++ evs2) w
  = match run evs1 w with Some w1 => run evs2 w1 | None => None end.
Proof.
  revert w. induction evs1 as [|ev evs1 IH]; intros w; simpl; [done|].
  destruct (step ev w); [apply IH|done].
Qed.

Lemma middle_id_ok (k : Tk) : current_ok k (Some middle_id) = true.
Proof. reflexivity. Qed.

(** While a trial is scheduled and the target is not shown, the events
    with the pointer on the red square change nothing. *)
Lemma run_on_square (evs : list event) (w : Experiment * Tk) :
  experiment_scheduled w.1 = true → is_Some (job w.1) →
  collect_data w.1 = false →
  (∀ i, target_id w.1 = Some i → (4 ≤ i)%nat) →
  Forall on_square evs → run evs w = Some w.
Proof.
  intros Hs Hj Hc Ht. induction 1 as [|ev evs Hev _ IH]; [done|].
  assert (step ev w = Some w) as Hstep.
  { destruct ev as [m|c|id t]; simpl in Hev; [| |done]; unfold step.
    - rewrite Hev, middle_id_ok. by rewrite motion_scheduled_on_square.
    - rewrite Hev, middle_id_ok. f_equal.
      rewrite click_off_target.
      + destruct w as [e k]. unfold click_elsewhere. cbn [fst snd] in *.
        rewrite Hs. destruct Hj as [j ->]. done.
      + intros i. rewrite Hev. intros [= <-] H%Ht.
        unfold middle_id in H. lia. }
  simpl. rewrite Hstep. exact IH.
Qed.

(** C4: when the pointer comes on the red square, stays on it for any
    number of events and then leaves it before the timer has fired, the
    timer of the delayed start is cancelled and the scheduler is idle
    again; the recorded paths, interpolated paths and trial properties are
    those from before, and the timer of this arming never fires in what
    follows. *)
Theorem leaving_the_square_cancels (w : Experiment * Tk)
    (enter : MotionEvent) (evs : list event) (leave : MotionEvent) :
  well_formed w → idle w →
  m_current enter = Some middle_id →
  Forall on_square evs →
  m_current leave ≠ Some middle_id →
  current_ok w.2 (m_current leave) = true →
  ∃ id w1 w2,
    step (Motion enter) w = Some w1
    ∧ armed_with id w1
    ∧ run (evs ++ [Motion leave]) w1 = Some w2
    ∧ idle w2
    ∧ list_with_dataframes w2.1 = list_with_dataframes w.1
    ∧ interpolated_paths w2.1 = interpolated_paths w.1
    ∧ prop_list w2.1 = prop_list w.1
    ∧ ∀ evs' w3, run evs' w2 = Some w3 → ∀ t, Timer id t ∉ evs'.
Proof.
  intros (_ & Htid & _) Hidle Henter Hevs Hleave Hok.
  destruct (motion_idle_enter enter w Hidle Henter)
    as (Harmed & F1 & F2 & F3 & F4 & F5 & F6).
  exists (after_count w.2), (motion enter w), (motion leave (motion enter w)).
  assert (step (Motion enter) w = Some (motion enter w)) as Hstep.
  { unfold step. by rewrite Henter, middle_id_ok. }
  split; [exact Hstep|]. split; [exact Harmed|].
  pose proof Harmed as (Hs & Hj & Hc & Hp & Ho).
  destruct (motion_armed_leave leave (motion enter w) (after_count w.2))
    as (Hidle2 & _ & G1 & G2 & G3 & _ & _ & G6); [by left|done|].
  split.
  { rewrite run_app, run_on_square;
      [|exact Hs|by rewrite Hj|exact Hc|by rewrite F4|exact Hevs].
    simpl. unfold current_ok, items in *. rewrite Ho.
    destruct Hidle as (_ & _ & _ & _ & Ho'). rewrite Ho' in Hok.
    by rewrite Hok. }
  split; [exact Hidle2|].
  rewrite G1, G2, G3. do 3 (split; [done|]).
  intros evs' w3. apply spent_never_fires. split.
  - rewrite G6, F6. lia.
  - destruct Hidle2 as (_ & _ & _ & -> & _). apply not_elem_of_nil.
Qed.

Lemma leaving_the_square_cancels_witness :
  ∃ w0 id w1 w2,
    Experiment_init example_user_settings experiment_settings example_status 0
    = Ok w0
    ∧ step (Motion example_enter) w0 = Some w1
    ∧ armed_with id w1
    ∧ run ([Motion example_enter; Click {| c_current := Some middle_id;
                                          c_x := 350; c_y := 350;
                                          c_clock := 11;
                                          c_mouse_props := ∅ |}]
           ++ [Motion example_leave]) w1 = Some w2
    ∧ idle w2
    ∧ list_with_dataframes w2.1 = list_with_dataframes w0.1
    ∧ interpolated_paths w2.1 = interpolated_paths w0.1
    ∧ prop_list w2.1 = prop_list w0.1
    ∧ ∀ evs' w3, run evs' w2 = Some w3 → ∀ t, Timer id t ∉ evs'.
Proof.
  destruct (Experiment_init example_user_settings experiment_settings
              example_status 0) as [w0|] eqn:E0; [|discriminate E0].
  exists w0.
  destruct (well_formed_init _ _ _ _ _ E0) as (Hidle & Hw & _).
  destruct (leaving_the_square_cancels w0 example_enter
              [Motion example_enter;
               Click {| c_current := Some middle_id; c_x := 350; c_y := 350;
                        c_clock := 11; c_mouse_props := ∅ |}]
              example_leave Hw Hidle)
    as (id & w1 & w2 & H); [reflexivity| |discriminate|reflexivity|].
  - repeat constructor.
  - exists id, w1, w2. split; [reflexivity|exact H].
Defined.

(** When the timer fires with the pointer off the red square, the user is
    told to keep the pointer on it, and the flags of the scheduled trial
    stay set: a motion on the red square schedules nothing, until a
    motion off the red square has reset them. *)
Lemma start_off_square_stalls (id : nat) (t : TimerEvent)
    (w : Experiment * Tk) :
  armed_with id w → t_current t ≠ Some middle_id →
  current_ok w.2 (t_current t) = true →
  ∃ w1,
    step (Timer id t) w = Some w1
    ∧ stalled w1
    ∧ text_of_text_id w1.2 = keep_on_square
    ∧ (∀ m, m_current m = Some middle_id → step (Motion m) w1 = Some w1)
    ∧ (∀ m, m_current m ≠ Some middle_id → idle (motion m w1)).
Proof.
  intros (Hs & Hj & Hc & Hp & Ho) Hoff Hok.
  exists (w.1, set_text keep_on_square (after_cancel id w.2)).
  assert (stalled (w.1, set_text keep_on_square (after_cancel id w.2)))
    as Hst.
  { unfold stalled. simpl. rewrite Hs, Hj, Hc, Hp, Ho, filter_ne_singleton.
    done. }
  split.
  { unfold step. rewrite Hp, Hok, bool_decide_eq_true_2 by set_solver.
    by rewrite start_experiment_off_square. }
  split; [exact Hst|]. split; [done|]. split.
  - intros m Hm. unfold step. rewrite Hm, middle_id_ok.
    by rewrite motion_scheduled_on_square.
  - intros m Hm. by apply (motion_armed_leave m _ id); [right|].
Qed.

(** The events of C7, evaluated from a fresh session: the pointer comes on
    the red square, and the timer fires when the pointer is no longer on
    it. *)
Lemma example_stall_runs :
  match Experiment_init example_user_settings experiment_settings
          example_status 0 with
  | Ok w0 =>
      match run [Motion example_enter; Timer 0 (example_fire None)] w0 with
      | Some w1 =>
          text_of_text_id w1.2 = keep_on_square
          ∧ collect_data w1.1 = false
          ∧ experiment_scheduled w1.1 = true
          ∧ job w1.1 = Some 0%nat
          ∧ after_pending w1.2 = []
          ∧ (after_pending <$> (snd <$> step (Motion example_enter) w1))
            = Some []
          ∧ (experiment_scheduled <$> (fst <$> step (Motion example_enter) w1))
            = Some true
          ∧ (after_pending <$> (snd <$> step (Motion example_enter) w0))
            = Some [0%nat]
      | None => False
      end
  | Raise _ => False
  end.
Proof. vm_compute. done. Qed.

(** C7 fails on the code: after the timer has fired with the pointer off
    the red square, the user is prompted, no data is collected and no
    timer is pending, but [experiment_scheduled] is still set and [job]
    still holds the timer that has fired; a motion on the red square then
    schedules no trial, where the same motion schedules one from the idle
    state. *)
Theorem stalled_start_blocks_arming :
  ∃ w0 w1 w2 w3,
    Experiment_init example_user_settings experiment_settings example_status 0
    = Ok w0
    ∧ run [Motion example_enter; Timer 0 (example_fire None)] w0 = Some w1
    ∧ text_of_text_id w1.2 = keep_on_square
    ∧ collect_data w1.1 = false
    ∧ experiment_scheduled w1.1 = true
    ∧ job w1.1 = Some 0%nat
    ∧ after_pending w1.2 = []
    ∧ step (Motion example_enter) w1 = Some w2
    ∧ after_pending w2.2 = []
    ∧ experiment_scheduled w2.1 = true
    ∧ step (Motion example_enter) w0 = Some w3
    ∧ after_pending w3.2 = [0%nat].
Proof.
  pose proof example_stall_runs as H.
  destruct (Experiment_init example_user_settings experiment_settings
              example_status 0) as [w0|] eqn:E0; [|destruct H].
  destruct (run _ w0) as [w1|] eqn:E1; [|destruct H].
  destruct H as (H1 & H2 & H3 & H4 & H5 & H6 & H7 & H8).
  destruct (step (Motion example_enter) w1) as [w2|] eqn:E2;
    [|discriminate H6].
  destruct (step (Motion example_enter) w0) as [w3|] eqn:E3;
    [|discriminate H8].
  exists w0, w1, w2, w3. simpl in H6, H7, H8.
  injection H6 as H6. injection H7 as H7. injection H8 as H8. done.
Qed.

End scheduler_facts.

Section session_facts.
Local Arguments Sampler.next : simpl never.
Local Arguments interpolate : simpl never.
Local Arguments trial_props : simpl never.
Local Arguments click_notify : simpl never.

(** *** The trial numbers of a session *)

Lemma motion_trial (m : MotionEvent) (w : Experiment * Tk) :
  trial (motion m w).1 = trial w.1.
Proof.
  destruct w as [e k].
  unfold motion, motion_schedule, motion_cancel, motion_record, after.
  repeat case_match; simplify_eq; simpl; repeat case_match; simplify_eq;
    simpl; done.
Qed.

Lemma start_experiment_trial (t : TimerEvent) (w : Experiment * Tk) :
  trial (start_experiment t w).1 = trial w.1
  ∧ prop_list (start_experiment t w).1 = prop_list w.1.
Proof.
  destruct w as [e k]. unfold start_experiment, create_oval.
  repeat case_match; simplify_eq; simpl; done.
Qed.

Lemma click_notify_trial (e : Experiment) (k : Tk) :
  trial (click_notify e k).1 = trial e.
Proof. unfold click_notify. repeat case_match; simpl; done. Qed.

Lemma trial_props_trial (e : Experiment) (mouse_props : gmap string cell)
    (props : TrialProps) :
  trial_props e mouse_props = Ok props → p_trial props = trial e.
Proof.
  unfold trial_props.
  destruct (getitems (_user_settings e) _); [|done].
  destruct (getitems mouse_props _); [|done].
  cbn [bind]. by intros [= <-].
Qed.

(** A click leaves the properties and the trial number as they are, or
    adds the properties of the current trial and advances the trial
    number. *)
Lemma click_props (c : ClickEvent) (w : Experiment * Tk) :
  (prop_list (click c w).1 = prop_list w.1
   ∧ trial (click c w).1 = trial w.1)
  ∨ ∃ props,
      prop_list (click c w).1 = prop_list w.1 ++ [props]
      ∧ p_trial props = trial w.1
      ∧ trial (click c w).1 = trial w.1 + 1.
Proof.
  destruct w as [e k]. unfold click. cbn [fst snd].
  destruct (negb _).
  { left. by destruct (click_elsewhere_frame (e, k)) as [-> _]. }
  destruct (interpolate _ _) as [path|]; [|by left].
  destruct (trial_props _ _) as [props|] eqn:E; [|by left].
  right. exists props.
  match goal with |- context [click_notify ?e' ?k'] =>
    pose proof (click_notify_frame e' k') as H; simpl in H;
    destruct H as (_ & _ & _ & _ & _ & _ & H & _);
    pose proof (click_notify_trial e' k') as H'; simpl in H'
  end.
  rewrite H, H'. split; [done|]. split; [|done].
  by apply (trial_props_trial e (c_mouse_props c)).
Qed.

Lemma session_trials_step (first : Z) (ev : event) (w w' : Experiment * Tk) :
  step ev w = Some w' →
  p_trial <$> prop_list w.1 = seqZ first (trial w.1 - first) →
  first ≤ trial w.1 →
  p_trial <$> prop_list w'.1 = seqZ first (trial w'.1 - first)
  ∧ first ≤ trial w'.1.
Proof.
  intros Hstep Hp Hle. destruct ev as [m|c|id t].
  - apply step_motion in Hstep as [_ ->].
    destruct (motion_frame m w) as (_ & _ & -> & _).
    by rewrite motion_trial.
  - apply step_click in Hstep as [_ ->].
    destruct (click_props c w) as [[-> ->]|(props & -> & Hnr & ->)]; [done|].
    split; [|lia].
    rewrite fmap_app, Hp. simpl. rewrite Hnr.
    replace (trial w.1 + 1 - first) with ((trial w.1 - first) + 1) by lia.
    rewrite seqZ_app by lia. f_equal.
    replace (first + (trial w.1 - first)) with (trial w.1) by lia.
    reflexivity.
  - apply step_timer in Hstep as [_ ->].
    by destruct (start_experiment_trial t (w.1, after_cancel id w.2))
      as [-> ->].
Qed.

(** The trials a session completes are numbered from the last trial
    number of the history, one by one. *)
Lemma session_trials (user_settings : gmap string cell)
    (es : ExperimentSettings.t) (cs : CollectionStatus.t) (clock : Q)
    (w0 : Experiment * Tk) (evs : list event) (w : Experiment * Tk) :
  Experiment_init user_settings es cs clock = Ok w0 →
  run evs w0 = Some w →
  p_trial <$> prop_list w.1
  = seqZ (CollectionStatus.last_trial_nr cs + 1)
      (Z.of_nat (length (prop_list w.1))).
Proof.
  intros Hinit Hrun.
  apply well_formed_init in Hinit as (_ & _ & _ & Hp0 & Ht0).
  set (first := CollectionStatus.last_trial_nr cs + 1) in *.
  assert (p_trial <$> prop_list w.1 = seqZ first (trial w.1 - first)
          ∧ first ≤ trial w.1) as [Hp Hle].
  { assert (p_trial <$> prop_list w0.1 = seqZ first (trial w0.1 - first)
            ∧ first ≤ trial w0.1) as H0.
    { rewrite Hp0, Ht0, Z.sub_diag. split; [done|lia]. }
    clear Hp0 Ht0. revert w0 Hrun H0.
    induction evs as [|ev evs IH]; intros w0 Hrun H0; simpl in Hrun.
    - by injection Hrun as <-.
    - destruct (step ev w0) as [w1|] eqn:E; [|done].
      apply (IH w1 Hrun). destruct H0.
      by apply (session_trials_step first ev w0). }
  rewrite Hp. f_equal.
  apply (f_equal length) in Hp. rewrite length_fmap, length_seqZ in Hp.
  lia.
Qed.

Lemma int_max_upper (l : list Z) (last : Z) :
  int_max l = Ok last → Forall (λ t, t ≤ last) l.
Proof.
  destruct l as [|a l]; [done|]. simpl. intros [= <-].
  assert (∀ b, b ≤ foldl Z.max b l ∧ Forall (λ t, t ≤ foldl Z.max b l) l)
    as H.
  { induction l as [|c l IH]; intros b; simpl; [split; [lia|done]|].
    destruct (IH (b `max` c)) as [H1 H2]. split; [lia|].
    constructor; [lia|done]. }
  destruct (H a). by constructor.
Qed.

(** The frame [start] aggregates has distinct trial numbers when the
    history has. *)
Lemma merged_trials_distinct (user_settings : gmap string cell)
    (es : ExperimentSettings.t) (cs : CollectionStatus.t) (clock : Q)
    (w0 : Experiment * Tk) (evs : list event) (w : Experiment * Tk)
    (df_props_old : list TrialProps) :
  NoDup (p_trial <$> df_props_old) →
  int_max (p_trial <$> df_props_old)
  = Ok (CollectionStatus.last_trial_nr cs) →
  Experiment_init user_settings es cs clock = Ok w0 →
  run evs w0 = Some w →
  NoDup (p_trial <$> df_props_old ++ prop_list w.1).
Proof.
  intros Hold Hmax Hinit Hrun.
  rewrite fmap_app, (session_trials _ _ _ _ _ _ _ Hinit Hrun).
  apply NoDup_app. split; [done|]. split; [|apply NoDup_seqZ].
  intros t Ht [Hge _]%elem_of_seqZ.
  apply int_max_upper in Hmax. rewrite Forall_forall in Hmax.
  apply Hmax in Ht. lia.
Qed.

End session_facts.

(** ** Session aggregation *)

Section aggregation_facts.


Lemma filter_all {A} (P : A → Prop) `{∀ x, Decision (P x)} (l : list A) :
  Forall P l → filter P l = l.
Proof.
  induction 1 as [|a l Ha _ IH]; [done|].
  by rewrite filter_cons_True, IH.
Qed.

Lemma filter_none {A} (P : A → Prop) `{∀ x, Decision (P x)} (l : list A) :
  Forall (λ x, ¬ P x) l → filter P l = [].
Proof.
  induction 1 as [|a l Ha _ IH]; [done|].
  by rewrite filter_cons_False, IH.
Qed.


(** *** The largest values of a column *)

Lemma sorted_ge (l : list Z) : StronglySorted Z.ge (merge_sort Z.ge l).
Proof.
  apply StronglySorted_merge_sort.
  - intros x y z. lia.
  - intros x y. lia.
Qed.

(** In a column sorted from the largest value down, the first [k] values
    are those with fewer than [k] values above them. *)
Lemma elem_of_take_sorted (k : nat) (s : list Z) (v : Z) :
  StronglySorted Z.ge s →
  v ∈ take k s ↔ v ∈ s ∧ (length (filter (λ u : Z, (v < u)%Z) s) < k)%nat.
Proof.
  intros Hs. revert k. induction Hs as [|a s Hs IH Ha]; intros k.
  - rewrite take_nil. split; [by intros ?%elem_of_nil|].
    by intros [?%elem_of_nil _].
  - destruct k as [|k].
    + simpl. split; [by intros ?%elem_of_nil|lia].
    + rewrite firstn_cons, !elem_of_cons, IH, filter_cons.
      rewrite Forall_forall in Ha.
      destruct (decide (v < a)) as [Hlt|Hge]; simpl.
      * split.
        -- intros [->|[? ?]]; [lia|]. split; [by right|lia].
        -- intros [[->|?] ?]; [lia|]. right. split; [done|lia].
      * split.
        -- intros [->|[Hv ?]].
           ++ split; [by left|]. rewrite filter_none; [simpl; lia|].
              apply Forall_forall. intros u Hu%Ha. lia.
           ++ split; [by right|lia].
        -- intros [[->|Hv] ?]; [by left|].
           apply Ha in Hv. assert (v = a) as -> by lia. by left.
Qed.

Lemma elem_of_nlargest (n : Z) (l : list Z) (v : Z) :
  v ∈ nlargest n l
  ↔ v ∈ l ∧ (length (filter (λ u : Z, (v < u)%Z) l) < Z.to_nat n)%nat.
Proof.
  unfold nlargest. rewrite elem_of_take_sorted by apply sorted_ge.
  by rewrite (merge_sort_Permutation Z.ge l).
Qed.



Lemma sublist_filter_mono {A} (P : A → Prop) `{∀ x, Decision (P x)}
    (l1 l2 : list A) :
  l1 `sublist_of` l2 → filter P l1 `sublist_of` filter P l2.
Proof.
  induction 1 as [|x l1 l2 _ IH|x l1 l2 _ IH]; [done| |];
    rewrite ?filter_cons; destruct (decide (P x)); try done.
  - by apply sublist_skip.
  - by apply sublist_cons.
Qed.

Lemma nlargest_subseteq (n : Z) (l : list Z) (v : Z) :
  v ∈ nlargest n l → v ∈ l.
Proof. rewrite elem_of_nlargest. tauto. Qed.

Lemma trials_of_sublist (m : Z) (P : TrialProps → Prop)
    `{∀ row, Decision (P row)} (df : list TrialProps) :
  trials_of m (filter P df) `sublist_of` trials_of m df.
Proof.
  unfold trials_of. apply fmap_sublist.
  induction df as [|row df IH]; [done|].
  rewrite !filter_cons. destruct (decide (P row)).
  - rewrite filter_cons.
    destruct (decide (has_input_method m row));
      [by apply sublist_skip|done].
  - destruct (decide (has_input_method m row)); [by apply sublist_cons|done].
Qed.

(** A trial number among the largest of a frame stays among the largest
    of every part of the frame that keeps its rows. *)
Lemma nlargest_retained (n m : Z) (P : TrialProps → Prop)
    `{∀ row, Decision (P row)} (df : list TrialProps) (v : Z) :
  (∀ row, row ∈ df → p_trial row = v → P row) →
  v ∈ nlargest n (trials_of m df) →
  v ∈ nlargest n (trials_of m (filter P df)).
Proof.
  intros Hkeep. rewrite !elem_of_nlargest. intros [Hv Hrank]. split.
  - unfold trials_of in *.
    apply list_elem_of_fmap in Hv as (row & -> & Hrow).
    apply list_elem_of_filter in Hrow as [Hm Hrow].
    apply list_elem_of_fmap. exists row. split; [done|].
    apply list_elem_of_filter. split; [done|].
    apply list_elem_of_filter. split; [|done]. by apply Hkeep.
  - eapply Nat.le_lt_trans; [|exact Hrank].
    apply sublist_length, sublist_filter_mono, trials_of_sublist.
Qed.

(** C6: the selection of the last [max_nr_paths] mouse trials and the last
    [max_nr_paths] trackpad trials, applied to frames it has produced,
    returns them unchanged. *)
Theorem retain_idempotent (max_nr_paths : Z) (df : list Sample)
    (df_trial_props : list TrialProps) :
  let out := retain max_nr_paths df df_trial_props in
  retain max_nr_paths out.1 out.2 = out.
Proof.
  unfold retain. cbn [fst snd].
  set (M := nlargest max_nr_paths (trials_of 1 df_trial_props)).
  set (T := nlargest max_nr_paths (trials_of 0 df_trial_props)).
  set (kept := filter (λ row, p_trial row ∈ M ∨ p_trial row ∈ T)
                 df_trial_props).
  assert (∀ v, v ∈ M → v ∈ nlargest max_nr_paths (trials_of 1 kept)) as HM.
  { intros v Hv. apply nlargest_retained; [|exact Hv].
    intros row _ <-. by left. }
  assert (∀ v, v ∈ T → v ∈ nlargest max_nr_paths (trials_of 0 kept)) as HT.
  { intros v Hv. apply nlargest_retained; [|exact Hv].
    intros row _ <-. by right. }
  f_equal; apply filter_all, Forall_forall.
  - intros s [[?|?] _]%list_elem_of_filter; [left; by apply HM|].
    right; by apply HT.
  - intros row [[?|?] _]%list_elem_of_filter; [left; by apply HM|].
    right; by apply HT.
Qed.

(** *** The retention window *)








Lemma elem_of_trials_of (m t : Z) (df : list TrialProps) :
  t ∈ trials_of m df
  ↔ ∃ row, row ∈ df ∧ has_input_method m row ∧ p_trial row = t.
Proof.
  unfold trials_of. rewrite list_elem_of_fmap. split.
  - intros (row & -> & [H1 H2]%list_elem_of_filter). by exists row.
  - intros (row & H1 & H2 & <-). exists row. split; [done|].
    by apply list_elem_of_filter.
Qed.

Lemma length_nlargest (n : Z) (l : list Z) :
  (length (nlargest n l) ≤ Z.to_nat n)%nat.
Proof. unfold nlargest. rewrite length_take. lia. Qed.



(** The scenario of the retention window: 20 earlier mouse trials above
    the training threshold and one new mouse trial.  The session numbers
    the new trial 26, and the written properties keep the mouse trials 12
    to 26: the 14 most recent earlier ones and the new one. *)
Example example_session_retains_15 :
  match start experiment_settings example_files example_mainloop with
  | Ok (Some (_, _, props), fs) =>
      p_trial <$> props = seqZ 12 15
      ∧ distinct_trials 1 5 props = 15%nat
      ∧ (p_trial <$> match paths_props_csv fs with
                     | Table rows => rows
                     | _ => []
                     end) = seqZ 12 15
  | _ => False
  end.
Proof. vm_compute. done. Qed.

(** The experiment the example session ends with. *)
Lemma example_mainloop_runs :
  match example_mainloop (CollectionStatus.mk 15 0 (-1) 25 25) None with
  | Some e =>
      length (list_with_dataframes e) = 1%nat
      ∧ length (interpolated_paths e) = 1%nat
      ∧ p_trial <$> prop_list e = [26]
  | None => False
  end.
Proof. vm_compute. done. Qed.


(** C2, as the specification has it, fails when trial numbers are shared.
    The history holds the mouse trials 5 to 24 and the trackpad trials 5 to
    9, and the session adds the mouse trial 25.  The 15 newest mouse
    trials are 11 to 25, and the mouse trials 5 to 9 are kept as well,
    since the trackpad selection holds their numbers: the written
    properties hold 20 mouse trial numbers, not 15. *)
Lemma retention_keeps_shared_trial_numbers :
  match start experiment_settings example_shared_files example_mainloop with
  | Ok (Some (_, _, props), fs) =>
      (p_trial <$> match paths_props_csv fs with
                   | Table rows => filter (λ row, has_input_method 1 row) rows
                   | _ => []
                   end) = seqZ 5 5 ++ seqZ 11 15
      ∧ distinct_trials 1 5 props = 20%nat
      ∧ (Z.to_nat (ExperimentSettings.max_nr_paths experiment_settings)
         < distinct_trials 1 5 props)%nat
  | _ => False
  end.
Proof. vm_compute. split_and!; [reflexivity|reflexivity|lia]. Qed.

End aggregation_facts.

Section phase_facts.
Local Arguments Sampler.next : simpl never.
Local Arguments interpolate : simpl never.
Local Arguments trial_props : simpl never.
Local Arguments click_notify : simpl never.

(** X1: in every state the experiment reaches there is at most one pending
    timer or one target on the canvas, never both; pointer data is
    collected exactly while the target is on the canvas, and then the
    sample buffer is not empty; while the timer is pending [job] holds
    it. *)
Theorem one_trial_at_a_time (user_settings : gmap string cell)
    (es : ExperimentSettings.t) (cs : CollectionStatus.t) (clock : Q)
    (w0 : Experiment * Tk) (evs : list event) (w : Experiment * Tk) :
  Experiment_init user_settings es cs clock = Ok w0 →
  run evs w0 = Some w →
  (length (after_pending w.2) + length (canvas_ovals w.2) ≤ 1)%nat
  ∧ (collect_data w.1 = true ↔ canvas_ovals w.2 ≠ [])
  ∧ (collect_data w.1 = true → mouse_list w.1 ≠ [])
  ∧ (∀ id, id ∈ after_pending w.2 → job w.1 = Some id)
  ∧ (canvas_ovals w.2 ≠ [] → experiment_scheduled w.1 = true).
Proof.
  intros Hinit Hrun.
  apply well_formed_init in Hinit as (_ & Hw0 & _).
  pose proof (well_formed_run evs w0 w Hw0 Hrun) as (Hph & _).
  destruct Hph as [Hi|[[id Ha]|[Hs|Hc]]].
  - destruct Hi as (Hs & Hj & Hc & Hp & Ho). rewrite Hp, Ho, Hc.
    repeat split; try done; simpl; try lia. by intros ? ?%elem_of_nil.
  - destruct Ha as (Hs & Hj & Hc & Hp & Ho). rewrite Hp, Ho, Hc.
    repeat split; try done; simpl; try lia.
    by intros ? ->%list_elem_of_singleton.
  - destruct Hs as (Hs & Hj & Hc & Hp & Ho). rewrite Hp, Ho, Hc.
    repeat split; try done; simpl; try lia. by intros ? ?%elem_of_nil.
  - destruct Hc as (Hs & Hj & Hc & Hp & oval & first & rest & Ho & _ & Hl & _).
    rewrite Hp, Ho, Hc, Hl.
    repeat split; try done; simpl; try lia. by intros ? ?%elem_of_nil.
Qed.

(** The first two events of the example trial leave the experiment
    collecting data, with the first target on the canvas. *)
Lemma example_collecting_runs :
  match Experiment_init example_user_settings experiment_settings
          example_status 0 with
  | Ok w0 =>
      match run (take 2 example_trial) w0 with
      | Some w => collect_data w.1 = true ∧ canvas_ovals w.2 = [4%nat]
      | None => False
      end
  | Raise _ => False
  end.
Proof. vm_compute. done. Qed.

Lemma one_trial_at_a_time_witness :
  ∃ w0 w,
    Experiment_init example_user_settings experiment_settings example_status 0
    = Ok w0
    ∧ run (take 2 example_trial) w0 = Some w
    ∧ (length (after_pending w.2) + length (canvas_ovals w.2) ≤ 1)%nat
    ∧ (collect_data w.1 = true ↔ canvas_ovals w.2 ≠ [])
    ∧ (collect_data w.1 = true → mouse_list w.1 ≠ [])
    ∧ (∀ id, id ∈ after_pending w.2 → job w.1 = Some id)
    ∧ (canvas_ovals w.2 ≠ [] → experiment_scheduled w.1 = true).
Proof.
  pose proof example_collecting_runs as H.
  destruct (Experiment_init example_user_settings experiment_settings
              example_status 0) as [w0|] eqn:E0; [|destruct H].
  destruct (run (take 2 example_trial) w0) as [w|] eqn:E1; [|destruct H].
  exists w0, w. split; [reflexivity|]. split; [exact E1|].
  exact (one_trial_at_a_time _ _ _ _ w0 _ w E0 E1).
Defined.

End phase_facts.

Section ledger_facts.
Local Arguments Sampler.next : simpl never.
Local Arguments interpolate : simpl never.
Local Arguments trial_props : simpl never.
Local Arguments click_notify : simpl never.

Lemma getitems_complete (d : gmap string cell) (keys : list string) :
  complete keys d ↔ ∃ vs, getitems d keys = Ok vs.
Proof.
  unfold complete. induction keys as [|k keys IH]; simpl.
  - split; [by eexists|constructor].
  - rewrite Forall_cons, IH. unfold getitem. split.
    + intros [[v ->] [vs ->]]. by eexists.
    + destruct (d !! k) as [v|]; simpl; [|by intros [? ?]].
      destruct (getitems d keys) as [vs|]; simpl; [|by intros [? ?]].
      intros _. split; by eexists.
Qed.

Lemma trial_props_ok (e : Experiment) (mouse_props : gmap string cell) :
  complete UserSettings_accepted_keys (_user_settings e) →
  complete SystemSettings_accepted_keys mouse_props →
  ∃ props, trial_props e mouse_props = Ok props.
Proof.
  intros [user Hu]%getitems_complete [system Hs]%getitems_complete.
  unfold trial_props. rewrite Hu, Hs. by eexists.
Qed.

Lemma trial_props_numbers (e : Experiment) (mouse_props : gmap string cell)
    (props : TrialProps) :
  trial_props e mouse_props = Ok props →
  p_trial props = trial e
  ∧ p_trial_for_input_method props = method_trial_nr e.
Proof.
  unfold trial_props.
  destruct (getitems _ UserSettings_accepted_keys); [|done].
  destruct (getitems _ SystemSettings_accepted_keys); [|done].
  by intros [= <-].
Qed.

Lemma click_notify_ledger (e : Experiment) (k : Tk) :
  let w' := click_notify e k in
  _user_settings w'.1 = _user_settings e
  ∧ input_method w'.1 = input_method e
  ∧ max_training_nr w'.1 = max_training_nr e
  ∧ trial w'.1 = trial e
  ∧ trackpad_trial_nr w'.1 = trackpad_trial_nr e
  ∧ mouse_trial_nr w'.1 = mouse_trial_nr e
  ∧ nr_trackpad_trials_collected w'.1
    = nr_trackpad_trials_collected e
      + (if cell_eq_int (input_method e) 0 && bool_decide (max_training_nr e < trial e)
         then 1 else 0)
  ∧ nr_mouse_trials_collected w'.1
    = nr_mouse_trials_collected e
      + (if negb (cell_eq_int (input_method e) 0)
            && bool_decide (max_training_nr e < trial e)
         then 1 else 0).
Proof.
  unfold click_notify. case_bool_decide as Ht; cbn [fst].
  - cbn. rewrite (bool_decide_eq_true_2 (max_training_nr e < trial e)) by lia.
    rewrite !andb_true_r.
    destruct (cell_eq_int (input_method e) 0); repeat split; simpl; try done; lia.
  - rewrite (bool_decide_eq_false_2 (max_training_nr e < trial e)) by lia.
    rewrite !andb_false_r.
    case_bool_decide; cbn; repeat split; try done; lia.
Qed.

(** What a click on the target does to the records of the session. *)
Lemma click_on_target_ledger (c : ClickEvent) (w : Experiment * Tk) (i : nat) :
  c_current c = Some i → target_id w.1 = Some i →
  let w' := click c w in
  let df := mouse_list w.1 ++ [click_sample c w.1] in
  ∃ path,
    interpolate (trial w.1) df = Ok path
    ∧ list_with_dataframes w'.1 = list_with_dataframes w.1 ++ [df]
    ∧ interpolated_paths w'.1 = interpolated_paths w.1 ++ [path]
    ∧ _user_settings w'.1 = _user_settings w.1
    ∧ input_method w'.1 = input_method w.1
    ∧ max_training_nr w'.1 = max_training_nr w.1
    ∧ ((∃ x, trial_props w.1 (c_mouse_props c) = Raise x)
       ∧ prop_list w'.1 = prop_list w.1
       ∧ trial w'.1 = trial w.1
       ∧ method_trial_nr w'.1 = method_trial_nr w.1
       ∧ mouse_list w'.1 = df
       ∧ nr_trackpad_trials_collected w'.1 = nr_trackpad_trials_collected w.1
       ∧ nr_mouse_trials_collected w'.1 = nr_mouse_trials_collected w.1
       ∨ ∃ props,
           trial_props w.1 (c_mouse_props c) = Ok props
           ∧ prop_list w'.1 = prop_list w.1 ++ [props]
           ∧ trial w'.1 = trial w.1 + 1
           ∧ method_trial_nr w'.1 = method_trial_nr w.1 + 1
           ∧ mouse_list w'.1 = []
           ∧ nr_trackpad_trials_collected w'.1
             = nr_trackpad_trials_collected w.1
               + (if cell_eq_int (input_method w.1) 0
                     && bool_decide (max_training_nr w.1 ≤ trial w.1)
                  then 1 else 0)
           ∧ nr_mouse_trials_collected w'.1
             = nr_mouse_trials_collected w.1
               + (if negb (cell_eq_int (input_method w.1) 0)
                     && bool_decide (max_training_nr w.1 ≤ trial w.1)
                  then 1 else 0)).
Proof.
  destruct w as [e k]. cbn [fst snd]. intros Hc Ht.
  unfold click. rewrite Hc, Ht. rewrite bool_decide_eq_true_2 by done.
  cbn [negb]. fold (click_sample c e).
  destruct (interpolate_ok (trial e) (mouse_list e ++ [click_sample c e]))
    as (min_t & max_t & _ & _ & _ & _ & Hint).
  { by destruct (mouse_list e). }
  rewrite Hint. eexists. split; [done|].
  destruct (trial_props e (c_mouse_props c)) as [props|x] eqn:Hprops.
  - match goal with |- context [click_notify ?e' ?k'] =>
      pose proof (click_notify_frame e' k') as H; simpl in H;
      destruct H as (H1&H2&H3&H4&H5&H6&H7&H8&H9&H10&H11&H12);
      pose proof (click_notify_ledger e' k') as L; simpl in L;
      destruct L as (L1&L2&L3&L4&L5&L6&L7&L8) end.
    rewrite H5, H6, L1, L2, L3. repeat split; try done.
    right. exists props. rewrite H7, L4, H4, L7, L8.
    unfold method_trial_nr. rewrite L2, L5, L6.
    repeat split; try done.
    + by destruct (cell_eq_int (input_method e) 0).
    + f_equal. destruct (cell_eq_int (input_method e) 0); [|done].
      simpl. repeat case_bool_decide; try done; lia.
    + f_equal. destruct (cell_eq_int (input_method e) 0); [done|].
      simpl. repeat case_bool_decide; try done; lia.
  - simpl. repeat split; try done. left. repeat split; try done. by eexists.
Qed.

(** The other callbacks leave the records alone. *)
Lemma same_records_trans (e1 e2 e3 : Experiment) :
  same_records e1 e2 → same_records e2 e3 → same_records e1 e3.
Proof.
  unfold same_records. intros H1 H2.
  destruct H1 as (A1&A2&A3&A4&A5&A6&A7&A8&A9&A10&A11).
  destruct H2 as (B1&B2&B3&B4&B5&B6&B7&B8&B9&B10&B11).
  repeat split; congruence.
Qed.


Lemma motion_schedule_records (m : MotionEvent) (w w1 : Experiment * Tk) :
  motion_schedule m w = Ok w1 →
  same_records w.1 w1.1 ∧ mouse_list w1.1 = mouse_list w.1.
Proof.
  destruct w as [e k]. unfold motion_schedule.
  destruct (_ && _); [|by intros [= <-]].
  case_bool_decide; [|by intros [= <-]].
  destruct (Sampler.next _ _) as [[| d |]|]; try done.
  destruct (after k). by intros [= <-].
Qed.

Lemma motion_cancel_records (m : MotionEvent) (w : Experiment * Tk) :
  same_records w.1 (motion_cancel m w).1
  ∧ mouse_list (motion_cancel m w).1 = mouse_list w.1.
Proof.
  destruct w as [e k]. unfold motion_cancel.
  destruct (job e); [|done]. by case_bool_decide.
Qed.

Lemma motion_record_records (m : MotionEvent) (w : Experiment * Tk) :
  same_records w.1 (motion_record m w).1
  ∧ (mouse_list (motion_record m w).1 = mouse_list w.1
     ∨ ∃ s, mouse_list (motion_record m w).1 = mouse_list w.1 ++ [s]
            ∧ s_trial s = trial w.1).
Proof.
  destruct w as [e k]. unfold motion_record.
  destruct (collect_data e); [|by split; [|left]].
  split; [done|]. right. by eexists.
Qed.

Lemma motion_records (m : MotionEvent) (w : Experiment * Tk) :
  same_records w.1 (motion m w).1
  ∧ (mouse_list (motion m w).1 = mouse_list w.1
     ∨ ∃ s, mouse_list (motion m w).1 = mouse_list w.1 ++ [s]
            ∧ s_trial s = trial w.1).
Proof.
  unfold motion.
  destruct (motion_schedule m w) as [w1|] eqn:E; [|by split; [|left]].
  apply motion_schedule_records in E as [E1 E2].
  destruct (motion_cancel_records m w1) as [C1 C2].
  destruct (motion_record_records m (motion_cancel m w1)) as [R1 R2].
  split; [by repeat (eapply same_records_trans; [eassumption|])|].
  pose proof (same_records_trans _ _ _ E1 C1) as (_&_&_&T&_).
  rewrite C2, E2, T in R2. done.
Qed.

Lemma start_experiment_records (t : TimerEvent) (w : Experiment * Tk) :
  same_records w.1 (start_experiment t w).1
  ∧ (mouse_list (start_experiment t w).1 = mouse_list w.1
     ∨ ∃ s, mouse_list (start_experiment t w).1 = [s]
            ∧ s_trial s = trial w.1).
Proof.
  destruct w as [e k]. unfold start_experiment.
  case_bool_decide; cbn [negb]; [|by split; [|left]].
  destruct (next_distance (t_random_r t)) as [q ->].
  destruct (next_orientation (t_random_phi t)) as (a & N & ->).
  destruct (next_radius (t_random_radius t)) as [z ->].
  destruct (create_oval _). split; [done|]. right. by eexists.
Qed.

End ledger_facts.

(** *** Invariants of a run *)

Lemma run_invariant (Q : event → Prop) (P : Experiment * Tk → Prop)
    (evs : list event) (w w' : Experiment * Tk) :
  (∀ ev w w', Q ev → P w → step ev w = Some w' → P w') →
  Forall Q evs → P w → run evs w = Some w' → P w'.
Proof.
  intros Hstep. revert w. induction evs as [|ev evs IH]; intros w HQ HP; simpl.
  - by intros [= <-].
  - destruct (step ev w) as [w1|] eqn:E; [|done].
    apply Forall_cons in HQ as [HQ1 HQ2].
    apply IH; [done|]. by apply (Hstep ev w).
Qed.

Lemma Forall_True {A} (l : list A) : Forall (λ _, True) l.
Proof. by apply Forall_forall. Qed.

Ltac run_induction Q Hrun :=
  match type of Hrun with
  | run ?evs ?w0 = Some ?w =>
      pattern w;
      match goal with
      | |- ?P w =>
          apply (run_invariant Q P evs w0 w); [cbv beta| |cbv beta|exact Hrun]
      end
  end.

Section ledger_facts2.
Local Arguments Sampler.next : simpl never.
Local Arguments interpolate : simpl never.
Local Arguments trial_props : simpl never.
Local Arguments click_notify : simpl never.

Lemma same_records_refl (e : Experiment) : same_records e e.
Proof. by unfold same_records. Qed.

(** An event leaves the records alone, or it is a click on the target. *)
Lemma records_step (ev : event) (w w' : Experiment * Tk) :
  step ev w = Some w' →
  (same_records w.1 w'.1
   ∧ (mouse_list w'.1 = mouse_list w.1
      ∨ (∃ s, mouse_list w'.1 = mouse_list w.1 ++ [s]
              ∧ s_trial s = trial w.1)
      ∨ (∃ s, mouse_list w'.1 = [s] ∧ s_trial s = trial w.1)))
  ∨ (∃ c i, ev = Click c ∧ c_current c = Some i ∧ target_id w.1 = Some i
            ∧ w' = click c w).
Proof.
  intros Hstep. destruct ev as [m|c|id t].
  - apply step_motion in Hstep as [_ ->]. left.
    destruct (motion_records m w) as [H1 H2]. split; [done|].
    destruct H2 as [H2|H2]; [by left|by right; left].
  - apply step_click in Hstep as [_ ->].
    destruct (c_current c) as [i|] eqn:Hcur.
    2:{ left. rewrite click_off_target by (rewrite Hcur; done).
        destruct (click_elsewhere_frame w) as [-> _].
        split; [apply same_records_refl|by left]. }
    destruct (decide (target_id w.1 = Some i)) as [Ht|Ht].
    2:{ left. rewrite click_off_target by (rewrite Hcur; congruence).
        destruct (click_elsewhere_frame w) as [-> _].
        split; [apply same_records_refl|by left]. }
    right. by exists c, i.
  - apply step_timer in Hstep as [_ ->]. left.
    destruct (start_experiment_records t (w.1, after_cancel id w.2))
      as [H1 H2].
    split; [done|]. destruct H2 as [H2|H2]; [by left|by right; right].
Qed.

Lemma init_records (user_settings : gmap string cell)
    (es : ExperimentSettings.t) (cs : CollectionStatus.t) (clock : Q)
    (w : Experiment * Tk) :
  Experiment_init user_settings es cs clock = Ok w →
  getitem user_settings "input_method" = Ok (input_method w.1)
  ∧ _user_settings w.1 = user_settings
  ∧ max_training_nr w.1 = ExperimentSettings.max_training_nr es
  ∧ trial w.1 = CollectionStatus.last_trial_nr cs + 1
  ∧ method_trial_nr w.1
    = (if cell_eq_int (input_method w.1) 0
       then CollectionStatus.last_trackpad_trial_nr cs + 1
       else CollectionStatus.last_mouse_trial_nr cs + 1)
  ∧ nr_trackpad_trials_collected w.1
    = CollectionStatus.nr_trackpad_trials_collected cs
  ∧ nr_mouse_trials_collected w.1
    = CollectionStatus.nr_mouse_trials_collected cs
  ∧ list_with_dataframes w.1 = [] ∧ interpolated_paths w.1 = []
  ∧ prop_list w.1 = [] ∧ mouse_list w.1 = [].
Proof.
  unfold Experiment_init.
  destruct (getitem user_settings "input_method") as [im|]; [|done].
  cbn [bind]. intros [= <-]. unfold method_trial_nr. cbn.
  repeat split; try done. by destruct (cell_eq_int im 0).
Qed.

(** *** The numbers of the trials of a session *)




(** *** The counters of collected paths *)

Lemma counted_app (mt : Z) (l : list TrialProps) (props : TrialProps) :
  counted mt (l ++ [props])
  = counted mt l + (if bool_decide (mt ≤ p_trial props) then 1 else 0).
Proof.
  unfold counted. rewrite filter_app, length_app.
  rewrite filter_cons, filter_nil.
  case_bool_decide; rewrite decide_bool_decide;
    [rewrite bool_decide_eq_true_2 by done
    |rewrite bool_decide_eq_false_2 by done]; simpl; lia.
Qed.

(** X3: the two counters of collected paths are those of the collection
    status plus, for the input method in use, the number of trials the
    session has recorded past the training rounds; the counter of the other
    input method does not change. *)
Theorem counters_follow_records (user_settings : gmap string cell)
    (es : ExperimentSettings.t) (cs : CollectionStatus.t) (clock : Q)
    (w0 : Experiment * Tk) (evs : list event) (w : Experiment * Tk) :
  Experiment_init user_settings es cs clock = Ok w0 →
  run evs w0 = Some w →
  let n := counted (ExperimentSettings.max_training_nr es) (prop_list w.1) in
  nr_trackpad_trials_collected w.1
  = CollectionStatus.nr_trackpad_trials_collected cs
    + (if cell_eq_int (input_method w.1) 0 then n else 0)
  ∧ nr_mouse_trials_collected w.1
    = CollectionStatus.nr_mouse_trials_collected cs
      + (if cell_eq_int (input_method w.1) 0 then 0 else n).
Proof.
  intros Hinit Hrun.
  apply init_records in Hinit
    as (_ & _ & Hmt & _ & _ & Htp & Hmo & _ & _ & Hp & _).
  set (mt := ExperimentSettings.max_training_nr es) in *.
  set (tp := CollectionStatus.nr_trackpad_trials_collected cs) in *.
  set (mo := CollectionStatus.nr_mouse_trials_collected cs) in *.
  cbn zeta.
  assert (max_training_nr w.1 = mt
          ∧ nr_trackpad_trials_collected w.1
            = tp + (if cell_eq_int (input_method w.1) 0
                    then counted mt (prop_list w.1) else 0)
          ∧ nr_mouse_trials_collected w.1
            = mo + (if cell_eq_int (input_method w.1) 0
                    then 0 else counted mt (prop_list w.1))) as (_ & H);
    [|exact H].
  run_induction (λ _ : event, True) Hrun; [|apply Forall_True|].
  - intros ev w1 w2 _ (H1 & H2 & H3) Hstep.
    apply records_step in Hstep as [[Hsame _]|(c & i & -> & Hc & Htg & ->)].
    + destruct Hsame as (_&->&->&_&_&_&->&->&_&_&->). done.
    + destruct (click_on_target_ledger c w1 i Hc Htg)
        as (path & _ & _ & _ & _ & -> & ->
            & [(_ & -> & _ & _ & _ & -> & ->)
              |(props & Hpr & -> & _ & _ & _ & -> & ->)]);
        [done|].
      apply trial_props_numbers in Hpr as [Hpr _].
      rewrite counted_app, Hpr, H1, H2, H3. split; [done|].
      destruct (cell_eq_int (input_method w1.1) 0); simpl; split; lia.
  - rewrite Hmt, Htp, Hmo, Hp. unfold counted. simpl.
    destruct (cell_eq_int _ _); repeat split; lia.
Qed.

Lemma counters_follow_records_witness :
  ∃ w0 w,
    Experiment_init example_user_settings experiment_settings
      (CollectionStatus.mk 15 0 (-1) 25 25) 0 = Ok w0
    ∧ run example_trial w0 = Some w
    ∧ p_trial <$> prop_list w.1 = [26]
    ∧ nr_trackpad_trials_collected w.1
      = 0 + (if cell_eq_int (input_method w.1) 0
             then counted 5 (prop_list w.1) else 0)
    ∧ nr_mouse_trials_collected w.1
      = 15 + (if cell_eq_int (input_method w.1) 0
              then 0 else counted 5 (prop_list w.1)).
Proof.
  pose proof example_mainloop_runs as H. unfold example_mainloop in H.
  destruct (Experiment_init example_user_settings experiment_settings
              (CollectionStatus.mk 15 0 (-1) 25 25) 0) as [w0|] eqn:E0;
    [|destruct H].
  destruct (run example_trial w0) as [w|] eqn:E1; [|destruct H].
  destruct H as (_ & _ & H).
  exists w0, w. split; [reflexivity|]. split; [exact E1|].
  split; [exact H|].
  exact (counters_follow_records _ _ _ _ w0 _ w E0 E1).
Defined.

(** *** Paths, interpolated paths and records *)

Lemma interpolate_trial (self_trial : Z) (df : list Sample)
    (rows : list Row) :
  interpolate self_trial df = Ok rows →
  Forall (λ r, r_trial r = self_trial) rows.
Proof.
  destruct df as [|s df]; [done|].
  destruct (interpolate_ok self_trial (s :: df))
    as (min_t & max_t & _ & _ & _ & _ & ->); [done|].
  intros [= <-].
  eapply Forall_impl; [apply DataFrame_pointwise|].
  by intros r (H & _).
Qed.

Lemma paths_step (user_settings : gmap string cell) (ev : event)
    (w w' : Experiment * Tk) :
  _user_settings w.1 = user_settings
  ∧ Forall (λ s, s_trial s = trial w.1) (mouse_list w.1)
  ∧ Forall2 same_trial (list_with_dataframes w.1) (interpolated_paths w.1)
  ∧ (length (prop_list w.1) ≤ length (list_with_dataframes w.1))%nat →
  step ev w = Some w' →
  _user_settings w'.1 = user_settings
  ∧ Forall (λ s, s_trial s = trial w'.1) (mouse_list w'.1)
  ∧ Forall2 same_trial (list_with_dataframes w'.1) (interpolated_paths w'.1)
  ∧ (length (prop_list w'.1) ≤ length (list_with_dataframes w'.1))%nat.
Proof.
  intros (H1 & H2 & H3 & H4) Hstep.
  apply records_step in Hstep as [[Hsame Hm]|(c & i & -> & Hc & Ht & ->)].
  - destruct Hsame as (->&_&_&->&_&_&_&_&->&->&->).
    repeat split; try done.
    destruct Hm as [->|[(s & -> & Hs)|(s & -> & Hs)]]; [done| |].
    + apply Forall_app. split; [done|]. by constructor.
    + by constructor.
  - destruct (click_on_target_ledger c w i Hc Ht)
      as (path & Hpath & -> & -> & -> & _ & _ & Hcases).
    assert (Forall (λ s, s_trial s = trial w.1)
              (mouse_list w.1 ++ [click_sample c w.1])) as Hdf.
    { apply Forall_app. split; [done|]. by constructor. }
    assert (Forall2 same_trial
              (list_with_dataframes w.1
               ++ [mouse_list w.1 ++ [click_sample c w.1]])
              (interpolated_paths w.1 ++ [path])) as Hip.
    { apply Forall2_app; [done|]. constructor; [|constructor].
      exists (trial w.1). split; [done|]. by apply interpolate_trial in Hpath. }
    destruct Hcases as [(_ & -> & -> & _ & -> & _)
                       |(props & _ & -> & -> & _ & -> & _)].
    + repeat split; try done. rewrite length_app. simpl. lia.
    + repeat split; try done. rewrite !length_app. simpl. lia.
Qed.

Lemma paths_run (user_settings : gmap string cell)
    (es : ExperimentSettings.t) (cs : CollectionStatus.t) (clock : Q)
    (w0 : Experiment * Tk) (evs : list event) (w : Experiment * Tk) :
  Experiment_init user_settings es cs clock = Ok w0 →
  run evs w0 = Some w →
  _user_settings w.1 = user_settings
  ∧ Forall (λ s, s_trial s = trial w.1) (mouse_list w.1)
  ∧ Forall2 same_trial (list_with_dataframes w.1) (interpolated_paths w.1)
  ∧ (length (prop_list w.1) ≤ length (list_with_dataframes w.1))%nat.
Proof.
  intros Hinit Hrun.
  apply init_records in Hinit
    as (_ & Hus & _ & _ & _ & _ & _ & Hl & Hi & Hp & Hm).
  run_induction (λ _ : event, True) Hrun; [|apply Forall_True|].
  - intros ev w1 w2 _ H Hstep. by apply (paths_step _ ev w1).
  - rewrite Hus, Hl, Hi, Hp, Hm. repeat split; try done; constructor.
Qed.

Lemma recorded_step (ev : event) (w w' : Experiment * Tk) :
  reader_complete ev →
  complete UserSettings_accepted_keys (_user_settings w.1)
  ∧ Forall (λ s, s_trial s = trial w.1) (mouse_list w.1)
  ∧ Forall2 recorded_as (list_with_dataframes w.1) (prop_list w.1) →
  step ev w = Some w' →
  complete UserSettings_accepted_keys (_user_settings w'.1)
  ∧ Forall (λ s, s_trial s = trial w'.1) (mouse_list w'.1)
  ∧ Forall2 recorded_as (list_with_dataframes w'.1) (prop_list w'.1).
Proof.
  intros Hev (H1 & H2 & H3) Hstep.
  apply records_step in Hstep as [[Hsame Hm]|(c & i & -> & Hc & Ht & ->)].
  - destruct Hsame as (->&_&_&->&_&_&_&_&->&_&->).
    repeat split; try done.
    destruct Hm as [->|[(s & -> & Hs)|(s & -> & Hs)]]; [done| |].
    + apply Forall_app. split; [done|]. by constructor.
    + by constructor.
  - destruct (click_on_target_ledger c w i Hc Ht)
      as (path & Hpath & -> & _ & -> & _ & _ & Hcases).
    destruct (trial_props_ok w.1 (c_mouse_props c) H1 Hev) as [props' Hok].
    destruct Hcases as [([x Hx] & _)|(props & Hp & -> & -> & _ & -> & _)];
      [congruence|].
    apply trial_props_numbers in Hp as [Hp _].
    repeat split; try done. apply Forall2_app; [done|].
    constructor; [|constructor]. unfold recorded_as. rewrite Hp.
    apply Forall_app. split; [done|]. by constructor.
Qed.

Lemma recorded_run (user_settings : gmap string cell)
    (es : ExperimentSettings.t) (cs : CollectionStatus.t) (clock : Q)
    (w0 : Experiment * Tk) (evs : list event) (w : Experiment * Tk) :
  complete UserSettings_accepted_keys user_settings →
  Experiment_init user_settings es cs clock = Ok w0 →
  run evs w0 = Some w →
  Forall reader_complete evs →
  Forall2 recorded_as (list_with_dataframes w.1) (prop_list w.1).
Proof.
  intros Hus Hinit Hrun Hevs.
  apply init_records in Hinit
    as (_ & Hus0 & _ & _ & _ & _ & _ & Hl & _ & Hp & Hm).
  assert (complete UserSettings_accepted_keys (_user_settings w.1)
          ∧ Forall (λ s, s_trial s = trial w.1) (mouse_list w.1)
          ∧ Forall2 recorded_as (list_with_dataframes w.1) (prop_list w.1))
    as (_ & _ & H); [|exact H].
  run_induction reader_complete Hrun; [|done|].
  - intros ev w1 w2 Hev H Hstep. by apply (recorded_step ev w1).
  - rewrite Hus0, Hl, Hp, Hm. repeat split; try done; constructor.
Qed.

(** X4: every path the session stores has its interpolated path, whose
    rows carry the trial number of the samples, and there are never more
    trial records than paths.  When the user settings have every accepted
    key and the system settings read at each click have every accepted
    key, every path has its trial record, with the trial number of the
    samples. *)
Theorem every_path_has_its_record (user_settings : gmap string cell)
    (es : ExperimentSettings.t) (cs : CollectionStatus.t) (clock : Q)
    (w0 : Experiment * Tk) (evs : list event) (w : Experiment * Tk) :
  Experiment_init user_settings es cs clock = Ok w0 →
  run evs w0 = Some w →
  Forall2 same_trial (list_with_dataframes w.1) (interpolated_paths w.1)
  ∧ (length (prop_list w.1) ≤ length (list_with_dataframes w.1))%nat
  ∧ (complete UserSettings_accepted_keys user_settings →
     Forall reader_complete evs →
     Forall2 recorded_as (list_with_dataframes w.1) (prop_list w.1)).
Proof.
  intros Hinit Hrun.
  destruct (paths_run _ _ _ _ _ _ _ Hinit Hrun) as (_ & _ & H3 & H4).
  split; [done|]. split; [done|]. intros Hus Hevs.
  by apply (recorded_run user_settings es cs clock w0 evs w).
Qed.

Lemma example_settings_complete :
  complete UserSettings_accepted_keys example_user_settings
  ∧ Forall reader_complete example_trial.
Proof.
  split.
  - unfold complete, UserSettings_accepted_keys.
    repeat (constructor; [by eexists|]). constructor.
  - unfold example_trial. repeat (constructor; [simpl|]); done.
Qed.

Lemma every_path_has_its_record_witness :
  ∃ w0 w,
    Experiment_init example_user_settings experiment_settings example_status 0
    = Ok w0
    ∧ run example_trial w0 = Some w
    ∧ length (list_with_dataframes w.1) = 1%nat
    ∧ Forall2 same_trial (list_with_dataframes w.1) (interpolated_paths w.1)
    ∧ (length (prop_list w.1) ≤ length (list_with_dataframes w.1))%nat
    ∧ Forall2 recorded_as (list_with_dataframes w.1) (prop_list w.1).
Proof.
  pose proof example_trial_runs as H.
  destruct (Experiment_init example_user_settings experiment_settings
              example_status 0) as [w0|] eqn:E0; [|destruct H].
  destruct (run example_trial w0) as [w|] eqn:E1; [|destruct H].
  destruct H as (H & _).
  exists w0, w. split; [reflexivity|]. split; [exact E1|].
  split; [exact H|].
  destruct (every_path_has_its_record _ _ _ _ w0 _ w E0 E1) as (A & B & C).
  split; [exact A|]. split; [exact B|].
  exact (C (proj1 example_settings_complete) (proj2 example_settings_complete)).
Defined.

End ledger_facts2.

Section export_facts.
Local Arguments Sampler.next : simpl never.
Local Arguments interpolate : simpl never.
Local Arguments trial_props : simpl never.
Local Arguments click_notify : simpl never.

(** X5: a click that is not on the target records nothing and shows no
    message box: it changes the instruction text at most.  With no trial
    scheduled the text asks to move to the red square, while the target is
    shown it is "Miss!", and while a trial is scheduled and the target is
    not shown yet (or the start was refused) the click does nothing. *)
Theorem missed_click_changes_text_only (c : ClickEvent)
    (w : Experiment * Tk) :
  (∀ i, c_current c = Some i → target_id w.1 ≠ Some i) →
  let w' := click c w in
  w'.1 = w.1 ∧ same_but_text w.2 w'.2
  ∧ (idle w →
     text_of_text_id w'.2
     = "First move your mouse to the red square to start an experiment")
  ∧ (collecting w → text_of_text_id w'.2 = "Miss!")
  ∧ ((∃ id, armed_with id w) ∨ stalled w → w' = w).
Proof.
  intros Hoff. cbn zeta. rewrite click_off_target by done.
  destruct w as [e k]. unfold click_elsewhere, same_but_text. cbn [fst snd].
  split; [by repeat case_match|]. split; [by repeat case_match|].
  split; [|split].
  - unfold idle. cbn [fst snd]. intros (-> & _). done.
  - unfold collecting. cbn [fst snd]. intros (-> & -> & _). done.
  - unfold armed_with, stalled. cbn [fst snd].
    intros [[id (-> & -> & _)]|(-> & [j ->] & _)]; done.
Qed.

Lemma missed_click_changes_text_only_witness :
  ∃ w0,
    Experiment_init example_user_settings experiment_settings example_status 0
    = Ok w0
    ∧ (click example_hit w0).1 = w0.1
    ∧ same_but_text w0.2 (click example_hit w0).2
    ∧ (idle w0 →
       text_of_text_id (click example_hit w0).2
       = "First move your mouse to the red square to start an experiment")
    ∧ (collecting w0 → text_of_text_id (click example_hit w0).2 = "Miss!")
    ∧ ((∃ id, armed_with id w0) ∨ stalled w0 → click example_hit w0 = w0).
Proof.
  eexists. split; [reflexivity|].
  apply (missed_click_changes_text_only example_hit). intros i _. simpl. done.
Defined.

(** X6: the export of [start] after a run of the experiment.  Without a
    completed path it returns nothing and leaves the two files as they
    are.  With one it returns the retained paths, all interpolated paths
    of the session and the retained records, and writes the retained
    paths and records to the two files, provided the session has a record
    or the old frames are merged.  A session with paths and no record,
    with nothing to merge, stops with [TypeError] and writes nothing; this
    does not happen when the user settings and the system settings read at
    each click have all accepted keys. *)
Theorem export_fails_only_without_records (user_settings : gmap string cell)
    (es : ExperimentSettings.t) (cs : CollectionStatus.t) (clock : Q)
    (w0 : Experiment * Tk) (evs : list event) (w : Experiment * Tk)
    (fs : Files) (merge : bool) (df : list Sample)
    (df_trial_props : list TrialProps) :
  Experiment_init user_settings es cs clock = Ok w0 →
  run evs w0 = Some w →
  (match merge, paths_csv fs, paths_props_csv fs with
   | true, Table df_paths_old, Table df_props_old =>
       (df_paths_old ++ concat (list_with_dataframes w.1),
        df_props_old ++ prop_list w.1)
   | _, _, _ => (concat (list_with_dataframes w.1), prop_list w.1)
   end) = (df, df_trial_props) →
  let out := retain (ExperimentSettings.max_nr_paths es) df df_trial_props in
  (list_with_dataframes w.1 = [] →
   start_export es fs merge (Some w.1) = Ok (None, fs))
  ∧ (list_with_dataframes w.1 ≠ [] →
     prop_list w.1 ≠ [] ∨ merged fs merge = true →
     start_export es fs merge (Some w.1)
     = Ok (Some (out.1, concat (interpolated_paths w.1), out.2),
           {| paths_csv := Table out.1; paths_props_csv := Table out.2 |}))
  ∧ (list_with_dataframes w.1 ≠ [] →
     prop_list w.1 = [] → merged fs merge = false →
     start_export es fs merge (Some w.1) = Raise TypeError)
  ∧ (complete UserSettings_accepted_keys user_settings →
     Forall reader_complete evs →
     list_with_dataframes w.1 ≠ [] → prop_list w.1 ≠ []).
Proof.
  intros Hinit Hrun E out.
  destruct (paths_run _ _ _ _ _ _ _ Hinit Hrun) as (_ & _ & H & _).
  split_and!.
  - intros Hl. unfold start_export. by rewrite Hl.
  - intros Hl Hp.
    assert (interpolated_paths w.1 ≠ []) as Hi.
    { intros Hi. rewrite Hi in H. by apply Forall2_nil_inv_r in H. }
    apply (start_export_some es fs merge w.1 df df_trial_props Hl Hi Hp E).
  - intros Hl Hp Hm. by apply start_export_no_record.
  - intros Hus Hevs Hl Hp.
    pose proof (recorded_run _ _ _ _ _ _ _ Hus Hinit Hrun Hevs) as Hrec.
    rewrite Hp in Hrec. by apply Forall2_nil_inv_r in Hrec.
Qed.

Lemma export_fails_only_without_records_witness :
  ∃ w0 w,
    Experiment_init example_user_settings experiment_settings example_status 0
    = Ok w0
    ∧ run example_trial w0 = Some w
    ∧ let out :=
        retain 15 (concat (list_with_dataframes w.1)) (prop_list w.1) in
      start_export experiment_settings
        {| paths_csv := Absent; paths_props_csv := Absent |} false (Some w.1)
      = Ok (Some (out.1, concat (interpolated_paths w.1), out.2),
            {| paths_csv := Table out.1; paths_props_csv := Table out.2 |}).
Proof.
  pose proof example_trial_runs as H.
  destruct (Experiment_init example_user_settings experiment_settings
              example_status 0) as [w0|] eqn:E0; [|destruct H].
  destruct (run example_trial w0) as [w|] eqn:E1; [|destruct H].
  destruct H as (H & _).
  destruct (export_fails_only_without_records _ experiment_settings _ _ w0 _ w
              {| paths_csv := Absent; paths_props_csv := Absent |} false
              (concat (list_with_dataframes w.1)) (prop_list w.1) E0 E1
              eq_refl) as (_ & Hex & _ & Hp).
  assert (list_with_dataframes w.1 ≠ []) as Hl.
  { intros Hl. rewrite Hl in H. discriminate H. }
  exists w0, w. split; [reflexivity|]. split; [exact E1|].
  apply Hex; [exact Hl|]. left.
  exact (Hp (proj1 example_settings_complete)
            (proj2 example_settings_complete) Hl).
Defined.

(** A session whose user settings lack a key stores the path of a
    completed trial and no record; without old frames its export stops
    with [TypeError]. *)
Example export_without_record :
  match Experiment_init {[ "input_method" := CInt 1 ]} experiment_settings
          example_status 0 with
  | Ok w0 =>
      match run example_trial w0 with
      | Some w =>
          length (list_with_dataframes w.1) = 1%nat
          ∧ prop_list w.1 = []
          ∧ start_export experiment_settings
              {| paths_csv := Absent; paths_props_csv := Absent |} false
              (Some w.1)
            = Raise TypeError
      | None => False
      end
  | Raise _ => False
  end.
Proof. vm_compute. done. Qed.

End export_facts.

Section sampler_ranges.
Local Arguments Sampler.next : simpl never.
Local Arguments interpolate : simpl never.
Local Arguments trial_props : simpl never.
Local Arguments click_notify : simpl never.
Import Sampler.

Lemma randrange_range (start stop : Z) (r : nat) (z : Z) :
  randrange start stop r = Ok z → start ≤ z < stop.
Proof.
  unfold randrange. case_decide; [|done]. intros [= <-].
  pose proof (Z.mod_pos_bound (Z.of_nat r) (stop - start)). lia.
Qed.

Lemma choice_elem_of (seq : list Z) (r : nat) (z : Z) :
  choice seq r = Ok z → z ∈ seq.
Proof.
  unfold choice. destruct (seq !! _) as [z'|] eqn:E; [|done].
  intros [= <-]. by apply list_elem_of_lookup_2 in E.
Qed.

Lemma random_range (r : nat) : (0 <= random r)%Q ∧ (random r < 1)%Q.
Proof.
  unfold random, Qle, Qlt. cbn [Qnum Qden].
  assert (Z.pos (2 ^ 53) = 2 ^ 53) as -> by done.
  pose proof (Z.mod_pos_bound (Z.of_nat r) (2 ^ 53)) as H.
  split; [|rewrite Z.mul_1_l]; lia.
Qed.

Lemma uniform_range (a b : Q) (r : nat) :
  (a <= b)%Q →
  (a <= uniform a b r)%Q ∧ (uniform a b r <= b)%Q
  ∧ ((a < b)%Q → (uniform a b r < b)%Q).
Proof.
  intros Hab. unfold uniform. destruct (random_range r) as [H0 H1].
  generalize dependent (random r). intros q H0 H1.
  repeat split; [nra|nra|intros; nra].
Qed.

(** X7: what a sampler yields lies in the range it was built for: a range
    sampler yields an integer of [start, stop), a choice sampler an element
    of its choices, an orientation sampler one of the N steps of a turn, and
    a uniform sampler with minimum <= maximum a number between the two,
    below the maximum when the two differ. *)
Theorem sampler_values_in_range :
  (∀ start stop r v,
     next (range_sampler start stop) r = Ok v →
     ∃ z, v = Int z ∧ start ≤ z < stop)
  ∧ (∀ choices r v,
       next (choice_sampler choices) r = Ok v → ∃ z, v = Int z ∧ z ∈ choices)
  ∧ (∀ N r v,
       next (regular_orientation_sampler N) r = Ok v →
       ∃ k, v = Turn k N ∧ 0 ≤ k < N)
  ∧ (∀ minimum maximum r,
       (minimum <= maximum)%Q →
       ∃ q, next (uniform_sampler minimum maximum) r = Ok (Float q)
            ∧ (minimum <= q)%Q ∧ (q <= maximum)%Q
            ∧ ((minimum < maximum)%Q → (q < maximum)%Q)).
Proof.
  repeat split.
  - intros lo hi r v. unfold next.
    destruct (randrange lo hi r) as [z|] eqn:E; [|done].
    intros [= <-]. exists z. split; [done|]. by apply (randrange_range _ _ r).
  - intros choices r v. unfold next.
    destruct (choice choices r) as [z|] eqn:E; [|done].
    intros [= <-]. exists z. split; [done|]. by apply (choice_elem_of _ r).
  - intros N r v. unfold next.
    destruct (randrange 0 N r) as [z|] eqn:E; [|done].
    intros [= <-]. exists z. split; [done|]. by apply (randrange_range _ _ r).
  - intros lo hi r Hle. eexists. split; [done|]. by apply uniform_range.
Qed.

End sampler_ranges.

Section target_facts.
Local Arguments Sampler.next : simpl never.
Local Arguments interpolate : simpl never.
Local Arguments trial_props : simpl never.
Local Arguments click_notify : simpl never.

Lemma py_round_bounds (a b : Z) (q : Q) :
  (inject_Z a <= q)%Q → (q <= inject_Z b)%Q → a ≤ py_round q ≤ b.
Proof.
  intros Ha Hb.
  assert (a ≤ Qfloor q) as Hfa.
  { rewrite <- (Qfloor_Z a). by apply Qfloor_resp_le. }
  assert (Qfloor q ≤ b) as Hfb.
  { rewrite <- (Qfloor_Z b). by apply Qfloor_resp_le. }
  assert (¬ (q - inject_Z (Qfloor q) < 1 # 2)%Q → Qfloor q + 1 ≤ b) as Hup.
  { intros Hr. destruct (decide (Qfloor q = b)) as [E|]; [|lia].
    rewrite E in Hr. exfalso. apply Hr. lra. }
  unfold py_round. cbv zeta.
  destruct (Qlt_bool (q - inject_Z (Qfloor q)) (1 # 2)) eqn:E1; [lia|].
  apply Qlt_bool_false in E1.
  assert (Qfloor q + 1 ≤ b) by (apply Hup; lra).
  repeat case_match; lia.
Qed.

(** X8: when the target appears, its recorded radius is 3, 6 or 9 pixels
    and its recorded position is at most 290 pixels from the red square in
    each direction, so that the target lies inside the window of 700 by
    700 pixels; this holds for all values of [math.cos] and [math.sin] in
    [-1, 1]. *)
Theorem target_inside_window (t : TimerEvent) (w : Experiment * Tk) :
  t_current t = Some middle_id →
  (-1 <= t_cos t)%Q → (t_cos t <= 1)%Q →
  (-1 <= t_sin t)%Q → (t_sin t <= 1)%Q →
  let e' := (start_experiment t w).1 in
  target_radius e' ∈ [3; 6; 9]
  ∧ -290 ≤ target_x e' ≤ 290 ∧ -290 ≤ target_y e' ≤ 290
  ∧ 0 < x_origin + target_x e' - target_radius e'
  ∧ x_origin + target_x e' + target_radius e' < window_size
  ∧ 0 < y_origin - target_y e' - target_radius e'
  ∧ y_origin - target_y e' + target_radius e' < window_size.
Proof.
  intros Hon Hc1 Hc2 Hs1 Hs2. destruct w as [e k]. cbv zeta.
  unfold start_experiment. rewrite bool_decide_eq_true_2 by done.
  cbn [negb].
  assert (∃ q, Sampler.next distance_sampler (t_random_r t)
               = Ok (Sampler.Float q) ∧ (100 <= q)%Q ∧ (q <= 290)%Q)
    as (q & -> & Hq1 & Hq2).
  { eexists. split; [done|].
    destruct (uniform_range 100 (inject_Z window_size / 2 - 60)
                (t_random_r t)) as (H1 & H2 & _); [done|].
    split; [done|]. eapply Qle_trans; [exact H2|]. by vm_compute. }
  destruct (next_orientation (t_random_phi t)) as (a & N & ->).
  assert (∃ z, Sampler.next radius_sampler (t_random_radius t)
               = Ok (Sampler.Int z) ∧ z ∈ [3; 6; 9]) as (z & -> & Hz).
  { destruct (next_radius (t_random_radius t)) as [z Hz].
    exists z. split; [done|]. unfold radius_sampler, Sampler.next in Hz.
    destruct (Sampler.choice _ _) as [z'|] eqn:E; [|done].
    injection Hz as ->. by apply choice_elem_of in E. }
  destruct (create_oval _) as [oval k2]. cbn [fst target_radius target_x target_y].
  assert (-290 ≤ py_round (q * t_cos t) ≤ 290) as Hx.
  { apply py_round_bounds.
    - change (inject_Z (-290)) with (-(290))%Q. nra.
    - change (inject_Z 290) with 290%Q. nra. }
  assert (-290 ≤ py_round (q * t_sin t) ≤ 290) as Hy.
  { apply py_round_bounds.
    - change (inject_Z (-290)) with (-(290))%Q. nra.
    - change (inject_Z 290) with 290%Q. nra. }
  split; [done|].
  assert (3 ≤ z ≤ 9) as Hz'.
  { repeat (apply elem_of_cons in Hz as [->|Hz]); try lia.
    by apply elem_of_nil in Hz. }
  unfold x_origin, y_origin, window_size.
  change (700 `div` 2) with 350. lia.
Qed.

Lemma target_inside_window_witness :
  ∃ w0 : Experiment * Tk,
    Experiment_init example_user_settings experiment_settings example_status 0
    = Ok w0
    ∧ let e' := (start_experiment (example_fire (Some middle_id)) w0).1 in
      target_radius e' ∈ [3; 6; 9]
      ∧ -290 ≤ target_x e' ≤ 290 ∧ -290 ≤ target_y e' ≤ 290
      ∧ 0 < x_origin + target_x e' - target_radius e'
      ∧ x_origin + target_x e' + target_radius e' < window_size
      ∧ 0 < y_origin - target_y e' - target_radius e'
      ∧ y_origin - target_y e' + target_radius e' < window_size.
Proof.
  eexists. split; [reflexivity|].
  apply (target_inside_window (example_fire (Some middle_id)));
    [reflexivity|..]; simpl; unfold Qle; simpl; lia.
Defined.

End target_facts.

Section record_facts.
Local Arguments Sampler.next : simpl never.
Local Arguments interpolate : simpl never.
Local Arguments trial_props : simpl never.
Local Arguments click_notify : simpl never.

Lemma getitems_lookup (d : gmap string cell) (keys : list string)
    (vs : list cell) :
  getitems d keys = Ok vs → Forall2 (λ k v, d !! k = Some v) keys vs.
Proof.
  revert vs. induction keys as [|k keys IH]; intros vs; simpl.
  - intros [= <-]. constructor.
  - unfold getitem. destruct (d !! k) as [v|] eqn:E; [|done]. simpl.
    destruct (getitems d keys) as [vs'|]; [|done]. simpl.
    intros [= <-]. constructor; [done|]. by apply IH.
Qed.

(** The cells of a trial record, key by key. *)
Lemma trial_props_cells (e : Experiment)
    (mouse_props : gmap string cell) (props : TrialProps) :
  trial_props e mouse_props = Ok props →
  p_trial props = trial e
  ∧ p_trial_for_input_method props = method_trial_nr e
  ∧ Forall (λ k, p_cells props !! k = _user_settings e !! k)
      UserSettings_accepted_keys
  ∧ Forall (λ k, p_cells props !! k = mouse_props !! k)
      SystemSettings_accepted_keys
  ∧ p_cells props !! "target_x" = Some (CInt (target_x e))
  ∧ p_cells props !! "target_y" = Some (CInt (target_y e))
  ∧ p_cells props !! "target_radius" = Some (CInt (target_radius e))
  ∧ p_cells props !! "delay" = Some (CFloat (delay e)).
Proof.
  intros H. destruct (trial_props_numbers _ _ _ H) as [H1 H2].
  split; [done|]. split; [done|].
  unfold trial_props in H.
  destruct (getitems _ UserSettings_accepted_keys) as [user|] eqn:Hu; [|done].
  destruct (getitems _ SystemSettings_accepted_keys) as [system|] eqn:Hs;
    [|done].
  injection H as <-. cbn [p_cells].
  apply getitems_lookup in Hu. apply getitems_lookup in Hs.
  unfold UserSettings_accepted_keys, SystemSettings_accepted_keys in *.
  repeat match goal with
         | H : Forall2 _ (_ :: _) _ |- _ =>
             apply Forall2_cons_inv_l in H as (? & ? & ? & H & ->)
         | H : Forall2 _ [] _ |- _ => apply Forall2_nil_inv_l in H as ->
         end.
  repeat split; repeat (apply Forall_cons; split); try apply Forall_nil;
    try (vm_compute; reflexivity);
    match goal with
    | H : ?d !! ?k = Some ?v |- _ !! ?k = ?d !! ?k => rewrite H; reflexivity
    end.
Qed.

(** X9: the record a click on the target appends to [prop_list].  Every
    column holds the value of its own key: the columns of the user settings
    hold the user settings, those of the system settings hold the system
    settings read at the click, and the last four hold the position and
    radius of the target and the delay; the trial numbers are those of the
    experiment before the click. *)
Theorem trial_record_columns (c : ClickEvent) (w : Experiment * Tk)
    (i : nat) (props : TrialProps) :
  c_current c = Some i → target_id w.1 = Some i →
  trial_props w.1 (c_mouse_props c) = Ok props →
  prop_list (click c w).1 = prop_list w.1 ++ [props]
  ∧ p_trial props = trial w.1
  ∧ p_trial_for_input_method props = method_trial_nr w.1
  ∧ Forall (λ k, p_cells props !! k = _user_settings w.1 !! k)
      UserSettings_accepted_keys
  ∧ Forall (λ k, p_cells props !! k = c_mouse_props c !! k)
      SystemSettings_accepted_keys
  ∧ p_cells props !! "target_x" = Some (CInt (target_x w.1))
  ∧ p_cells props !! "target_y" = Some (CInt (target_y w.1))
  ∧ p_cells props !! "target_radius" = Some (CInt (target_radius w.1))
  ∧ p_cells props !! "delay" = Some (CFloat (delay w.1)).
Proof.
  intros Hc Ht Hp. split; [|by apply trial_props_cells].
  destruct (click_on_target_ledger c w i Hc Ht)
    as (path & _ & _ & _ & _ & _ & _
        & [([x Hx] & _)|(props' & Hp' & -> & _)]); [congruence|].
  rewrite Hp in Hp'. by injection Hp' as <-.
Qed.

Lemma example_record_runs :
  match Experiment_init example_user_settings experiment_settings
          example_status 0 with
  | Ok w0 =>
      match run (take 3 example_trial) w0 with
      | Some w =>
          match trial_props w.1 example_mouse_props with
          | Ok props => target_id w.1 = Some 4%nat
          | Raise _ => False
          end
      | None => False
      end
  | Raise _ => False
  end.
Proof. vm_compute. done. Qed.

Lemma trial_record_columns_witness :
  ∃ w0 w props,
    Experiment_init example_user_settings experiment_settings example_status 0
    = Ok w0
    ∧ run (take 3 example_trial) w0 = Some w
    ∧ trial_props w.1 (c_mouse_props example_hit) = Ok props
    ∧ prop_list (click example_hit w).1 = prop_list w.1 ++ [props]
    ∧ p_trial props = trial w.1
    ∧ p_trial_for_input_method props = method_trial_nr w.1
    ∧ Forall (λ k, p_cells props !! k = _user_settings w.1 !! k)
        UserSettings_accepted_keys
    ∧ Forall (λ k, p_cells props !! k = c_mouse_props example_hit !! k)
        SystemSettings_accepted_keys
    ∧ p_cells props !! "target_x" = Some (CInt (target_x w.1))
    ∧ p_cells props !! "target_y" = Some (CInt (target_y w.1))
    ∧ p_cells props !! "target_radius" = Some (CInt (target_radius w.1))
    ∧ p_cells props !! "delay" = Some (CFloat (delay w.1)).
Proof.
  pose proof example_record_runs as H.
  destruct (Experiment_init example_user_settings experiment_settings
              example_status 0) as [w0|] eqn:E0; [|destruct H].
  destruct (run (take 3 example_trial) w0) as [w|] eqn:E1; [|destruct H].
  change (c_mouse_props example_hit) with example_mouse_props.
  destruct (trial_props w.1 example_mouse_props) as [props|] eqn:E2;
    [|destruct H].
  exists w0, w, props. split; [reflexivity|]. split; [exact E1|].
  split; [exact E2|].
  exact (trial_record_columns example_hit w 4%nat props eq_refl H E2).
Defined.

End record_facts.

Section trial_facts.
Local Arguments Sampler.next : simpl never.
Local Arguments interpolate : simpl never.
Local Arguments trial_props : simpl never.
Local Arguments click_notify : simpl never.

Lemma motion_enter_state (m : MotionEvent) (w : Experiment * Tk) :
  idle w → m_current m = Some middle_id →
  let w1 := motion m w in
  armed_with (after_count w.2) w1
  ∧ same_records w.1 w1.1
  ∧ schedule_time w1.1 = m_clock_schedule m
  ∧ canvas_count w1.2 = canvas_count w.2.
Proof.
  intros Hi Hm. destruct (motion_idle_enter m w Hi Hm) as (H1 & _ & _ & _ & _ & H2 & _).
  destruct (motion_records m w) as [H3 _].
  cbv zeta. split; [done|]. split; [done|]. split; [|done].
  destruct w as [e k]. destruct Hi as (Hs & Hj & Hc & Hp & Ho).
  cbn [fst snd] in *.
  unfold motion, motion_schedule. rewrite Hm, Hs.
  destruct (next_delay (m_random m)) as [d ->].
  unfold motion_cancel, motion_record. simpl.
  rewrite bool_decide_eq_true_2 by done. by rewrite Hc.
Qed.

Lemma timer_on_square_state (id : nat) (t : TimerEvent)
    (w : Experiment * Tk) :
  armed_with id w → t_current t = Some middle_id →
  let w2 := start_experiment t (w.1, after_cancel id w.2) in
  collecting w2
  ∧ same_records w.1 w2.1
  ∧ delay w2.1 = (t_clock_delay t - schedule_time w.1)%Q
  ∧ start_time w2.1 = t_clock_start t
  ∧ mouse_list w2.1
    = [{| s_trial := trial w.1; s_t := 0;
          s_x := t_pointerx t - t_rootx t - x_origin - t_winfo_x t;
          s_y := - (t_pointery t - t_rooty t) + y_origin + t_winfo_y t |}]
  ∧ target_id w2.1 = Some (canvas_count w.2)
  ∧ canvas_ovals w2.2 = [canvas_count w.2].
Proof.
  intros (Hs & Hj & Hc & Hp & Ho) Hon.
  destruct (start_experiment_on_square t (w.1, after_cancel id w.2) Hon)
    as (E1 & E2 & E3 & E4 & E5 & E6 & E7 & E8 & E9 & _).
  destruct (start_experiment_records t (w.1, after_cancel id w.2))
    as [R _].
  cbn [fst snd] in *. cbv zeta.
  split; [|split; [done|]].
  { unfold collecting. rewrite E1, E2, E3, E4, E5, E6, E8. simpl.
    rewrite Hp, Ho, Hs. repeat split; try done; [apply filter_ne_singleton|].
    eexists _, _, _. repeat split; done. }
  rewrite E4, E5, E6. simpl. rewrite Ho.
  split; [|split; [|done]].
  - destruct w as [e k]. cbn [fst snd] in *. unfold start_experiment.
    rewrite bool_decide_eq_true_2 by done. cbn [negb].
    destruct (next_distance (t_random_r t)) as [q Hq].
    destruct (next_orientation (t_random_phi t)) as (a & N & Ha).
    destruct (next_radius (t_random_radius t)) as [z Hz].
    rewrite ?Hq, ?Ha, ?Hz. done.
  - destruct w as [e k]. cbn [fst snd] in *. unfold start_experiment.
    rewrite bool_decide_eq_true_2 by done. cbn [negb].
    destruct (next_distance (t_random_r t)) as [q Hq].
    destruct (next_orientation (t_random_phi t)) as (a & N & Ha).
    destruct (next_radius (t_random_radius t)) as [z Hz].
    rewrite ?Hq, ?Ha, ?Hz. done.
Qed.

Lemma motion_collecting_state (m : MotionEvent) (w : Experiment * Tk) :
  collecting w →
  let w' := motion m w in
  collecting w' ∧ same_records w.1 w'.1 ∧ same_target w.1 w'.1
  ∧ w'.2 = w.2
  ∧ mouse_list w'.1
    = mouse_list w.1
      ++ [{| s_trial := trial w.1;
             s_t := (m_clock_sample m - start_time w.1)%Q;
             s_x := m_x m - x_origin; s_y := - m_y m + y_origin |}].
Proof.
  intros Hc. cbv zeta. split; [by apply motion_collecting|].
  destruct (motion_records m w) as [R _]. split; [done|].
  destruct w as [e k].
  destruct Hc as (Hs & Hj & Hc & Hp & oval & first & rest & Ho & Ht & Hl & H0).
  cbn [fst snd] in *.
  unfold motion, motion_schedule. rewrite Hs, andb_false_r.
  unfold motion_cancel, motion_record. rewrite Hj, Hc. done.
Qed.

Lemma moves_collecting (moves : list MotionEvent) (w : Experiment * Tk) :
  collecting w →
  Forall (λ m, current_ok w.2 (m_current m) = true) moves →
  ∃ w',
    run (Motion <$> moves) w = Some w'
    ∧ collecting w' ∧ same_records w.1 w'.1 ∧ same_target w.1 w'.1
    ∧ w'.2 = w.2
    ∧ mouse_list w'.1
      = mouse_list w.1
        ++ ((λ m, {| s_trial := trial w.1;
                     s_t := (m_clock_sample m - start_time w.1)%Q;
                     s_x := m_x m - x_origin; s_y := - m_y m + y_origin |})
            <$> moves).
Proof.
  revert w. induction moves as [|m moves IH]; intros w Hc Hok.
  - exists w. rewrite app_nil_r. split; [done|]. split; [done|].
    split; [apply same_records_refl|]. split; [by unfold same_target|done].
  - apply Forall_cons in Hok as [Hm Hok]. simpl. rewrite Hm.
    destruct (motion_collecting_state m w Hc) as (C1 & C2 & C3 & C4 & C5).
    destruct (IH (motion m w) C1) as (w' & I1 & I2 & I3 & I4 & I5 & I6).
    { by rewrite C4. }
    exists w'. split; [done|]. split; [done|].
    split; [by eapply same_records_trans|].
    split.
    { destruct C3 as (?&?&?&?&?&?), I4 as (?&?&?&?&?&?).
      unfold same_target. repeat split; congruence. }
    split; [congruence|].
    rewrite I6, C5. destruct C2 as (_&_&_&->&_), C3 as (_&_&_&_&->&_).
    by rewrite <- app_assoc.
Qed.

Lemma click_notify_text (e : Experiment) (k : Tk) :
  text_of_text_id (click_notify e k).2 = text_of_text_id k.
Proof.
  unfold click_notify. case_bool_decide; [|by case_bool_decide].
  cbn [snd]. by repeat case_match.
Qed.

Lemma click_target_text (c : ClickEvent) (w : Experiment * Tk) (i : nat)
    (props : TrialProps) :
  c_current c = Some i → target_id w.1 = Some i →
  trial_props w.1 (c_mouse_props c) = Ok props →
  text_of_text_id (click c w).2 = "Move your mouse back to the red square".
Proof.
  destruct w as [e k]. cbn [fst snd]. intros Hc Ht Hp.
  unfold click. rewrite Hc, Ht. rewrite bool_decide_eq_true_2 by done.
  cbn [negb]. fold (click_sample c e).
  destruct (interpolate_ok (trial e) (mouse_list e ++ [click_sample c e]))
    as (min_t & max_t & _ & _ & _ & _ & ->).
  { by destruct (mouse_list e). }
  rewrite Hp. by rewrite click_notify_text.
Qed.

(** X10: a whole trial.  From a state with no trial scheduled, the pointer
    comes on the red square, the timer fires with the pointer still on it,
    the pointer moves and then clicks on the target.  The run ends with no
    trial scheduled and has stored one path, its interpolated path and one
    record: the path starts with the pointer position at elapsed time 0,
    has one sample per motion event and ends with the click, all timed from
    the moment the target appeared; the recorded delay is the time from
    scheduling to the firing of the timer. *)
Theorem trial_from_square_to_target (w : Experiment * Tk)
    (enter : MotionEvent) (t : TimerEvent) (moves : list MotionEvent)
    (c : ClickEvent) :
  idle w →
  complete UserSettings_accepted_keys (_user_settings w.1) →
  complete SystemSettings_accepted_keys (c_mouse_props c) →
  m_current enter = Some middle_id →
  t_current t = Some middle_id →
  Forall (λ m, ∀ i, m_current m = Some i →
                    i ∈ [middle_id; text_id; counter_id; canvas_count w.2])
    moves →
  c_current c = Some (canvas_count w.2) →
  ∃ w' rows props,
    run ([Motion enter; Timer (after_count w.2) t]
         ++ (Motion <$> moves) ++ [Click c]) w = Some w'
    ∧ idle w'
    ∧ list_with_dataframes w'.1
      = list_with_dataframes w.1 ++ [trial_path (trial w.1) t moves c]
    ∧ interpolate (trial w.1) (trial_path (trial w.1) t moves c) = Ok rows
    ∧ interpolated_paths w'.1 = interpolated_paths w.1 ++ [rows]
    ∧ prop_list w'.1 = prop_list w.1 ++ [props]
    ∧ p_trial props = trial w.1
    ∧ p_cells props !! "delay"
      = Some (CFloat (t_clock_delay t - m_clock_schedule enter))
    ∧ trial w'.1 = trial w.1 + 1
    ∧ text_of_text_id w'.2 = "Move your mouse back to the red square".
Proof.
  intros Hi Hus Hsys Henter Hfire Hmoves Hclick.
  (* the pointer comes on the red square *)
  destruct (motion_enter_state enter w Hi Henter) as (A1 & A2 & A3 & A4).
  set (w1 := motion enter w) in *.
  assert (step (Motion enter) w = Some w1) as S1.
  { unfold step. rewrite Henter. by rewrite middle_id_ok. }
  (* the timer fires *)
  destruct (timer_on_square_state _ t w1 A1 Hfire)
    as (B1 & B2 & B3 & B4 & B5 & B6 & B7).
  set (w2 := start_experiment t (w1.1, after_cancel (after_count w.2) w1.2))
    in *.
  assert (step (Timer (after_count w.2) t) w1 = Some w2) as S2.
  { unfold step. destruct A1 as (_ & _ & _ & -> & _).
    rewrite bool_decide_eq_true_2 by by apply list_elem_of_singleton.
    rewrite Hfire. by rewrite middle_id_ok. }
  (* the pointer moves *)
  destruct (moves_collecting moves w2 B1) as (w3 & S3 & C1 & C2 & C3 & C4 & C5).
  { eapply Forall_impl; [exact Hmoves|]. intros m Hm. cbv beta in Hm.
    unfold current_ok. destruct (m_current m) as [i|]; [|done].
    apply bool_decide_eq_true_2. unfold items. rewrite B7, A4.
    by apply Hm. }
  (* the click on the target *)
  assert (target_id w3.1 = Some (canvas_count w.2)) as Htid.
  { destruct C3 as (_&_&_&_&_&->). by rewrite B6, A4. }
  assert (_user_settings w3.1 = _user_settings w.1
          ∧ trial w3.1 = trial w.1 ∧ trial w2.1 = trial w.1
          ∧ trial w1.1 = trial w.1
          ∧ list_with_dataframes w3.1 = list_with_dataframes w.1
          ∧ interpolated_paths w3.1 = interpolated_paths w.1
          ∧ prop_list w3.1 = prop_list w.1)
    as (D1 & D2 & D2' & D2'' & D3 & D4 & D5).
  { destruct A2 as (?&?&?&?&?&?&?&?&?&?&?), B2 as (?&?&?&?&?&?&?&?&?&?&?),
      C2 as (?&?&?&?&?&?&?&?&?&?&?). repeat split; congruence. }
  assert (step (Click c) w3 = Some (click c w3)) as S4.
  { unfold step. rewrite Hclick. unfold current_ok.
    rewrite bool_decide_eq_true_2; [done|].
    unfold items. rewrite C4, B7, A4. set_solver. }
  destruct (click_on_target_ledger c w3 _ Hclick Htid)
    as (rows & Hrows & E1 & E2 & _ & _ & _ & Hcases).
  destruct (trial_props_ok w3.1 (c_mouse_props c)) as [props Hprops];
    [by rewrite D1|done|].
  destruct Hcases as [([x Hx] & _)|(props' & Hp' & E3 & E4 & _ & E5 & _)];
    [congruence|].
  assert (props' = props) as -> by congruence.
  destruct (trial_props_cells _ _ _ Hprops)
    as (F1 & _ & _ & _ & _ & _ & _ & F2).
  assert (mouse_list w3.1 ++ [click_sample c w3.1]
          = trial_path (trial w.1) t moves c) as Hpath.
  { rewrite C5, B5. unfold trial_path, click_sample.
    destruct C3 as (_&_&_&_&->&_). rewrite B4, D2, D2', D2''. done. }
  rewrite Hpath in *.
  exists (click c w3), rows, props. split_and!.
  - cbn [app run]. rewrite S1, S2.
    rewrite run_app, S3. cbn [run]. by rewrite S4.
  - destruct (click_on_target c w3 _ Hclick Htid)
      as (G1 & G2 & G3 & G4 & G5 & G6).
    destruct C1 as (Hs & Hj & Hcd & Hpd & oval & first & rest
                    & Ho & Ht' & Hl & H0).
    destruct G6 as [(_ & _ & _ & G6 & _)|(G6 & G7 & G8 & G9)].
    { rewrite E5 in G6. by destruct (mouse_list w3.1). }
    unfold idle. rewrite G6, G7, G8, G9, G4, Hj, Hpd, Ho.
    repeat split; try done. rewrite Htid in Ht'. injection Ht' as <-.
    apply filter_oval_singleton.
  - by rewrite E1, D3.
  - by rewrite D2 in Hrows.
  - by rewrite E2, D4.
  - by rewrite E3, D5.
  - by rewrite F1.
  - rewrite F2. destruct C3 as (->&_). by rewrite B3, A3.
  - by rewrite E4, D2.
  - by apply (click_target_text c w3 (canvas_count w.2) props).
Qed.

Lemma trial_from_square_to_target_witness :
  ∃ (w0 w' : Experiment * Tk) rows props,
    Experiment_init example_user_settings experiment_settings example_status 0
    = Ok w0
    ∧ run ([Motion example_enter;
            Timer (after_count w0.2) (example_fire (Some middle_id))]
           ++ (Motion <$> [example_leave]) ++ [Click example_hit]) w0
      = Some w'
    ∧ idle w'
    ∧ list_with_dataframes w'.1
      = list_with_dataframes w0.1
        ++ [trial_path (trial w0.1) (example_fire (Some middle_id))
              [example_leave] example_hit]
    ∧ interpolate (trial w0.1)
        (trial_path (trial w0.1) (example_fire (Some middle_id))
           [example_leave] example_hit) = Ok rows
    ∧ interpolated_paths w'.1 = interpolated_paths w0.1 ++ [rows]
    ∧ prop_list w'.1 = prop_list w0.1 ++ [props]
    ∧ p_trial props = trial w0.1
    ∧ p_cells props !! "delay"
      = Some (CFloat (t_clock_delay (example_fire (Some middle_id))
                      - m_clock_schedule example_enter))
    ∧ trial w'.1 = trial w0.1 + 1
    ∧ text_of_text_id w'.2 = "Move your mouse back to the red square".
Proof.
  destruct (Experiment_init example_user_settings experiment_settings
              example_status 0) as [w0|] eqn:E0; [|discriminate].
  destruct (well_formed_init _ _ _ _ _ E0) as (Hi & _).
  destruct (init_records _ _ _ _ _ E0) as (_ & Hus & _).
  assert (canvas_count w0.2 = 4%nat) as Hcc.
  { unfold Experiment_init in E0.
    destruct (getitem example_user_settings "input_method"); [|done].
    by injection E0 as <-. }
  destruct (trial_from_square_to_target w0 example_enter
              (example_fire (Some middle_id)) [example_leave] example_hit)
    as (w' & rows & props & H); try done.
  - rewrite Hus. apply example_settings_complete.
  - destruct example_settings_complete as [_ H].
    unfold example_trial in H.
    apply Forall_cons in H as [_ H]. apply Forall_cons in H as [_ H].
    apply Forall_cons in H as [_ H]. apply Forall_cons in H as [H _].
    exact H.
  - constructor; [|constructor]. intros i Hcur. discriminate Hcur.
  - by rewrite Hcc.
  - by exists w0, w', rows, props.
Defined.

End trial_facts.

Section retention_facts.
Local Arguments Sampler.next : simpl never.
Local Arguments interpolate : simpl never.
Local Arguments trial_props : simpl never.
Local Arguments click_notify : simpl never.

(** X11: the retention keeps rows in their order and keeps no path without
    its record: every sample it keeps has a kept record with the sample's
    trial number, of a trackpad or a mouse trial. *)
Theorem retained_paths_have_records (max_nr_paths : Z) (df : list Sample)
    (df_trial_props : list TrialProps) :
  let out := retain max_nr_paths df df_trial_props in
  out.1 `sublist_of` df ∧ out.2 `sublist_of` df_trial_props
  ∧ ∀ s, s ∈ out.1 →
         ∃ row, row ∈ out.2 ∧ p_trial row = s_trial s
                ∧ (has_input_method 1 row ∨ has_input_method 0 row).
Proof.
  unfold retain. cbn [fst snd].
  split; [apply sublist_filter|]. split; [apply sublist_filter|].
  intros s [[Hs|Hs] _]%list_elem_of_filter.
  - pose proof Hs as Hs'. apply nlargest_subseteq in Hs'.
    apply elem_of_trials_of in Hs' as (row & H1 & H2 & H3).
    exists row. split; [|by split; [|left]].
    apply list_elem_of_filter. split; [|done]. left. by rewrite H3.
  - pose proof Hs as Hs'. apply nlargest_subseteq in Hs'.
    apply elem_of_trials_of in Hs' as (row & H1 & H2 & H3).
    exists row. split; [|by split; [|right]].
    apply list_elem_of_filter. split; [|done]. right. by rewrite H3.
Qed.

Lemma newest_in_nlargest (n m : Z) (df : list TrialProps)
    (row : TrialProps) :
  1 ≤ n → row ∈ df → has_input_method m row →
  (∀ row', row' ∈ df → has_input_method m row' →
           p_trial row' ≤ p_trial row) →
  p_trial row ∈ nlargest n (trials_of m df).
Proof.
  intros Hn Hrow Hm Hmax. apply elem_of_nlargest. split.
  - apply elem_of_trials_of. by exists row.
  - rewrite filter_none; [simpl; lia|].
    apply Forall_forall. intros t (row' & H1 & H2 & <-)%elem_of_trials_of.
    specialize (Hmax row' H1 H2). lia.
Qed.

(** X12: with [max_nr_paths] at least 1 the newest trial of an input
    method is never dropped: the record with the largest trial number among
    the mouse trials, or among the trackpad trials, is retained, and so is
    every sample of its path. *)
Theorem newest_trial_is_retained (max_nr_paths m : Z) (df : list Sample)
    (df_trial_props : list TrialProps) (row : TrialProps) :
  1 ≤ max_nr_paths → m = 0 ∨ m = 1 →
  row ∈ df_trial_props → has_input_method m row →
  (∀ row', row' ∈ df_trial_props → has_input_method m row' →
           p_trial row' ≤ p_trial row) →
  let out := retain max_nr_paths df df_trial_props in
  row ∈ out.2 ∧ ∀ s, s ∈ df → s_trial s = p_trial row → s ∈ out.1.
Proof.
  intros Hn Hm Hrow Hmeth Hmax.
  pose proof (newest_in_nlargest max_nr_paths m df_trial_props row
                Hn Hrow Hmeth Hmax) as H.
  unfold retain. cbn [fst snd]. split.
  - apply list_elem_of_filter. split; [|done].
    destruct Hm as [->| ->]; [by right|by left].
  - intros s Hs Ht. apply list_elem_of_filter. split; [|done]. rewrite Ht.
    destruct Hm as [->| ->]; [by right|by left].
Qed.

Lemma newest_trial_is_retained_witness :
  let row := example_row 25 in
  let out := retain 15 [] example_history in
  row ∈ out.2 ∧ ∀ s, s ∈ [] → s_trial s = p_trial row → s ∈ out.1.
Proof.
  apply (newest_trial_is_retained 15 1 [] example_history (example_row 25)).
  - lia.
  - by right.
  - unfold example_history. apply list_elem_of_fmap. exists 25.
    split; [done|]. apply elem_of_seqZ. lia.
  - vm_compute. exact I.
  - intros row' (t & -> & Ht%elem_of_seqZ)%list_elem_of_fmap _. simpl. lia.
Defined.

End retention_facts.

Section history_facts.
Local Arguments Sampler.next : simpl never.
Local Arguments interpolate : simpl never.
Local Arguments trial_props : simpl never.
Local Arguments click_notify : simpl never.

(** X13: a properties file that holds a table without rows stops [start]
    with a [ValueError], before the settings form and the main loop run,
    whatever the paths file is: the largest trial number of an empty column
    is not a number. *)
Theorem empty_properties_table_stops_start (es : ExperimentSettings.t)
    (fs : Files)
    (mainloop : CollectionStatus.t → option (gmap string cell)
                → option Experiment) :
  paths_props_csv fs = Table [] →
  start_history es fs = Raise ValueError
  ∧ start es fs mainloop = Raise ValueError.
Proof.
  intros H. assert (start_history es fs = Raise ValueError) as Hh.
  { unfold start_history, read_old_properties. by rewrite H. }
  split; [done|]. unfold start. by rewrite Hh.
Qed.

Lemma empty_properties_table_stops_start_witness :
  let fs := {| paths_csv := Absent; paths_props_csv := Table [] |} in
  start_history experiment_settings fs = Raise ValueError
  ∧ start experiment_settings fs example_mainloop = Raise ValueError.
Proof.
  apply (empty_properties_table_stops_start experiment_settings
           {| paths_csv := Absent; paths_props_csv := Table [] |}).
  reflexivity.
Defined.

(** X14: the collection status [start] computes from the files.  The two
    counts of collected paths lie between 0 and [max_nr_paths]; the last
    trial number is -1 without a properties table, and with one it is a
    trial number of the table that no other exceeds, so that the trial
    numbers of the new session are new. *)
Theorem collection_status_bounds (es : ExperimentSettings.t) (fs : Files)
    (cs : CollectionStatus.t) (user_settings : option (gmap string cell))
    (merge : bool) :
  start_history es fs = Ok (cs, user_settings, merge) →
  0 ≤ CollectionStatus.nr_mouse_trials_collected cs
    ≤ Z.max 0 (ExperimentSettings.max_nr_paths es)
  ∧ 0 ≤ CollectionStatus.nr_trackpad_trials_collected cs
      ≤ Z.max 0 (ExperimentSettings.max_nr_paths es)
  ∧ match paths_props_csv fs with
    | Table df =>
        CollectionStatus.last_trial_nr cs ∈ p_trial <$> df
        ∧ Forall (λ row, p_trial row < CollectionStatus.last_trial_nr cs + 1)
            df
        ∧ is_Some user_settings
    | _ => CollectionStatus.last_trial_nr cs = -1 ∧ user_settings = None
    end.
Proof.
  unfold start_history, read_old_properties.
  destruct (paths_props_csv fs) as [| |df] eqn:Hprops.
  - simpl. intros [= <- <- <-]. simpl. repeat split; lia.
  - simpl. intros [= <- <- <-]. simpl. repeat split; lia.
  - destruct (int_max (p_trial <$> df)) as [last|] eqn:Hmax; [|done].
    cbn [bind].
    destruct (extract_user_settings df) as [us|]; [|done]. cbn [bind].
    assert (last ∈ p_trial <$> df
            ∧ Forall (λ row, p_trial row < last + 1) df) as Hlast.
    { split.
      - clear -Hmax. destruct (p_trial <$> df) as [|a l]; [done|].
        injection Hmax as <-. clear df.
        revert a. induction l as [|b l IH]; intros a; simpl; [set_solver|].
        pose proof (IH (a `max` b)) as [H|H]%elem_of_cons.
        + rewrite H. destruct (Z.max_spec a b) as [[_ ->]|[_ ->]];
            set_solver.
        + set_solver.
      - apply int_max_upper in Hmax. rewrite Forall_fmap in Hmax.
        eapply Forall_impl; [exact Hmax|]. simpl. intros; lia. }
    destruct (paths_csv fs).
    + intros [= <- <- <-]. simpl. repeat split; try lia; try apply Hlast.
      by eexists.
    + intros [= <- <- <-]. simpl. repeat split; try lia; try apply Hlast.
      by eexists.
    + intros [= <- <- <-]. cbn [CollectionStatus.nr_mouse_trials_collected
        CollectionStatus.nr_trackpad_trials_collected
        CollectionStatus.last_trial_nr].
      assert (∀ m,
        (length (filter (λ t : Z, (ExperimentSettings.max_training_nr es ≤ t)%Z)
                   (nlargest (ExperimentSettings.max_nr_paths es)
                      (trials_of m df)))
         ≤ Z.to_nat (ExperimentSettings.max_nr_paths es))%nat) as Hlen.
      { intros m. etrans; [apply length_filter|apply length_nlargest]. }
      pose proof (Hlen 0). pose proof (Hlen 1).
      repeat split; try lia; try apply Hlast. by eexists.
Qed.

Lemma example_history_status :
  match start_history experiment_settings example_files with
  | Ok (cs, _, merge) =>
      CollectionStatus.last_trial_nr cs = 25 ∧ merge = true
  | Raise _ => False
  end.
Proof. vm_compute. done. Qed.

Lemma collection_status_bounds_witness :
  ∃ cs user_settings merge,
    start_history experiment_settings example_files
    = Ok (cs, user_settings, merge)
    ∧ 0 ≤ CollectionStatus.nr_mouse_trials_collected cs ≤ Z.max 0 15
    ∧ 0 ≤ CollectionStatus.nr_trackpad_trials_collected cs ≤ Z.max 0 15
    ∧ CollectionStatus.last_trial_nr cs ∈ p_trial <$> example_history
    ∧ Forall (λ row, p_trial row < CollectionStatus.last_trial_nr cs + 1)
        example_history
    ∧ is_Some user_settings.
Proof.
  pose proof example_history_status as H.
  destruct (start_history experiment_settings example_files)
    as [[[cs us] merge]|] eqn:E; [|destruct H].
  exists cs, us, merge. split; [reflexivity|].
  exact (collection_status_bounds experiment_settings example_files
           cs us merge E).
Defined.

End history_facts.

Section knot_facts.
Local Arguments Sampler.next : simpl never.
Local Arguments interpolate : simpl never.
Local Arguments trial_props : simpl never.
Local Arguments click_notify : simpl never.
Local Open Scope Q_scope.





End knot_facts.

Section form_facts.
Local Arguments Sampler.next : simpl never.
Local Arguments interpolate : simpl never.
Local Arguments trial_props : simpl never.
Local Arguments click_notify : simpl never.

Lemma Settings_ok_accepted (v : FormValues) (us : gmap string cell) :
  Settings_ok v = Accepted us →
  us = list_to_map
         [("right_handed", CInt (f_handed v));
          ("right_trackpad_handed", CInt (f_right_trackpad_handed v));
          ("right_mouse_handed", CInt (f_right_mouse_handed v));
          ("use_tue_laptop", CInt (f_use_tue_laptop v));
          ("mouse_speed", CInt (f_mouse_speed v));
          ("trackpad_speed_set", CInt (f_trackpad_speed v));
          ("mouse_accuracy", CInt (f_mouse_accuracy v));
          ("input_method", CInt (f_input_method v));
          ("major", CStr (f_major v));
          ("gender", CInt (f_gender v))]
  ∧ f_handed v ≠ -1 ∧ f_right_trackpad_handed v ≠ -1
  ∧ f_right_mouse_handed v ≠ -1 ∧ f_use_tue_laptop v ≠ -1
  ∧ f_gender v ≠ -1 ∧ f_major v ≠ please_choose ∧ f_input_method v ≠ -1
  ∧ (f_use_tue_laptop v = 1 →
     1 ≤ f_mouse_speed v ∧ 1 ≤ f_mouse_accuracy v ∧ 1 ≤ f_trackpad_speed v).
Proof.
  unfold Settings_ok.
  destruct (_ || _) eqn:E1; [done|].
  destruct (_ && _) eqn:E2; [done|]. intros [= <-]. split; [done|].
  repeat (apply orb_false_iff in E1 as [E1 ?]).
  repeat match goal with
         | H : bool_decide _ = false |- _ => apply bool_decide_eq_false_1 in H
         end.
  split_and!; try done.
  intros Hl. rewrite (bool_decide_eq_true_2 _ Hl) in E2. simpl in E2.
  repeat (apply orb_false_iff in E2 as [E2 ?]).
  repeat match goal with
         | H : bool_decide _ = false |- _ => apply bool_decide_eq_false_1 in H
         end.
  lia.
Qed.

Lemma Settings_ok_complete (v : FormValues) (us : gmap string cell) :
  Settings_ok v = Accepted us → complete UserSettings_accepted_keys us.
Proof.
  intros [-> _]%Settings_ok_accepted.
  unfold complete, UserSettings_accepted_keys.
  repeat (apply Forall_cons; split; [by eexists|]). constructor.
Qed.

(** X16: the form calls the callback only with complete user settings.
    When OK is accepted, none of the seven required answers is the
    placeholder, with a TU/e laptop the three mouse settings are ticked, and
    the user settings have all ten accepted keys; so the experiment is
    built without error, and in every run of it each click on the target
    that reads complete system settings records its trial. *)
Theorem form_gives_complete_settings (v : FormValues)
    (user_settings : gmap string cell) :
  Settings_ok v = Accepted user_settings →
  (f_handed v ≠ -1 ∧ f_right_trackpad_handed v ≠ -1
   ∧ f_right_mouse_handed v ≠ -1 ∧ f_use_tue_laptop v ≠ -1
   ∧ f_gender v ≠ -1 ∧ f_major v ≠ please_choose ∧ f_input_method v ≠ -1)
  ∧ (f_use_tue_laptop v = 1 →
     1 ≤ f_mouse_speed v ∧ 1 ≤ f_mouse_accuracy v ∧ 1 ≤ f_trackpad_speed v)
  ∧ complete UserSettings_accepted_keys user_settings
  ∧ ∀ es cs clock,
      ∃ w0, closed_settings user_settings es cs clock = Ok w0
            ∧ input_method w0.1 = CInt (f_input_method v)
            ∧ ∀ evs w, Forall reader_complete evs → run evs w0 = Some w →
                       Forall2 recorded_as (list_with_dataframes w.1)
                         (prop_list w.1).
Proof.
  intros Hok. pose proof (Settings_ok_complete v _ Hok) as Hc.
  destruct (Settings_ok_accepted v _ Hok)
    as (Hus & H1 & H2 & H3 & H4 & H5 & H6 & H7 & H8).
  split; [done|]. split; [done|]. split; [done|].
  intros es cs clock. unfold closed_settings.
  assert (getitem user_settings "input_method"
          = Ok (CInt (f_input_method v))) as Him.
  { rewrite Hus. reflexivity. }
  destruct (Experiment_init user_settings es cs clock) as [w0|] eqn:E.
  2:{ unfold Experiment_init in E. by rewrite Him in E. }
  exists w0. split; [done|]. split.
  - apply init_records in E as (E & _). congruence.
  - intros evs w Hevs Hrun.
    by apply (recorded_run user_settings es cs clock w0 evs w).
Qed.

Lemma form_gives_complete_settings_witness :
  ∃ user_settings,
    Settings_ok example_form = Accepted user_settings
    ∧ complete UserSettings_accepted_keys user_settings
    ∧ ∀ es cs clock,
        ∃ w0, closed_settings user_settings es cs clock = Ok w0
              ∧ input_method w0.1 = CInt (f_input_method example_form)
              ∧ ∀ evs w, Forall reader_complete evs → run evs w0 = Some w →
                         Forall2 recorded_as (list_with_dataframes w.1)
                           (prop_list w.1).
Proof.
  eexists. split; [reflexivity|].
  apply (form_gives_complete_settings example_form). reflexivity.
Defined.

Lemma Settings_ok_unanswered (v : FormValues) :
  f_right_trackpad_handed v = -1 ∨ f_right_mouse_handed v = -1 →
  Settings_ok v = Rejected "Please fill in all the fields.".
Proof.
  unfold Settings_ok. intros [H|H]; rewrite H;
    rewrite (bool_decide_eq_true_2 (-1 = -1)) by done;
    by rewrite ?orb_true_r.
Qed.

Lemma Settings_ok_trackpad_speed (v : FormValues) :
  f_trackpad_speed v = -1 → f_use_tue_laptop v = 1 →
  ∃ text, Settings_ok v = Rejected text.
Proof.
  unfold Settings_ok. intros H1 H2. destruct (_ || _); [by eexists|].
  rewrite H1, H2.
  rewrite (bool_decide_eq_true_2 (1 = 1)) by done.
  rewrite (bool_decide_eq_true_2 (-1 < 1)) by done.
  rewrite orb_true_r. by eexists.
Qed.

(** X17: the form of a later session.  The user settings read from a
    properties table never make the form fail, and each variable of the
    form is set to [int] of the field of its column in the last row of the
    table ([major] and [gender]: to the field itself); so none of these
    fields is empty.  The three columns that older tables lack leave their
    variables at -1; when the form then shows -1 for one of the two hands,
    pressing OK is refused, and with a TU/e laptop also when it shows -1
    for the trackpad speed: the user has to answer again. *)
Theorem later_form_is_prefilled (df_props_old : list TrialProps)
    (user_settings : gmap string cell) :
  extract_user_settings df_props_old = Ok user_settings →
  ∃ s,
    Settings_init (Some user_settings) = Ok s
    ∧ int_of_column df_props_old "use_tue_laptop" = Ok (v_use_tue_laptop s)
    ∧ int_of_column df_props_old "mouse_speed" = Ok (v_mouse_speed s)
    ∧ int_of_column df_props_old "mouse_accuracy" = Ok (v_mouse_accuracy s)
    ∧ int_of_column df_props_old "right_handed" = Ok (v_handed s)
    ∧ int_of_column df_props_old "input_method" = Ok (v_input_method s)
    ∧ iloc_last df_props_old "major" = Ok (v_major s)
    ∧ iloc_last df_props_old "gender" = Ok (v_gender s)
    ∧ (if has_column df_props_old "right_trackpad_handed"
       then int_of_column df_props_old "right_trackpad_handed"
            = Ok (v_trackpad_hand s)
       else v_trackpad_hand s = CInt (-1))
    ∧ (if has_column df_props_old "right_mouse_handed"
       then int_of_column df_props_old "right_mouse_handed"
            = Ok (v_mouse_hand s)
       else v_mouse_hand s = CInt (-1))
    ∧ (if has_column df_props_old "trackpad_speed_set"
       then int_of_column df_props_old "trackpad_speed_set"
            = Ok (v_trackpad_speed s)
       else v_trackpad_speed s = CInt (-1))
    ∧ ∀ v, form_shows s v →
           (has_column df_props_old "right_trackpad_handed" = false
            ∨ has_column df_props_old "right_mouse_handed" = false →
            Settings_ok v = Rejected "Please fill in all the fields.")
           ∧ (has_column df_props_old "trackpad_speed_set" = false →
              f_use_tue_laptop v = 1 →
              ∃ text, Settings_ok v = Rejected text).
Proof.
  unfold extract_user_settings.
  destruct (int_of_column df_props_old "use_tue_laptop") as [c1|] eqn:E1;
    [|done].
  destruct (int_of_column df_props_old "mouse_speed") as [c2|] eqn:E2;
    [|done].
  destruct (int_of_column df_props_old "mouse_accuracy") as [c3|] eqn:E3;
    [|done].
  destruct (int_of_column df_props_old "right_handed") as [c4|] eqn:E4;
    [|done].
  destruct (int_of_column df_props_old "input_method") as [c5|] eqn:E5;
    [|done].
  destruct (iloc_last df_props_old "major") as [c6|] eqn:E6; [|done].
  destruct (iloc_last df_props_old "gender") as [c7|] eqn:E7; [|done].
  cbn [bind].
  destruct (has_column df_props_old "right_trackpad_handed") eqn:L1;
    [destruct (int_of_column df_props_old "right_trackpad_handed")
       as [c8|] eqn:E8; [cbn [bind]|done]|];
  (destruct (has_column df_props_old "right_mouse_handed") eqn:L2;
    [destruct (int_of_column df_props_old "right_mouse_handed")
       as [c9|] eqn:E9; [cbn [bind]|done]|]);
  (destruct (has_column df_props_old "trackpad_speed_set") eqn:L3;
    [destruct (int_of_column df_props_old "trackpad_speed_set")
       as [c10|] eqn:E10; [cbn [bind]|done]|]).
  all: cbn [bind]; intros [= <-]; eexists.
  all: split; [vm_compute; reflexivity|].
  all: unfold form_shows.
  all: cbn [v_major v_use_tue_laptop v_mouse_speed v_trackpad_speed
            v_mouse_accuracy v_handed v_trackpad_hand v_mouse_hand
            v_input_method v_gender].
  all: split_and!; try done.
  all: intros v (F1 & F2 & F3 & F4 & F5 & F6 & F7 & F8 & F9 & F10); split.
  all: try (intros [?|?];
            [try done; apply Settings_ok_unanswered; left; congruence
            |try done; apply Settings_ok_unanswered; right; congruence]).
  all: intros ? Hl; try done; apply Settings_ok_trackpad_speed; congruence.
Qed.

Lemma example_legacy_settings :
  match extract_user_settings [example_legacy_row] with
  | Ok _ => has_column [example_legacy_row] "right_trackpad_handed" = false
  | Raise _ => False
  end.
Proof. vm_compute. done. Qed.

Lemma later_form_is_prefilled_witness :
  ∃ user_settings s,
    extract_user_settings [example_legacy_row] = Ok user_settings
    ∧ Settings_init (Some user_settings) = Ok s
    ∧ v_trackpad_hand s = CInt (-1)
    ∧ ∀ v, form_shows s v →
           Settings_ok v = Rejected "Please fill in all the fields.".
Proof.
  pose proof example_legacy_settings as H.
  destruct (extract_user_settings [example_legacy_row]) as [us|] eqn:E;
    [|destruct H].
  destruct (later_form_is_prefilled _ us E)
    as (s & H2 & _ & _ & _ & _ & _ & _ & _ & H3 & _ & _ & H4).
  rewrite H in H3.
  exists us, s. split; [reflexivity|]. split; [exact H2|].
  split; [exact H3|].
  intros v Hv. apply (proj1 (H4 v Hv)). left. exact H.
Defined.

(** Fields that are not integers.  A string of digits is converted.  A
    table that has a legacy column, with an empty field in its last row,
    is refused with the [ValueError] of [int(nan)], while an empty field
    in an earlier row does not matter.  A table without a required column
    is refused with [KeyError], a table without rows with [IndexError]. *)
Example extract_user_settings_examples :
  py_int (CStr "10") = Ok 10
  ∧ py_int (CStr " -1_000 ") = Ok (-1000)
  ∧ py_int (CStr "007") = Ok 7
  ∧ py_int (CStr "1.5") = Raise ValueError
  ∧ py_int (CStr "1__0") = Raise ValueError
  ∧ py_int (CStr "- 7") = Raise ValueError
  ∧ py_int (CStr "") = Raise ValueError
  ∧ extract_user_settings [example_row 3; example_legacy_row]
    = Raise ValueError
  ∧ match extract_user_settings [example_legacy_row; example_row 4] with
    | Ok user_settings =>
        user_settings !! "right_trackpad_handed" = Some (CInt 1)
    | Raise _ => False
    end
  ∧ extract_user_settings
      [{| p_trial := 0; p_trial_for_input_method := 0; p_cells := ∅ |}]
    = Raise KeyError
  ∧ extract_user_settings [] = Raise IndexError.
Proof. vm_compute. repeat split. Qed.

End form_facts.

Section reader_facts.
Local Arguments Sampler.next : simpl never.
Local Arguments interpolate : simpl never.
Local Arguments trial_props : simpl never.
Local Arguments click_notify : simpl never.

Lemma complete_insert (keys : list string) (k : string) (c : cell)
    (d : gmap string cell) :
  complete keys d → complete keys (<[k := c]> d).
Proof.
  unfold complete. intros H. eapply Forall_impl; [exact H|].
  intros k' [v Hv]. cbv beta.
  destruct (decide (k = k')) as [->|Hne].
  - rewrite lookup_insert_eq. by eexists.
  - rewrite lookup_insert_ne by done. by eexists.
Qed.

Lemma read_mouse_complete (keys : list string) (p : WindowsProbe)
    (d : gmap string cell) :
  complete keys d → complete keys (read_mouse p d).
Proof.
  intros H. unfold read_mouse.
  destruct (spi_mouse_speed p); [|done].
  destruct (spi_mouse p) as [[[a b] c]|]; by repeat apply complete_insert.
Qed.

Lemma read_touchpad_complete (keys : list string)
    (keys_to_read : option (list string)) (p : WindowsProbe)
    (d d' : gmap string cell) :
  complete keys d → read_touchpad keys_to_read p d = Returned d' →
  complete keys d'.
Proof.
  intros H. unfold read_touchpad.
  destruct (open_key p); cbn [negb]; [|by intros [= <-]].
  destruct keys_to_read as [ks|]; [|done].
  repeat case_match; try done; intros [= <-];
    by repeat apply complete_insert.
Qed.

Lemma init_complete (sys : System) (screen : Screen) :
  reader_ok (SystemSettingsReader_init sys screen).
Proof.
  split.
  - unfold complete, SystemSettings_accepted_keys. cbn.
    repeat (apply Forall_cons; split; [by eexists|]). constructor.
  - intros _. unfold windows_keys. cbn.
    repeat (apply Forall_cons; split; [reflexivity|]). constructor.
Qed.

(** X18: the system settings a click reads.  Take a reader whose dict
    holds all ten accepted keys, with the six Windows settings at -1 off
    Windows 10: the state in which [__init__] leaves it ([init_complete]).
    Every reading that returns gives the reader's own dict, again with all
    ten keys and with the screen size of that moment, and leaves the reader
    in such a state.  Off Windows 10 a reading always returns.  A reading
    raises [AttributeError] exactly on Windows 10 when the registry key
    opens although no list of its values was stored when the reader was
    built. *)
Theorem reader_gives_complete_settings (r : SystemSettingsReader)
    (p : WindowsProbe) (screen : Screen) :
  reader_ok r →
  (∀ r' d,
     extract_mouse_properties r p screen = Returned (r', d) →
     d = _system_settings r' ∧ reader_ok r'
     ∧ complete SystemSettings_accepted_keys d
     ∧ d !! "screen_width" = Some (CInt (winfo_screenwidth screen))
     ∧ d !! "screen_height" = Some (CInt (winfo_screenheight screen))
     ∧ in_windows_10 r' = in_windows_10 r
     ∧ keys_to_read r' = keys_to_read r)
  ∧ (in_windows_10 r = false →
     ∃ r' d, extract_mouse_properties r p screen = Returned (r', d))
  ∧ (extract_mouse_properties r p screen = Raised AttributeError
     ↔ in_windows_10 r = true ∧ keys_to_read r = None ∧ open_key p = true).
Proof.
  intros [Hc Hw]. split; [|split].
  - intros r' d. unfold extract_mouse_properties.
    destruct (in_windows_10 r) eqn:Hwin.
    + unfold extract_mouse_props_windows.
      destruct (read_touchpad _ _ _) as [d1|] eqn:E1; [|done].
      intros [= <- <-]. cbn.
      assert (complete SystemSettings_accepted_keys
                (<["screen_height" := CInt (winfo_screenheight screen)]>
                   (<["screen_width" := CInt (winfo_screenwidth screen)]>
                      (read_mouse p d1)))) as Hd.
      { do 2 apply complete_insert. apply read_mouse_complete.
        by apply (read_touchpad_complete _ (keys_to_read r) p
                    (_system_settings r)). }
      split_and!; try done.
      * split; [done|]. cbn. by rewrite Hwin.
      * rewrite lookup_insert_ne by done. by rewrite lookup_insert_eq.
      * by rewrite lookup_insert_eq.
    + intros [= <- <-]. cbn.
      assert (complete SystemSettings_accepted_keys
                (<["screen_height" := CInt (winfo_screenheight screen)]>
                   (<["screen_width" := CInt (winfo_screenwidth screen)]>
                      (_system_settings r)))) as Hd.
      { by do 2 apply complete_insert. }
      split_and!; try done.
      * split; [done|]. cbn. intros _. specialize (Hw eq_refl).
        unfold windows_keys in *.
        repeat match goal with
               | H : Forall _ (_ :: _) |- _ =>
                   apply Forall_cons in H as [? H]
               end.
        repeat (apply Forall_cons; split;
                [by rewrite !lookup_insert_ne by done|]).
        constructor.
      * rewrite lookup_insert_ne by done. by rewrite lookup_insert_eq.
      * by rewrite lookup_insert_eq.
  - intros Hwin. unfold extract_mouse_properties. rewrite Hwin.
    by eexists _, _.
  - unfold extract_mouse_properties.
    destruct (in_windows_10 r); [|split; [done|by intros [? _]]].
    unfold extract_mouse_props_windows, read_touchpad.
    destruct (open_key p); cbn [negb]; [|split; [done|by intros (_&_&?)]].
    destruct (keys_to_read r) as [ks|]; [|done].
    split; [|by intros (_&?&_)].
    repeat case_match; try done. intros. simplify_eq.
Qed.

Lemma reader_gives_complete_settings_witness :
  let r := SystemSettingsReader_init example_windows example_screen in
  reader_ok r
  ∧ (∀ r' d,
       extract_mouse_properties r example_probe example_screen
       = Returned (r', d) →
       d = _system_settings r' ∧ reader_ok r'
       ∧ complete SystemSettings_accepted_keys d
       ∧ d !! "screen_width" = Some (CInt 1920)
       ∧ d !! "screen_height" = Some (CInt 1080)
       ∧ in_windows_10 r' = in_windows_10 r
       ∧ keys_to_read r' = keys_to_read r)
  ∧ (in_windows_10 r = false →
     ∃ r' d,
       extract_mouse_properties r example_probe example_screen
       = Returned (r', d))
  ∧ (extract_mouse_properties r example_probe example_screen
     = Raised AttributeError
     ↔ in_windows_10 r = true ∧ keys_to_read r = None
       ∧ open_key example_probe = true).
Proof.
  split; [apply init_complete|].
  apply (reader_gives_complete_settings
           (SystemSettingsReader_init example_windows example_screen)
           example_probe example_screen).
  apply init_complete.
Defined.

(** On the Linux system a reading gives the system settings of the example
    session; on the Windows system the reading raises. *)
Example reader_examples :
  match extract_mouse_properties
          (SystemSettingsReader_init example_linux example_screen)
          example_probe example_screen with
  | Returned (_, d) =>
      (λ k, d !! k) <$> SystemSettings_accepted_keys
      = (λ k, example_mouse_props !! k) <$> SystemSettings_accepted_keys
  | Raised _ => False
  end
  ∧ extract_mouse_properties
      (SystemSettingsReader_init example_windows example_screen)
      example_probe example_screen = Raised AttributeError.
Proof. split; vm_compute; reflexivity. Qed.

End reader_facts.

Section two_sessions.
Local Arguments Sampler.next : simpl never.
Local Arguments interpolate : simpl never.
Local Arguments trial_props : simpl never.
Local Arguments click_notify : simpl never.

Lemma last_filter {A} (P : A → Prop) `{∀ x, Decision (P x)} (l : list A)
    (x : A) :
  last l = Some x → P x → last (filter P l) = Some x.
Proof.
  intros Hl HP. apply last_Some in Hl as [l' ->].
  rewrite filter_app, filter_cons, filter_nil.
  rewrite decide_True by done. by rewrite last_snoc.
Qed.

Lemma int_max_of_largest (l : list Z) (x : Z) :
  x ∈ l → Forall (λ t, t ≤ x) l → int_max l = Ok x.
Proof.
  destruct l as [|a l]; [by intros ?%elem_of_nil|]. simpl.
  intros Hin Hall. f_equal.
  apply Forall_cons in Hall as [Ha Hall].
  assert (∀ b, b ≤ x → (b = x ∨ x ∈ l) → foldl Z.max b l = x) as H.
  { clear Hin Ha. induction l as [|c l IH]; intros b Hb Hx; simpl.
    - destruct Hx as [->|Hx]; [done|by apply elem_of_nil in Hx].
    - apply Forall_cons in Hall as [Hc Hall]. apply IH; [done|lia|].
      destruct Hx as [->|[->|Hx]%elem_of_cons]; [left; lia|left; lia|by right]. }
  apply H; [done|]. apply elem_of_cons in Hin as [->|Hin]; [by left|by right].
Qed.

Lemma iloc_last_cell (df : list TrialProps) (row : TrialProps)
    (k : string) (c : cell) :
  last df = Some row → p_cells row !! k = Some c →
  iloc_last df k = Ok c ∧ has_column df k = true.
Proof.
  intros Hl Hc. unfold iloc_last. rewrite Hl, Hc. split; [done|].
  unfold has_column. apply existsb_exists. exists row. split.
  - apply list_elem_of_In. apply last_Some in Hl as [l' ->].
    apply elem_of_app. right. by apply list_elem_of_singleton.
  - by rewrite Hc.
Qed.

(** When [start] merges the old frames, the last trial number of the
    collection status is the largest trial number of the properties
    table. *)
Lemma start_history_merge (es : ExperimentSettings.t) (fs : Files)
    (cs : CollectionStatus.t) (offered : option (gmap string cell)) :
  start_history es fs = Ok (cs, offered, true) →
  ∃ df_paths_old df_props_old,
    paths_csv fs = Table df_paths_old
    ∧ paths_props_csv fs = Table df_props_old
    ∧ int_max (p_trial <$> df_props_old)
      = Ok (CollectionStatus.last_trial_nr cs).
Proof.
  unfold start_history, read_old_properties.
  destruct (paths_props_csv fs) as [| |df] eqn:Hprops;
    [by destruct (paths_csv fs)..|].
  destruct (int_max (p_trial <$> df)) as [last|] eqn:Hmax; [|done].
  cbn [bind]. destruct (extract_user_settings df) as [us|]; [|done].
  cbn [bind]. destruct (paths_csv fs) as [| |dp]; [done..|].
  intros [= <- <-]. by eexists _, _.
Qed.

(** The records of a session carry the user settings of the session. *)
Lemma records_of_settings (user_settings : gmap string cell)
    (es : ExperimentSettings.t) (cs : CollectionStatus.t) (clock : Q)
    (w0 : Experiment * Tk) (evs : list event) (w : Experiment * Tk) :
  Experiment_init user_settings es cs clock = Ok w0 →
  run evs w0 = Some w →
  Forall (λ props,
            Forall (λ k, p_cells props !! k = user_settings !! k)
              UserSettings_accepted_keys)
    (prop_list w.1).
Proof.
  intros Hinit Hrun.
  apply init_records in Hinit
    as (_ & Hus & _ & _ & _ & _ & _ & _ & _ & Hp & _).
  assert (_user_settings w.1 = user_settings
          ∧ Forall (λ props,
                      Forall (λ k, p_cells props !! k = user_settings !! k)
                        UserSettings_accepted_keys)
              (prop_list w.1)) as [_ H]; [|exact H].
  run_induction (λ _ : event, True) Hrun; [|apply Forall_True|].
  - intros ev w1 w2 _ [H1 H2] Hstep.
    apply records_step in Hstep as [[Hsame _]|(c & i & -> & Hc & Ht & ->)].
    + by destruct Hsame as (->&_&_&_&_&_&_&_&_&_&->).
    + destruct (click_on_target_ledger c w1 i Hc Ht)
        as (path & _ & _ & _ & -> & _ & _
            & [(_ & -> & _)|(props & Hprops & -> & _)]); [done|].
      split; [done|]. apply Forall_app. split; [done|].
      constructor; [|constructor].
      apply trial_props_cells in Hprops as (_ & _ & Hprops & _).
      by rewrite H1 in Hprops.
  - rewrite Hus, Hp. split; [done|constructor].
Qed.

Lemma trials_run (user_settings : gmap string cell)
    (es : ExperimentSettings.t) (cs : CollectionStatus.t) (clock : Q)
    (w0 : Experiment * Tk) (evs : list event) (w : Experiment * Tk) :
  Experiment_init user_settings es cs clock = Ok w0 →
  run evs w0 = Some w →
  p_trial <$> prop_list w.1
  = seqZ (CollectionStatus.last_trial_nr cs + 1)
      (Z.of_nat (length (prop_list w.1)))
  ∧ trial w.1
    = CollectionStatus.last_trial_nr cs + 1
      + Z.of_nat (length (prop_list w.1)).
Proof.
  intros Hinit Hrun.
  pose proof (session_trials _ _ _ _ _ _ _ Hinit Hrun) as Hp.
  split; [done|].
  apply init_records in Hinit
    as (_ & _ & _ & Ht & _ & _ & _ & _ & _ & Hp0 & _).
  set (first := CollectionStatus.last_trial_nr cs + 1) in *.
  assert (p_trial <$> prop_list w.1 = seqZ first (trial w.1 - first)
          ∧ first ≤ trial w.1) as [H1 H2].
  { run_induction (λ _ : event, True) Hrun; [|apply Forall_True|].
    - intros ev w1 w2 _ [H1 H2] Hstep.
      by apply (session_trials_step first ev w1).
    - rewrite Hp0, Ht, Z.sub_diag. split; [done|lia]. }
  apply (f_equal length) in H1. rewrite length_fmap, length_seqZ in H1. lia.
Qed.

(** X19: two sessions in a row.  A session started from the form, in which
    the input method is trackpad (0) or mouse (1), that completes at least
    one trial with complete system settings, writes files from which the
    next [start] reads a collection status without error: the user settings
    it offers to the form are those of this session, the old frames will be
    merged, and the next trial number follows the last one recorded. *)
Theorem next_session_continues (v : FormValues)
    (user_settings : gmap string cell) (es : ExperimentSettings.t)
    (fs : Files) (cs : CollectionStatus.t)
    (offered : option (gmap string cell)) (merge : bool) (clock : Q)
    (w0 : Experiment * Tk) (evs : list event) (w : Experiment * Tk) :
  Settings_ok v = Accepted user_settings →
  f_input_method v = 0 ∨ f_input_method v = 1 →
  1 ≤ ExperimentSettings.max_nr_paths es →
  start_history es fs = Ok (cs, offered, merge) →
  closed_settings user_settings es cs clock = Ok w0 →
  run evs w0 = Some w →
  Forall reader_complete evs →
  list_with_dataframes w.1 ≠ [] →
  ∃ paths df_int props cs',
    start_export es fs merge (Some w.1)
    = Ok (Some (paths, df_int, props),
          {| paths_csv := Table paths; paths_props_csv := Table props |})
    ∧ start_history es
        {| paths_csv := Table paths; paths_props_csv := Table props |}
      = Ok (cs', Some user_settings, true)
    ∧ CollectionStatus.last_trial_nr cs' + 1 = trial w.1.
Proof.
  intros Hok Hmeth Hn Hhist Hinit Hrun Hevs Hpaths.
  unfold closed_settings in Hinit.
  pose proof (Settings_ok_complete v _ Hok) as Hc.
  destruct (Settings_ok_accepted v _ Hok) as (Hus & _).
  (* the session *)
  pose proof (recorded_run _ _ _ _ _ _ _ Hc Hinit Hrun Hevs) as Hrec.
  destruct (paths_run _ _ _ _ _ _ _ Hinit Hrun) as (_ & _ & Hip & _).
  destruct (trials_run _ _ _ _ _ _ _ Hinit Hrun) as [Hnum Htrial].
  pose proof (records_of_settings _ _ _ _ _ _ _ Hinit Hrun) as Hcells.
  assert (interpolated_paths w.1 ≠ []) as Hint.
  { intros E. rewrite E in Hip. by apply Forall2_nil_inv_r in Hip. }
  (* its last record *)
  destruct (last (prop_list w.1)) as [lastp|] eqn:Hlast.
  2:{ apply last_None in Hlast. rewrite Hlast in Hrec.
      by apply Forall2_nil_inv_r in Hrec. }
  pose proof Hlast as Hrecs. apply last_Some in Hrecs as [recs Hrecs].
  assert (p_trial lastp = trial w.1 - 1
          ∧ Forall (λ row, p_trial row ≤ trial w.1 - 1) (prop_list w.1)
          ∧ CollectionStatus.last_trial_nr cs ≤ trial w.1 - 1)
    as (Hlt & Hle & Hold).
  { split; [|split].
    - rewrite Hrecs in Hnum, Htrial. rewrite fmap_app, length_app in Hnum.
      rewrite length_app in Htrial. simpl in Hnum, Htrial.
      rewrite Nat2Z.inj_add, seqZ_app in Hnum by lia.
      apply app_inj_2 in Hnum as [_ Hnum]; [|done].
      injection Hnum as Hnum. lia.
    - apply Forall_forall. intros row Hrow.
      assert (p_trial row ∈ p_trial <$> prop_list w.1) as Hin.
      { apply list_elem_of_fmap. by exists row. }
      rewrite Hnum in Hin. apply elem_of_seqZ in Hin. lia.
    - rewrite Hrecs, length_app in Htrial. simpl in Htrial. lia. }
  assert (Forall (λ k, p_cells lastp !! k = user_settings !! k)
            UserSettings_accepted_keys) as Hlastc.
  { rewrite Forall_forall in Hcells. apply Hcells.
    rewrite Hrecs. apply elem_of_app. right. by apply list_elem_of_singleton. }
  unfold UserSettings_accepted_keys in Hlastc.
  repeat match goal with
         | H : Forall _ (_ :: _) |- _ => apply Forall_cons in H as [? H]
         end.
  clear Hlastc.
  repeat match goal with
         | H : p_cells lastp !! _ = user_settings !! _ |- _ =>
             rewrite Hus in H; unfold list_to_map in H;
             cbn [foldr fst snd] in H;
             repeat (rewrite lookup_insert_ne in H by done);
             rewrite lookup_insert_eq in H
         end.
  (* the frames that are written *)
  destruct (match merge, paths_csv fs, paths_props_csv fs with
            | true, Table df_paths_old, Table df_props_old =>
                (df_paths_old ++ concat (list_with_dataframes w.1),
                 df_props_old ++ prop_list w.1)
            | _, _, _ => (concat (list_with_dataframes w.1), prop_list w.1)
            end) as [df merged] eqn:Em.
  assert (∃ pre, merged = pre ++ prop_list w.1
                 ∧ Forall (λ row, p_trial row ≤ trial w.1 - 1) pre)
    as (pre & Hmerged & Hpre).
  { destruct merge.
    - destruct (start_history_merge _ _ _ _ Hhist)
        as (dp & old & Hp1 & Hp2 & Hmax).
      rewrite Hp1, Hp2 in Em. injection Em as <- <-. exists old.
      split; [done|]. apply int_max_upper in Hmax.
      rewrite Forall_fmap in Hmax. eapply Forall_impl; [exact Hmax|].
      simpl. intros. lia.
    - exists []. injection Em as <- <-. by split. }
  assert (prop_list w.1 ≠ []) as Hprops.
  { rewrite Hrecs. by destruct recs. }
  pose proof (start_export_some es fs merge w.1 df merged Hpaths Hint
                (or_introl Hprops) Em)
    as Hexp.
  cbv zeta in Hexp.
  set (n := ExperimentSettings.max_nr_paths es) in *.
  assert (Forall (λ row, p_trial row ≤ p_trial lastp) merged) as Hall.
  { rewrite Hmerged, Hlt. by apply Forall_app. }
  assert (lastp ∈ merged) as Hin.
  { rewrite Hmerged, Hrecs. apply elem_of_app. right. apply elem_of_app.
    right. by apply list_elem_of_singleton. }
  assert (has_input_method (f_input_method v) lastp) as Hhas.
  { unfold has_input_method.
    match goal with
    | H : p_cells lastp !! "input_method" = _ |- _ => rewrite H
    end.
    simpl. by case_bool_decide. }
  assert (last (retain n df merged).2 = Some lastp) as Hlastp.
  { unfold retain. cbn [snd]. apply last_filter.
    - rewrite Hmerged, last_app, Hlast. done.
    - rewrite Forall_forall in Hall.
      destruct Hmeth as [Hm|Hm]; rewrite Hm in Hhas; [right|left];
        (apply newest_in_nlargest; [done|done|done|]);
        intros row' Hrow' _; by apply Hall. }
  assert (int_max (p_trial <$> (retain n df merged).2)
          = Ok (trial w.1 - 1)) as Hmax.
  { rewrite <- Hlt. apply int_max_of_largest.
    - apply list_elem_of_fmap. exists lastp. split; [done|].
      apply last_Some in Hlastp as [l' ->]. apply elem_of_app. right.
      by apply list_elem_of_singleton.
    - rewrite Forall_fmap. unfold retain. cbn [snd].
      apply Forall_forall. intros row [_ Hrow]%list_elem_of_filter.
      rewrite Forall_forall in Hall. by apply Hall. }
  assert (extract_user_settings (retain n df merged).2 = Ok user_settings)
    as Hext.
  { unfold extract_user_settings, int_of_column.
    repeat match goal with
           | H : p_cells lastp !! ?k = Some _ |- _ =>
               rewrite ?(proj2 (iloc_last_cell _ _ k _ Hlastp H)),
                 (proj1 (iloc_last_cell _ _ k _ Hlastp H));
               clear H
           end.
    cbn [bind py_int]. f_equal. rewrite Hus. apply map_eq. intros k.
    unfold list_to_map. cbn [foldr fst snd].
    destruct (decide (k ∈ UserSettings_accepted_keys)) as [Hk|Hk].
    - unfold UserSettings_accepted_keys in Hk.
      repeat (apply elem_of_cons in Hk as [->|Hk];
              [by repeat first [rewrite lookup_insert_eq
                               |rewrite lookup_insert_ne by done]|]).
      by apply elem_of_nil in Hk.
    - unfold UserSettings_accepted_keys in Hk.
      repeat (apply not_elem_of_cons in Hk as [? Hk]).
      by rewrite !lookup_insert_ne by congruence. }
  eexists _, _, _, _. split; [exact Hexp|].
  unfold start_history, read_old_properties. cbn [paths_props_csv paths_csv].
  rewrite Hmax, Hext. cbn [bind]. split; [reflexivity|].
  cbn [CollectionStatus.last_trial_nr]. lia.
Qed.

Lemma example_two_sessions :
  match Settings_ok example_form with
  | Accepted us =>
      match start_history experiment_settings example_files with
      | Ok (cs, _, _) =>
          match closed_settings us experiment_settings cs 0 with
          | Ok w0 =>
              match run example_trial w0 with
              | Some w => length (list_with_dataframes w.1) = 1%nat
              | None => False
              end
          | Raise _ => False
          end
      | Raise _ => False
      end
  | Rejected _ => False
  end.
Proof. vm_compute. done. Qed.

Lemma next_session_continues_witness :
  ∃ us cs offered merge w0 w paths df_int props cs',
    Settings_ok example_form = Accepted us
    ∧ start_history experiment_settings example_files
      = Ok (cs, offered, merge)
    ∧ closed_settings us experiment_settings cs 0 = Ok w0
    ∧ run example_trial w0 = Some w
    ∧ start_export experiment_settings example_files merge (Some w.1)
      = Ok (Some (paths, df_int, props),
            {| paths_csv := Table paths; paths_props_csv := Table props |})
    ∧ start_history experiment_settings
        {| paths_csv := Table paths; paths_props_csv := Table props |}
      = Ok (cs', Some us, true)
    ∧ CollectionStatus.last_trial_nr cs' + 1 = trial w.1.
Proof.
  pose proof example_two_sessions as H.
  destruct (Settings_ok example_form) as [|us] eqn:E0; [destruct H|].
  destruct (start_history experiment_settings example_files)
    as [[[cs offered] merge]|] eqn:E1; [|destruct H].
  destruct (closed_settings us experiment_settings cs 0) as [w0|] eqn:E2;
    [|destruct H].
  destruct (run example_trial w0) as [w|] eqn:E3; [|destruct H].
  destruct (next_session_continues example_form us experiment_settings
              example_files cs offered merge 0 w0 example_trial w)
    as (paths & df_int & props & cs' & H1 & H2 & H3).
  - exact E0.
  - right. reflexivity.
  - vm_compute. discriminate.
  - exact E1.
  - exact E2.
  - exact E3.
  - exact (proj2 example_settings_complete).
  - intros E. rewrite E in H. discriminate.
  - exists us, cs, offered, merge, w0, w, paths, df_int, props, cs'.
    repeat (split; [done|]). done.
Defined.

End two_sessions.
